(** * Documentation compliance: triage, duplicate detection and migration

    A shallow embedding of [EnhancedDocCompliance]
    (.apm/agents/scripts/doc-compliance-registry-integration.py) and the
    properties its specification states about it.

    Conventions of the embedding.
    - Python [str] values are Rocq strings, sequences of 8-bit characters:
      the embedding is one of ASCII text.  On ASCII names [len], [zip],
      [in] and [str.lower] are the functions below; on a name with letters
      outside ASCII Python counts and lowercases code points, which the
      embedding does not follow.
    - [files] holds for each path the text Python reads from it in text
      mode, and writing stores the text given: the embedding is one of
      files whose lines end in a line feed, on a POSIX system, where text
      mode changes no character (a carriage return in a file would be
      translated on reading).
    - A file system path is the list of the components of an absolute,
      normalised POSIX path; [os.path] functions act on components, and
      [path_str] renders the path where the source uses it as text.
    - The object ([self.stats], [self.migration_plan]), the file system,
      standard input and standard output form one [state]; methods are
      computations in a state-and-exception monad.
    - The classifier ([DocumentLocationEnforcer]) and the operating system
      (which paths cannot be read or written, the clock, [os.walk]) are the
      fields of an environment [env]. *)

From Stdlib Require Import ZArith Lia Ascii String.
From stdpp Require Import gmap strings list.

Open Scope string_scope.
Open Scope list_scope.

(** ** Python strings *)

Module Str.

(** [c.lower()] for one character (ASCII). *)
Definition lower_ascii (c : ascii) : ascii :=
  let n := nat_of_ascii c in
  if (65 <=? n)%nat && (n <=? 90)%nat then ascii_of_nat (n + 32) else c.

(** [s.lower()] *)
Fixpoint lower (s : string) : string :=
  match s with
  | EmptyString => EmptyString
  | String c s' => String (lower_ascii c) (lower s')
  end.

(** [s.startswith(p)] *)
Definition startswith (s p : string) : bool := String.prefix p s.

(** [sub in s] *)
Fixpoint contains (sub s : string) : bool :=
  String.prefix sub s ||
  match s with
  | EmptyString => false
  | String _ s' => contains sub s'
  end.

(** [s.endswith(p)] *)
Fixpoint endswith (s p : string) : bool :=
  String.eqb s p ||
  match s with
  | EmptyString => false
  | String _ s' => endswith s' p
  end.

(** [s.replace(old, new)] for a non-empty [old]: the occurrences of [old]
    are found from left to right and do not overlap.  [skip] counts the
    characters of a matched occurrence that are still to be dropped. *)
Fixpoint replace_from (skip : nat) (old new s : string) : string :=
  match s with
  | EmptyString => EmptyString
  | String c s' =>
      match skip with
      | S k => replace_from k old new s'
      | O =>
          if String.prefix old s
          then new +:+ replace_from (String.length old - 1) old new s'
          else String c (replace_from 0 old new s')
      end
  end.

(** [s.replace("", new)] puts [new] before every character and at the end. *)
Fixpoint intersperse (new s : string) : string :=
  match s with
  | EmptyString => new
  | String c s' => new +:+ String c (intersperse new s')
  end.

Definition replace (old new s : string) : string :=
  if String.eqb old "" then intersperse new s else replace_from 0 old new s.

(** [sum(c1 == c2 for c1, c2 in zip(s1, s2))] *)
Fixpoint aligned_matches (s1 s2 : string) : nat :=
  match s1, s2 with
  | String c1 s1', String c2 s2' =>
      (if Ascii.eqb c1 c2 then 1 else 0) + aligned_matches s1' s2'
  | _, _ => 0
  end.

(** [sep.join(parts)] *)
Fixpoint join (sep : string) (parts : list string) : string :=
  match parts with
  | [] => ""
  | [p] => p
  | p :: ps => p +:+ sep +:+ join sep ps
  end.

End Str.

(** ** Paths *)

Definition Path := list string.

Module OsPath.

(** The text of a path, as the source prints and searches it. *)
Definition path_str (p : Path) : string := "/" +:+ Str.join "/" p.

(** [os.path.basename(p)] *)
Definition basename (p : Path) : string := List.last p "".

(** [os.path.dirname(p)] *)
Definition dirname (p : Path) : Path := List.removelast p.

(** [os.path.join(p, *parts)] with relative [parts]. *)
Definition join (p : Path) (parts : list string) : Path := p ++ parts.

(** Length of the longest common prefix of two component lists. *)
Fixpoint common (p q : Path) : nat :=
  match p, q with
  | x :: p', y :: q' => if String.eqb x y then S (common p' q') else 0
  | _, _ => 0
  end.

(** [os.path.relpath(p, start)]: one [..] for every component of [start]
    below the common prefix, then the rest of [p]. *)
Definition relpath (p start : Path) : list string :=
  let i := common start p in
  List.repeat ".." (List.length start - i) ++ List.skipn i p.

End OsPath.

(** ** Filename similarity *)

(** The cleaning done on each name by [names_are_similar]:
    [name.replace('.md', '').replace('-', '').replace('_', '')]. *)
Definition clean (name : string) : string :=
  Str.replace "_" "" (Str.replace "-" "" (Str.replace ".md" "" name)).

(** [a / b > 0.7] on two lengths.  Python divides in floating point; [a / b]
    is the double nearest to the quotient and [0.7] the double nearest to
    7/10, so for lengths below 10^15 the comparison agrees with the exact
    one, [7 * b < 10 * a], which is what is computed here.  [None] stands
    for [ZeroDivisionError]. *)
Definition ratio_exceeds_07 (a b : nat) : option bool :=
  if (b =? 0)%nat then None else Some (7 * b <? 10 * a)%nat.

(** [abs(a - b)] on two lengths. *)
Definition abs_diff (a b : nat) : nat := (a - b) + (b - a).

(** [names_are_similar(name1, name2)].  Python reads the returned expression
    as [A or B or (C and D)] and evaluates the division of [D] only when
    [A] and [B] are false and [C] is true. *)
Definition names_are_similar (name1 name2 : string) : option bool :=
  let clean1 := clean name1 in
  let clean2 := clean name2 in
  if Str.contains clean1 clean2 then Some true
  else if Str.contains clean2 clean1 then Some true
  else if (abs_diff (String.length clean1) (String.length clean2) <=? 2)%nat
  then ratio_exceeds_07 (Str.aligned_matches clean1 clean2)
         (Nat.max (String.length clean1) (String.length clean2))
  else Some false.

(** ** Data model *)

(** The dictionary returned by [analyze_document] has one of two shapes: the
    one of the [except] branch, with the keys [path], [error], [doc_type]
    (always ['error']) and [confidence] (always [0]), and the one built
    after a successful read. *)
Inductive DocumentAnalysis : Type :=
| ErrorAnalysis (path : Path) (error : string)
| DocAnalysis (path : Path) (doc_type : string) (confidence : Z)
    (correct_path : option Path) (needs_move : bool)
    (content_length : nat) (creation_date : string).

#[global] Instance DocumentAnalysis_eq_dec : EqDecision DocumentAnalysis.
Proof. solve_decision. Defined.

(** [analysis['path']] *)
Definition path (a : DocumentAnalysis) : Path :=
  match a with
  | ErrorAnalysis p _ => p
  | DocAnalysis p _ _ _ _ _ _ => p
  end.

(** [analysis.get('error')] *)
Definition get_error (a : DocumentAnalysis) : option string :=
  match a with
  | ErrorAnalysis _ e => Some e
  | DocAnalysis _ _ _ _ _ _ _ => None
  end.

(** [analysis['doc_type']] *)
Definition doc_type (a : DocumentAnalysis) : string :=
  match a with
  | ErrorAnalysis _ _ => "error"
  | DocAnalysis _ t _ _ _ _ _ => t
  end.

(** [analysis['confidence']] *)
Definition confidence (a : DocumentAnalysis) : Z :=
  match a with
  | ErrorAnalysis _ _ => 0%Z
  | DocAnalysis _ _ c _ _ _ _ => c
  end.

(** [analysis['needs_move']]; [None] when the key is missing. *)
Definition needs_move (a : DocumentAnalysis) : option bool :=
  match a with
  | ErrorAnalysis _ _ => None
  | DocAnalysis _ _ _ _ m _ _ => Some m
  end.

(** [analysis['correct_path']]; [None] when the key is missing,
    [Some None] when its value is Python's [None]. *)
Definition correct_path (a : DocumentAnalysis) : option (option Path) :=
  match a with
  | ErrorAnalysis _ _ => None
  | DocAnalysis _ _ _ c _ _ _ => Some c
  end.

(** Python truth value of a string. *)
Definition truthy (s : string) : bool := negb (String.eqb s "").

Record DuplicateGroup : Type := mkDuplicateGroup {
  dup_type : string;
  dup_documents : list DocumentAnalysis;
  dup_similarity : string
}.

#[global] Instance DuplicateGroup_eq_dec : EqDecision DuplicateGroup.
Proof. solve_decision. Defined.

Record ReferenceEdit : Type := mkReferenceEdit {
  ref_file : Path;
  old_ref : Path;
  new_ref : option Path;
  old_name : string
}.

#[global] Instance ReferenceEdit_eq_dec : EqDecision ReferenceEdit.
Proof. solve_decision. Defined.

Record MigrationPlan : Type := mkMigrationPlan {
  auto_moves : list DocumentAnalysis;
  suggested_moves : list DocumentAnalysis;
  manual_review : list DocumentAnalysis;
  duplicates : list DuplicateGroup;
  broken_refs : list ReferenceEdit
}.

Record RunStats : Type := mkRunStats {
  scanned : nat;
  detected : nat;
  high_confidence : nat;
  medium_confidence : nat;
  low_confidence : nat;
  moved : nat;
  renamed : nat;
  duplicates_found : nat;
  references_updated : nat
}.

(** The values [__init__] gives to [self.stats] and [self.migration_plan]. *)
Definition init_stats : RunStats := mkRunStats 0 0 0 0 0 0 0 0 0.
Definition init_plan : MigrationPlan := mkMigrationPlan [] [] [] [] [].

(** Exceptions the modelled code can meet. *)
Inductive exn : Type :=
| FileNotFoundError (p : Path)
| PermissionError (p : Path)
| KeyError (key : string)
| TypeError
| ZeroDivisionError
| EOFError.

(** [str(e)] *)
Definition str_exn (e : exn) : string :=
  match e with
  | FileNotFoundError p =>
      "[Errno 2] No such file or directory: '" +:+ OsPath.path_str p +:+ "'"
  | PermissionError p =>
      "[Errno 13] Permission denied: '" +:+ OsPath.path_str p +:+ "'"
  | KeyError k => "'" +:+ k +:+ "'"
  | TypeError => "expected str, bytes or os.PathLike object, not NoneType"
  | ZeroDivisionError => "division by zero"
  | EOFError => "EOF when reading a line"
  end.

(** What the program writes to standard output, one constructor for each
    [print] (and [input] prompt) of the modelled methods. *)
Inductive line : Type :=
| PrintAnalyzing
| PrintAnalyzed (i n : nat)
| PrintAnalysisComplete (n : nat)
| PrintPlan
| PrintNoMigrationsNeeded
| PromptProceed (total_moves : nat)
| PromptMove (src dst : string)
| PrintBackupCreated (backup_dir : Path)
| PrintMoved (src dst : string)
| PrintFailedToMove (src : Path) (e : string)
| PrintUpdatedReferences (file : string)
| PrintFailedToUpdate (file : Path) (e : string)
| PrintMigrationComplete (moved renamed references_updated : nat)
| PrintMigrationFailed (e : string) (backup_dir : Path)
| PrintFound (n : nat)
| PrintNoDocuments
| PrintDryRun.

(** The file system calls that change the disk, recorded when issued. *)
Inductive syscall : Type :=
| SysMakedirs (dir : Path)
| SysCopy (src dst : Path)
| SysMove (src dst : Path)
| SysWrite (file : Path) (content : string).

#[global] Instance syscall_eq_dec : EqDecision syscall.
Proof. solve_decision. Defined.

(** The environment: the classifier and the operating system. *)
Record env : Type := mkEnv {
  project_root : Path;
  (** [enforcer.detect_document_type(doc_path, {'content': c}, ...)] *)
  detect_document_type : Path -> string -> string * Z;
  (** [enforcer.get_correct_path(doc_type, doc_path, {'content': c})];
      [None] stands for a false value ([None] or the empty string). *)
  get_correct_path : string -> Path -> string -> option Path;
  (** paths whose [open(..., 'r')] or [read] raises *)
  unreadable : Path -> bool;
  (** paths that cannot be created or written *)
  unwritable : Path -> bool;
  (** [datetime.fromtimestamp(os.path.getctime(p)).isoformat()] *)
  creation_date_of : Path -> string;
  (** [datetime.now().strftime('%Y-%m-%d-%H-%M-%S')] *)
  timestamp : string;
  (** [os.path.exists(p)] for a directory *)
  dir_exists : Path -> bool;
  (** [os.walk(p)]: the pairs [(root, files)] in the order visited *)
  os_walk : Path -> list (Path * list string)
}.

(** The object and the world it acts on. *)
Record state : Type := mkState {
  stats : RunStats;
  migration_plan : MigrationPlan;
  files : gmap Path string;
  stdin : list string;
  stdout : list line;
  trace : list syscall
}.

(** ** Updates of the object's dictionaries *)

Definition set_scanned (n : nat) (s : RunStats) : RunStats :=
  mkRunStats n (detected s) (high_confidence s) (medium_confidence s)
    (low_confidence s) (moved s) (renamed s) (duplicates_found s)
    (references_updated s).

Definition incr_detected (s : RunStats) : RunStats :=
  mkRunStats (scanned s) (S (detected s)) (high_confidence s)
    (medium_confidence s) (low_confidence s) (moved s) (renamed s)
    (duplicates_found s) (references_updated s).

Definition incr_high_confidence (s : RunStats) : RunStats :=
  mkRunStats (scanned s) (detected s) (S (high_confidence s))
    (medium_confidence s) (low_confidence s) (moved s) (renamed s)
    (duplicates_found s) (references_updated s).

Definition incr_medium_confidence (s : RunStats) : RunStats :=
  mkRunStats (scanned s) (detected s) (high_confidence s)
    (S (medium_confidence s)) (low_confidence s) (moved s) (renamed s)
    (duplicates_found s) (references_updated s).

Definition incr_low_confidence (s : RunStats) : RunStats :=
  mkRunStats (scanned s) (detected s) (high_confidence s)
    (medium_confidence s) (S (low_confidence s)) (moved s) (renamed s)
    (duplicates_found s) (references_updated s).

Definition incr_moved (s : RunStats) : RunStats :=
  mkRunStats (scanned s) (detected s) (high_confidence s)
    (medium_confidence s) (low_confidence s) (S (moved s)) (renamed s)
    (duplicates_found s) (references_updated s).

Definition incr_renamed (s : RunStats) : RunStats :=
  mkRunStats (scanned s) (detected s) (high_confidence s)
    (medium_confidence s) (low_confidence s) (moved s) (S (renamed s))
    (duplicates_found s) (references_updated s).

Definition incr_duplicates_found (s : RunStats) : RunStats :=
  mkRunStats (scanned s) (detected s) (high_confidence s)
    (medium_confidence s) (low_confidence s) (moved s) (renamed s)
    (S (duplicates_found s)) (references_updated s).

Definition incr_references_updated (s : RunStats) : RunStats :=
  mkRunStats (scanned s) (detected s) (high_confidence s)
    (medium_confidence s) (low_confidence s) (moved s) (renamed s)
    (duplicates_found s) (S (references_updated s)).

Definition append_auto_moves (a : DocumentAnalysis) (p : MigrationPlan) : MigrationPlan :=
  mkMigrationPlan (auto_moves p ++ [a]) (suggested_moves p) (manual_review p)
    (duplicates p) (broken_refs p).

Definition append_suggested_moves (a : DocumentAnalysis) (p : MigrationPlan) : MigrationPlan :=
  mkMigrationPlan (auto_moves p) (suggested_moves p ++ [a]) (manual_review p)
    (duplicates p) (broken_refs p).

Definition append_manual_review (a : DocumentAnalysis) (p : MigrationPlan) : MigrationPlan :=
  mkMigrationPlan (auto_moves p) (suggested_moves p) (manual_review p ++ [a])
    (duplicates p) (broken_refs p).

Definition append_duplicates (g : DuplicateGroup) (p : MigrationPlan) : MigrationPlan :=
  mkMigrationPlan (auto_moves p) (suggested_moves p) (manual_review p)
    (duplicates p ++ [g]) (broken_refs p).

Definition append_broken_refs (r : ReferenceEdit) (p : MigrationPlan) : MigrationPlan :=
  mkMigrationPlan (auto_moves p) (suggested_moves p) (manual_review p)
    (duplicates p) (broken_refs p ++ [r]).

Definition set_stats (s : RunStats) (st : state) : state :=
  mkState s (migration_plan st) (files st) (stdin st) (stdout st) (trace st).

Definition set_migration_plan (p : MigrationPlan) (st : state) : state :=
  mkState (stats st) p (files st) (stdin st) (stdout st) (trace st).

Definition set_files (f : gmap Path string) (st : state) : state :=
  mkState (stats st) (migration_plan st) f (stdin st) (stdout st) (trace st).

Definition set_stdin (i : list string) (st : state) : state :=
  mkState (stats st) (migration_plan st) (files st) i (stdout st) (trace st).

Definition add_stdout (l : line) (st : state) : state :=
  mkState (stats st) (migration_plan st) (files st) (stdin st)
    (stdout st ++ [l]) (trace st).

Definition add_trace (c : syscall) (st : state) : state :=
  mkState (stats st) (migration_plan st) (files st) (stdin st) (stdout st)
    (trace st ++ [c]).

(** ** The monad of methods: state and exceptions *)

Inductive outcome (A : Type) : Type :=
| Return (a : A)
| Raise (e : exn).
Arguments Return {A} a.
Arguments Raise {A} e.

Definition M (A : Type) : Type := state -> outcome A * state.

#[global] Instance M_ret : MRet M := fun A a st => (Return a, st).

#[global] Instance M_bind : MBind M := fun A B f m st =>
  match m st with
  | (Return a, st') => f a st'
  | (Raise e, st') => (Raise e, st')
  end.

(** [raise e] *)
Definition raise {A : Type} (e : exn) : M A := fun st => (Raise e, st).

(** [try: body except Exception as e: handler] *)
Definition try_except {A : Type} (body : M A) (handler : exn -> M A) : M A :=
  fun st =>
    match body st with
    | (Return a, st') => (Return a, st')
    | (Raise e, st') => handler e st'
    end.

Definition get_stats : M RunStats := fun st => (Return (stats st), st).
Definition get_plan : M MigrationPlan := fun st => (Return (migration_plan st), st).

Definition modify_stats (f : RunStats -> RunStats) : M unit :=
  fun st => (Return tt, set_stats (f (stats st)) st).

Definition modify_plan (f : MigrationPlan -> MigrationPlan) : M unit :=
  fun st => (Return tt, set_migration_plan (f (migration_plan st)) st).

(** [print(...)] *)
Definition print (l : line) : M unit := fun st => (Return tt, add_stdout l st).

(** [input(prompt)]: the prompt is written, then one line is read. *)
Definition input (prompt : line) : M string :=
  fun st =>
    let st := add_stdout prompt st in
    match stdin st with
    | [] => (Raise EOFError, st)
    | response :: rest => (Return response, set_stdin rest st)
    end.

(** [d[key]] on a dictionary that may lack [key]. *)
Definition subscript {A : Type} (key : string) (v : option A) : M A :=
  match v with
  | Some a => mret a
  | None => raise (KeyError key)
  end.

(** Use of a value that may be [None] where [os.path] wants a string. *)
Definition as_path (v : option Path) : M Path :=
  match v with
  | Some p => mret p
  | None => raise TypeError
  end.

(** [for x in l: body(x)], for bodies without [break]. *)
Fixpoint for_each {A : Type} (l : list A) (body : A -> M unit) : M unit :=
  match l with
  | [] => mret tt
  | x :: l' => body x ;; for_each l' body
  end.

(** ** The methods of [EnhancedDocCompliance] *)

Section Methods.

Context (E : env).

(** *** Operating system calls *)

(** [open(p, 'r').read()] *)
Definition read_file (p : Path) : M string :=
  fun st =>
    if unreadable E p then (Raise (PermissionError p), st)
    else match files st !! p with
         | Some content => (Return content, st)
         | None => (Raise (FileNotFoundError p), st)
         end.

(** [os.makedirs(d, exist_ok=True)]; directories are implicit in [files]. *)
Definition makedirs (d : Path) : M unit :=
  fun st =>
    let st := add_trace (SysMakedirs d) st in
    if unwritable E d then (Raise (PermissionError d), st)
    else (Return tt, st).

(** [shutil.copy2(src, dst)] *)
Definition copy2 (src dst : Path) : M unit :=
  fun st =>
    let st := add_trace (SysCopy src dst) st in
    if unreadable E src then (Raise (PermissionError src), st)
    else match files st !! src with
         | None => (Raise (FileNotFoundError src), st)
         | Some content =>
             if unwritable E dst then (Raise (PermissionError dst), st)
             else (Return tt, set_files (<[dst := content]> (files st)) st)
         end.

(** [shutil.move(src, dst)] *)
Definition move (src dst : Path) : M unit :=
  fun st =>
    let st := add_trace (SysMove src dst) st in
    match files st !! src with
    | None => (Raise (FileNotFoundError src), st)
    | Some content =>
        if unwritable E dst then (Raise (PermissionError dst), st)
        else (Return tt,
              set_files (<[dst := content]> (delete src (files st))) st)
    end.

(** [open(p, 'w').write(content)] *)
Definition write_file (p : Path) (content : string) : M unit :=
  fun st =>
    let st := add_trace (SysWrite p content) st in
    if unwritable E p then (Raise (PermissionError p), st)
    else (Return tt, set_files (<[p := content]> (files st)) st).

(** *** scan_all_documents *)

Definition skip_dirs : list string := [".git"; "node_modules"; ".apm/config"].

Definition scan_paths : list Path :=
  [ OsPath.join (project_root E) ["project_docs"];
    OsPath.join (project_root E) [".apm"; "session_notes"];
    project_root E ].

(** The documents found below one [(root, files)] entry of [os.walk]. *)
Definition walk_entry (entry : Path * list string) : list Path :=
  let (root, names) := entry in
  if existsb (fun skip => Str.contains skip (OsPath.path_str root)) skip_dirs
  then []
  else List.map (fun file => OsPath.join root [file])
         (List.filter (fun file => Str.endswith file ".md") names).

Definition scan_path_documents (scan_path : Path) : list Path :=
  if negb (dir_exists E scan_path) then []
  else List.flat_map walk_entry (os_walk E scan_path).

Definition scan_all_documents : M (list Path) :=
  let documents := List.flat_map scan_path_documents scan_paths in
  modify_stats (set_scanned (List.length documents)) ;;
  mret documents.

(** *** analyze_document *)

(** The dictionary built after a successful read. *)
Definition analysis_of_content (doc_path : Path) (content : string)
  : DocumentAnalysis :=
  let (doc_type, confidence) := detect_document_type E doc_path content in
  let correct_path :=
    if negb (String.eqb doc_type "uncertain") && (50 <=? confidence)%Z
    then get_correct_path E doc_type doc_path content
    else None in
  DocAnalysis doc_path doc_type confidence correct_path
    (match correct_path with
     | Some c => negb (bool_decide (c = doc_path))
     | None => false
     end)
    (String.length content) (creation_date_of E doc_path).

Definition analyze_document (doc_path : Path) : M DocumentAnalysis :=
  r ← try_except (content ← read_file doc_path; mret (inl content))
        (fun e => mret (inr (ErrorAnalysis doc_path (str_exn e))));
  match r with
  | inr error_analysis => mret error_analysis
  | inl content =>
      let analysis := analysis_of_content doc_path content in
      modify_stats incr_detected ;;
      (if (90 <=? confidence analysis)%Z then modify_stats incr_high_confidence
       else if (70 <=? confidence analysis)%Z then modify_stats incr_medium_confidence
       else modify_stats incr_low_confidence) ;;
      mret analysis
  end.

(** *** find_duplicates *)

(** [type_groups[t].append(a)] on a [defaultdict(list)], which keeps its
    keys in the order of their first insertion. *)
Fixpoint group_append (t : string) (a : DocumentAnalysis)
    (groups : list (string * list DocumentAnalysis))
  : list (string * list DocumentAnalysis) :=
  match groups with
  | [] => [(t, [a])]
  | (t', docs) :: rest =>
      if String.eqb t' t then (t', docs ++ [a]) :: rest
      else (t', docs) :: group_append t a rest
  end.

Definition groupable (a : DocumentAnalysis) : bool :=
  truthy (doc_type a) && negb (String.eqb (doc_type a) "uncertain").

Definition type_groups (analyses : list DocumentAnalysis)
  : list (string * list DocumentAnalysis) :=
  List.fold_left
    (fun groups a =>
       if groupable a then group_append (doc_type a) a groups else groups)
    analyses [].

(** The body of the inner loop, for one [doc1] and one later [doc2]. *)
Definition compare_documents (t : string) (doc1 doc2 : DocumentAnalysis) : M unit :=
  let name1 := Str.lower (OsPath.basename (path doc1)) in
  let name2 := Str.lower (OsPath.basename (path doc2)) in
  similar ← match names_are_similar name1 name2 with
            | Some b => mret b
            | None => raise ZeroDivisionError
            end;
  if similar : bool then
    let duplicate_group := mkDuplicateGroup t [doc1; doc2] "filename" in
    plan ← get_plan;
    if bool_decide (duplicate_group ∈ duplicates plan) then mret tt
    else modify_plan (append_duplicates duplicate_group) ;;
         modify_stats incr_duplicates_found
  else mret tt.

(** [for i, doc1 in enumerate(docs): for doc2 in docs[i+1:]: ...] *)
Fixpoint compare_all (t : string) (docs : list DocumentAnalysis) : M unit :=
  match docs with
  | [] => mret tt
  | doc1 :: later =>
      for_each later (compare_documents t doc1) ;;
      compare_all t later
  end.

Definition find_duplicates (analyses : list DocumentAnalysis) : M unit :=
  for_each (type_groups analyses)
    (fun group =>
       let (t, docs) := group : string * list DocumentAnalysis in
       if (List.length docs <? 2)%nat then mret tt
       else compare_all t docs).

(** *** find_broken_references *)

(** [move_map[old_path] = new_path] on a dictionary, which keeps a key at
    the place of its first insertion. *)
Fixpoint dict_set (k : Path) (v : option Path)
    (d : list (Path * option Path)) : list (Path * option Path) :=
  match d with
  | [] => [(k, v)]
  | (k', v') :: rest =>
      if bool_decide (k' = k) then (k, v) :: rest
      else (k', v') :: dict_set k v rest
  end.

(** The first loop: the map of the files that will be moved. *)
Fixpoint build_move_map (pending : list DocumentAnalysis)
    (move_map : list (Path * option Path)) : M (list (Path * option Path)) :=
  match pending with
  | [] => mret move_map
  | analysis :: rest =>
      let old_path := path analysis in
      new_path ← subscript "correct_path" (correct_path analysis);
      build_move_map rest (dict_set old_path new_path move_map)
  end.

(** [old_name in content or old_path in content] *)
Definition mentions (content : string) (old_path : Path) : bool :=
  Str.contains (OsPath.basename old_path) content
  || Str.contains (OsPath.path_str old_path) content.

(** The body of the scan loop for one analysis. *)
Definition scan_references (move_map : list (Path * option Path))
    (analysis : DocumentAnalysis) : M unit :=
  try_except
    (content ← read_file (path analysis);
     for_each move_map
       (fun item =>
          let (old_path, new_path) := item : Path * option Path in
          let old_name := OsPath.basename old_path in
          if mentions content old_path
          then modify_plan
                 (append_broken_refs
                    (mkReferenceEdit (path analysis) old_path new_path old_name))
          else mret tt))
    (fun _ => mret tt).

Definition find_broken_references (analyses : list DocumentAnalysis) : M unit :=
  plan ← get_plan;
  move_map ← build_move_map (auto_moves plan ++ suggested_moves plan) [];
  match move_map with
  | [] => mret tt
  | _ => for_each analyses (scan_references move_map)
  end.

(** *** build_migration_plan *)

(** The first loop, [for i, doc_path in enumerate(documents, 1)], where
    [n] is [len(documents)]. *)
Fixpoint analyze_all (i n : nat) (documents : list Path)
  : M (list DocumentAnalysis) :=
  match documents with
  | [] => mret []
  | doc_path :: rest =>
      analysis ← analyze_document doc_path;
      (if (i mod 10 =? 0)%nat then print (PrintAnalyzed i n) else mret tt) ;;
      analyses ← analyze_all (S i) n rest;
      mret (analysis :: analyses)
  end.

(** [analysis.get('error')] taken as a condition. *)
Definition has_error (a : DocumentAnalysis) : bool :=
  match get_error a with
  | Some e => truthy e
  | None => false
  end.

(** The body of the loop that groups by confidence level. *)
Definition triage (analysis : DocumentAnalysis) : M unit :=
  if has_error analysis then mret tt
  else
    let confidence := confidence analysis in
    needs_move ← subscript "needs_move" (needs_move analysis);
    if negb needs_move then mret tt
    else if (90 <=? confidence)%Z then modify_plan (append_auto_moves analysis)
    else if (70 <=? confidence)%Z then modify_plan (append_suggested_moves analysis)
    else modify_plan (append_manual_review analysis).

Definition build_migration_plan (documents : list Path) : M unit :=
  print PrintAnalyzing ;;
  document_analyses ← analyze_all 1 (List.length documents) documents;
  print (PrintAnalysisComplete (List.length document_analyses)) ;;
  for_each document_analyses triage ;;
  find_duplicates document_analyses ;;
  find_broken_references document_analyses.

(** *** print_migration_plan *)

(** The plan is displayed (one [PrintPlan] stands for the lines); the
    header divides by [stats['detected']]. *)
Definition print_migration_plan : M unit :=
  print PrintPlan ;;
  s ← get_stats;
  if (detected s =? 0)%nat then raise ZeroDivisionError else mret tt.

(** *** confirm_migration *)

Definition confirm_migration : M bool :=
  plan ← get_plan;
  let total_moves :=
    (List.length (auto_moves plan) + List.length (suggested_moves plan))%nat in
  if (total_moves =? 0)%nat then print PrintNoMigrationsNeeded ;; mret false
  else
    response ← input (PromptProceed total_moves);
    let response := Str.lower response in
    mret (bool_decide (response ∈ ["y"; "yes"])).

(** *** create_backup *)

Definition backup_dir : Path :=
  OsPath.join (project_root E)
    [".apm"; "backups"; "compliance-" +:+ timestamp E].

(** Where [create_backup] copies the document at [src]. *)
Definition backup_path (src : Path) : Path :=
  OsPath.join backup_dir (OsPath.relpath src (project_root E)).

Definition create_backup : M Path :=
  makedirs backup_dir ;;
  plan ← get_plan;
  for_each (auto_moves plan ++ suggested_moves plan)
    (fun analysis =>
       let src := path analysis in
       let dst := backup_path src in
       makedirs (OsPath.dirname dst) ;;
       copy2 src dst) ;;
  mret backup_dir.

(** *** execute_moves *)

(** What the confirmation of one move decides. *)
Inductive decision : Type := Proceed | Skip | Quit.

(** The [if not auto:] block. *)
Definition confirm_move (auto : bool) (src : Path) (dst : option Path) : M decision :=
  if auto then mret Proceed
  else
    dst_path ← as_path dst;
    response ← input (PromptMove (OsPath.basename src) (OsPath.basename dst_path));
    let response := Str.lower response in
    if String.eqb response "q" then mret Quit
    else if negb (String.eqb response "y") then mret Skip
    else mret Proceed.

(** The [try] block of one move. *)
Definition apply_move (src : Path) (dst : option Path) : M unit :=
  dst_path ← as_path dst;
  makedirs (OsPath.dirname dst_path) ;;
  move src dst_path ;;
  (if negb (String.eqb (OsPath.basename src) (OsPath.basename dst_path))
   then modify_stats incr_renamed else mret tt) ;;
  modify_stats incr_moved ;;
  print (PrintMoved (OsPath.basename src) (OsPath.basename dst_path)).

Fixpoint execute_moves (moves : list DocumentAnalysis) (auto : bool) : M unit :=
  match moves with
  | [] => mret tt
  | analysis :: rest =>
      let src := path analysis in
      dst ← subscript "correct_path" (correct_path analysis);
      d ← confirm_move auto src dst;
      match d with
      | Quit => mret tt
      | Skip => execute_moves rest auto
      | Proceed =>
          try_except (apply_move src dst)
            (fun e => print (PrintFailedToMove src (str_exn e))) ;;
          execute_moves rest auto
      end
  end.

(** *** update_references *)

(** The [try] block for one reference. *)
Definition rewrite_reference (ref : ReferenceEdit) : M unit :=
  content ← read_file (ref_file ref);
  let old_name := OsPath.basename (old_ref ref) in
  new_path ← as_path (new_ref ref);
  let new_name := OsPath.basename new_path in
  if Str.contains old_name content then
    let new_content := Str.replace old_name new_name content in
    write_file (ref_file ref) new_content ;;
    modify_stats incr_references_updated ;;
    print (PrintUpdatedReferences (OsPath.basename (ref_file ref)))
  else mret tt.

Definition update_references : M unit :=
  plan ← get_plan;
  for_each (broken_refs plan)
    (fun ref =>
       try_except (rewrite_reference ref)
         (fun e => print (PrintFailedToUpdate (ref_file ref) (str_exn e)))).

(** *** execute_migration *)

(** What [execute_migration] does once [create_backup] has returned
    [backup]: the [print] and the [try] statement. *)
Definition migrate (mode : string) (backup : Path) : M bool :=
  print (PrintBackupCreated backup) ;;
  try_except
    (plan ← get_plan;
     execute_moves (auto_moves plan) true ;;
     (if negb (String.eqb mode "auto")
      then plan ← get_plan; execute_moves (suggested_moves plan) false
      else mret tt) ;;
     update_references ;;
     s ← get_stats;
     print (PrintMigrationComplete (moved s) (renamed s) (references_updated s)) ;;
     mret true)
    (fun e => print (PrintMigrationFailed (str_exn e) backup) ;; mret false).

Definition execute_migration (mode : string) : M bool :=
  go ← (if String.eqb mode "auto" then mret true else confirm_migration);
  if go : bool then
    backup ← create_backup;
    migrate mode backup
  else mret true.

(** *** main, mode [organize] *)

Definition organize (dry_run auto : bool) : M unit :=
  documents ← scan_all_documents;
  print (PrintFound (List.length documents)) ;;
  match documents with
  | [] => print PrintNoDocuments
  | _ =>
      build_migration_plan documents ;;
      print_migration_plan ;;
      if negb dry_run then
        let mode := if auto then "auto" else "interactive" in
        execute_migration mode ;; mret tt
      else print PrintDryRun
  end.


End Methods.

(** ** A small project, used for examples

    The project [/repo] holds four documents at its top level.  The
    classifier knows three of them: a test plan (confidence 95), a second
    copy of it (confidence 80) and an architecture note (confidence 60);
    [notes.md] is of uncertain type and mentions both test plans. *)

Module Demo.

Definition root : Path := ["repo"].

Definition plan_v1 : Path := ["repo"; "test-plan-v1.md"].
Definition plan_v1_new : Path := ["repo"; "project_docs"; "qa"; "TEST-PLAN-V1.md"].
Definition plan_copy : Path := ["repo"; "testplanv1.md"].
Definition plan_copy_new : Path := ["repo"; "project_docs"; "qa"; "TEST-PLAN-COPY.md"].
Definition arch : Path := ["repo"; "arch.md"].
Definition arch_new : Path := ["repo"; "project_docs"; "architecture"; "ARCH.md"].
Definition notes : Path := ["repo"; "notes.md"].

Definition classify (p : Path) : string * Z * option Path :=
  if bool_decide (p = plan_v1) then ("test_plan", 95%Z, Some plan_v1_new)
  else if bool_decide (p = plan_copy) then ("test_plan", 80%Z, Some plan_copy_new)
  else if bool_decide (p = arch) then ("architecture", 60%Z, Some arch_new)
  else ("uncertain", 0%Z, None).

Definition E : env :=
  {| project_root := root;
     detect_document_type := fun p _ => (fst (classify p));
     get_correct_path := fun _ p _ => snd (classify p);
     unreadable := fun _ => false;
     unwritable := fun _ => false;
     creation_date_of := fun _ => "2024-01-01T00:00:00";
     timestamp := "2024-01-02-03-04-05";
     dir_exists := fun p => bool_decide (p = root);
     os_walk := fun p =>
       if bool_decide (p = root)
       then [(root, ["test-plan-v1.md"; "testplanv1.md"; "arch.md"; "notes.md"; "logo.png"])]
       else [] |}.

Definition disk : gmap Path string :=
  <[plan_v1 := "# Test plan"]>
    (<[plan_copy := "# Test plan (copy)"]>
       (<[arch := "# Architecture"]>
          (<[notes := "See test-plan-v1.md and testplanv1.md."]> ∅))).

(** A fresh [EnhancedDocCompliance] object on this disk, with [answers]
    waiting on standard input. *)
Definition start (answers : list string) : state :=
  mkState init_stats init_plan disk answers [] [].

(** The state after the whole [organize] run. *)
Definition after_organize (dry_run auto : bool) (answers : list string) : state :=
  snd (organize E dry_run auto (start answers)).

End Demo.

(** ** The duplicate match, in the words of the specification

    [spec_normalize] lowercases a filename, removes its [.md] extension and
    every hyphen and underscore; [spec_similar] is the test on two
    normalised names; [spec_duplicate_match] is the two together.
    [duplicate_match] is what [find_duplicates] computes for two filenames. *)

Fixpoint remove_char (c : ascii) (s : string) : string :=
  match s with
  | EmptyString => EmptyString
  | String c' s' =>
      if Ascii.eqb c' c then remove_char c s' else String c' (remove_char c s')
  end.

Definition strip_md_extension (name : string) : string :=
  if Str.endswith name ".md"
  then String.substring 0 (String.length name - 3) name
  else name.

Definition spec_normalize (name : string) : string :=
  remove_char "_" (remove_char "-" (strip_md_extension (Str.lower name))).

Definition spec_similar (n1 n2 : string) : bool :=
  Str.contains n1 n2 || Str.contains n2 n1
  || ((abs_diff (String.length n1) (String.length n2) <=? 2)%nat
      && (7 * Nat.max (String.length n1) (String.length n2)
          <? 10 * Str.aligned_matches n1 n2)%nat).

Definition spec_duplicate_match (name1 name2 : string) : bool :=
  spec_similar (spec_normalize name1) (spec_normalize name2).

Definition duplicate_match (name1 name2 : string) : option bool :=
  names_are_similar (Str.lower name1) (Str.lower name2).

(** ** What the methods compute, as functions of the disk and the plan

    Each method above is shown below to return these values and to leave the
    state these functions describe. *)

Section Effects.

Context (E : env).

(** The result of reading [p] on the disk [fs]. *)
Definition read_result (fs : gmap Path string) (p : Path) : string + exn :=
  if unreadable E p then inr (PermissionError p)
  else match fs !! p with
       | Some content => inl content
       | None => inr (FileNotFoundError p)
       end.

(** The dictionary [analyze_document] returns for [p]. *)
Definition analysis_of (fs : gmap Path string) (p : Path) : DocumentAnalysis :=
  match read_result fs p with
  | inl content => analysis_of_content E p content
  | inr e => ErrorAnalysis p (str_exn e)
  end.

(** The counters [analyze_document] updates for the analysis it returns. *)
Definition count_analysis (a : DocumentAnalysis) (s : RunStats) : RunStats :=
  match a with
  | ErrorAnalysis _ _ => s
  | DocAnalysis _ _ c _ _ _ _ =>
      (if (90 <=? c)%Z then incr_high_confidence
       else if (70 <=? c)%Z then incr_medium_confidence
       else incr_low_confidence) (incr_detected s)
  end.

End Effects.

(** The plan after [triage] of one analysis. *)
Definition triage_plan (a : DocumentAnalysis) (p : MigrationPlan) : MigrationPlan :=
  if has_error a then p
  else match needs_move a with
       | Some true =>
           if (90 <=? confidence a)%Z then append_auto_moves a p
           else if (70 <=? confidence a)%Z then append_suggested_moves a p
           else append_manual_review a p
       | _ => p
       end.

(** An analysis on which [triage] raises no [KeyError]: its [error] is a
    true value or it has the key [needs_move]. *)
Definition triageable (a : DocumentAnalysis) : Prop :=
  match a with
  | ErrorAnalysis _ e => e <> ""
  | DocAnalysis _ _ _ _ _ _ _ => True
  end.

(** A bucket entry with the key [correct_path]. *)
Definition has_correct_path (a : DocumentAnalysis) : Prop :=
  match a with
  | ErrorAnalysis _ _ => False
  | DocAnalysis _ _ _ _ _ _ _ => True
  end.

Definition set_duplicates (ds : list DuplicateGroup) (p : MigrationPlan) : MigrationPlan :=
  mkMigrationPlan (auto_moves p) (suggested_moves p) (manual_review p) ds
    (broken_refs p).

Definition set_broken_refs (rs : list ReferenceEdit) (p : MigrationPlan) : MigrationPlan :=
  mkMigrationPlan (auto_moves p) (suggested_moves p) (manual_review p)
    (duplicates p) rs.

Definition set_duplicates_found (n : nat) (s : RunStats) : RunStats :=
  mkRunStats (scanned s) (detected s) (high_confidence s) (medium_confidence s)
    (low_confidence s) (moved s) (renamed s) n (references_updated s).

Definition set_stdout (out : list line) (st : state) : state :=
  mkState (stats st) (migration_plan st) (files st) (stdin st) out (trace st).

Definition set_trace (t : list syscall) (st : state) : state :=
  mkState (stats st) (migration_plan st) (files st) (stdin st) (stdout st) t.

(** The group [find_duplicates] builds for two documents of type [t]. *)
Definition group_of (t : string) (doc1 doc2 : DocumentAnalysis) : DuplicateGroup :=
  mkDuplicateGroup t [doc1; doc2] "filename".

(** The filenames of two documents are similar. *)
Definition similar_documents (doc1 doc2 : DocumentAnalysis) : bool :=
  spec_similar (clean (Str.lower (OsPath.basename (path doc1))))
    (clean (Str.lower (OsPath.basename (path doc2)))).

(** [if g not in duplicates: duplicates.append(g)] *)
Definition add_duplicate (g : DuplicateGroup) (ds : list DuplicateGroup)
  : list DuplicateGroup :=
  if bool_decide (g ∈ ds) then ds else ds ++ [g].

(** The list of duplicates after the inner loop for [doc1]. *)
Definition compare_with (t : string) (doc1 : DocumentAnalysis)
    (later : list DocumentAnalysis) (ds : list DuplicateGroup) : list DuplicateGroup :=
  List.fold_left
    (fun ds doc2 =>
       if similar_documents doc1 doc2 then add_duplicate (group_of t doc1 doc2) ds
       else ds)
    later ds.

(** The list of duplicates after the loops over one type group. *)
Fixpoint compare_group (t : string) (docs : list DocumentAnalysis)
    (ds : list DuplicateGroup) : list DuplicateGroup :=
  match docs with
  | [] => ds
  | doc1 :: later => compare_group t later (compare_with t doc1 later ds)
  end.

(** The list of duplicates after the loop over the given type groups. *)
Definition compare_groups (groups : list (string * list DocumentAnalysis))
    (ds : list DuplicateGroup) : list DuplicateGroup :=
  List.fold_left
    (fun ds (group : string * list DocumentAnalysis) =>
       if (List.length (snd group) <? 2)%nat then ds
       else compare_group (fst group) (snd group) ds)
    groups ds.

(** The analyses [triage] appends to each bucket. *)
Definition needs_triage (a : DocumentAnalysis) : bool :=
  negb (has_error a) && bool_decide (needs_move a = Some true).

Definition auto_bucket (a : DocumentAnalysis) : bool :=
  needs_triage a && (90 <=? confidence a)%Z.

Definition suggested_bucket (a : DocumentAnalysis) : bool :=
  needs_triage a && negb (90 <=? confidence a)%Z && (70 <=? confidence a)%Z.

Definition manual_bucket (a : DocumentAnalysis) : bool :=
  needs_triage a && negb (90 <=? confidence a)%Z && negb (70 <=? confidence a)%Z.

(** The state after [find_duplicates] differs in the list of duplicates and
    in the counter of duplicates. *)
Definition with_duplicates (ds : list DuplicateGroup) (n : nat) (st : state) : state :=
  set_stats (set_duplicates_found n (stats st))
    (set_migration_plan (set_duplicates ds (migration_plan st)) st).

(** [analysis['correct_path']] of a bucket entry that has the key. *)
Definition planned_path (a : DocumentAnalysis) : option Path :=
  match correct_path a with
  | Some c => c
  | None => None
  end.

(** [move_map] after the first loop of [find_broken_references]. *)
Definition move_map_of (pending : list DocumentAnalysis)
    (move_map : list (Path * option Path)) : list (Path * option Path) :=
  List.fold_left (fun mm a => dict_set (path a) (planned_path a) mm) pending move_map.

Section References.

Context (E : env).

(** The edits [find_broken_references] records for one analysis. *)
Definition edits_for (fs : gmap Path string) (move_map : list (Path * option Path))
    (a : DocumentAnalysis) : list ReferenceEdit :=
  match read_result E fs (path a) with
  | inl content =>
      List.map
        (fun item : Path * option Path =>
           mkReferenceEdit (path a) (fst item) (snd item) (OsPath.basename (fst item)))
        (List.filter (fun item : Path * option Path => mentions content (fst item))
           move_map)
  | inr _ => []
  end.

End References.

(** The plan after the triage loop over [l]. *)
Definition triage_all (l : list DocumentAnalysis) (p : MigrationPlan) : MigrationPlan :=
  List.fold_left (fun p a => triage_plan a p) l p.

(** The state after [find_broken_references] differs in the list of
    reference edits. *)
Definition with_broken_refs (rs : list ReferenceEdit) (st : state) : state :=
  set_migration_plan (set_broken_refs rs (migration_plan st)) st.

Section Plan.

Context (E : env).

(** The move map [find_broken_references] builds from a plan. *)
Definition pending_moves (p : MigrationPlan) : list (Path * option Path) :=
  move_map_of (auto_moves p ++ suggested_moves p) [].

(** The plan [build_migration_plan] leaves, from the plan [p] it starts
    with, for the given documents on the disk [fs]. *)
Definition built_plan (fs : gmap Path string) (documents : list Path)
    (p : MigrationPlan) : MigrationPlan :=
  let analyses := List.map (analysis_of E fs) documents in
  let triaged := triage_all analyses p in
  set_broken_refs
    (broken_refs p ++
     List.flat_map (edits_for E fs (pending_moves triaged)) analyses)
    (set_duplicates (compare_groups (type_groups analyses) (duplicates p)) triaged).

End Plan.

Module DemoData.

(** The documents [scan_all_documents] finds in the demo project. *)
Definition documents : list Path :=
  [Demo.plan_v1; Demo.plan_copy; Demo.arch; Demo.notes].

(** The analyses of the two test plans. *)
Definition A : DocumentAnalysis := analysis_of Demo.E Demo.disk Demo.plan_v1.
Definition B : DocumentAnalysis := analysis_of Demo.E Demo.disk Demo.plan_copy.

(** The analyses of all the documents, and the object once they are
    triaged. *)
Definition analyses : list DocumentAnalysis :=
  List.map (analysis_of Demo.E Demo.disk) documents.

Definition triaged : state :=
  mkState init_stats (triage_all analyses init_plan) Demo.disk [] [] [].

(** The object once the plan is built, and once the backup is made. *)
Definition planned : state :=
  Eval vm_compute in snd (build_migration_plan Demo.E documents (Demo.start [])).

Definition backed_up : state :=
  Eval vm_compute in snd (create_backup Demo.E planned).

(** The duplicate groups a fresh object reports for the given analyses. *)
Definition detect (analyses : list DocumentAnalysis) : list DuplicateGroup :=
  duplicates (migration_plan (snd (find_duplicates analyses (Demo.start [])))).

End DemoData.

Module DemoLocked.

(** The demo project with the two test plans unreadable. *)
Definition E : env :=
  {| project_root := project_root Demo.E;
     detect_document_type := detect_document_type Demo.E;
     get_correct_path := get_correct_path Demo.E;
     unreadable := fun p =>
       bool_decide (p = Demo.plan_v1) || bool_decide (p = Demo.plan_copy);
     unwritable := unwritable Demo.E;
     creation_date_of := creation_date_of Demo.E;
     timestamp := timestamp Demo.E;
     dir_exists := dir_exists Demo.E;
     os_walk := os_walk Demo.E |}.

End DemoLocked.

(** [type_groups.get(t)] on the groups held as an ordered dictionary. *)
Fixpoint group_lookup (t : string) (groups : list (string * list DocumentAnalysis))
  : option (list DocumentAnalysis) :=
  match groups with
  | [] => None
  | (t', docs) :: rest => if String.eqb t' t then Some docs else group_lookup t rest
  end.

(** The documents of [l] that [find_duplicates] groups under the type [t]. *)
Definition members (t : string) (l : list DocumentAnalysis) : list DocumentAnalysis :=
  List.filter (fun a => groupable a && String.eqb (doc_type a) t) l.

(** The number of edits of [edits] that are about the move of [old]. *)
Definition edits_about (old : Path) (edits : list ReferenceEdit) : nat :=
  List.length (List.filter (fun r => bool_decide (old_ref r = old)) edits).

(** ** What the execution methods do to the state *)

Section Execution.

Context (E : env).

(** The exception the [try] block of a move raises on the disk [fs], if any. *)
Definition move_error (fs : gmap Path string) (a : DocumentAnalysis) : option exn :=
  match planned_path a with
  | None => Some TypeError
  | Some dst =>
      if unwritable E (OsPath.dirname dst)
      then Some (PermissionError (OsPath.dirname dst))
      else match fs !! path a with
           | None => Some (FileNotFoundError (path a))
           | Some _ =>
               if unwritable E dst then Some (PermissionError dst) else None
           end
  end.

(** The disk after the move of [a] was tried. *)
Definition move_result (fs : gmap Path string) (a : DocumentAnalysis)
  : gmap Path string :=
  match move_error fs a, planned_path a, fs !! path a with
  | None, Some dst, Some content => <[dst := content]> (delete (path a) fs)
  | _, _, _ => fs
  end.

(** The line printed for the move of [a]. *)
Definition move_report (fs : gmap Path string) (a : DocumentAnalysis) : line :=
  match move_error fs a, planned_path a with
  | None, Some dst =>
      PrintMoved (OsPath.basename (path a)) (OsPath.basename dst)
  | Some e, _ => PrintFailedToMove (path a) (str_exn e)
  | None, None => PrintFailedToMove (path a) (str_exn TypeError)
  end.

(** The system calls issued for the move of [a]. *)
Definition move_calls (a : DocumentAnalysis) : list syscall :=
  match planned_path a with
  | None => []
  | Some dst =>
      SysMakedirs (OsPath.dirname dst) ::
      (if unwritable E (OsPath.dirname dst) then [] else [SysMove (path a) dst])
  end.

(** The counters after the move of [a] was tried. *)
Definition move_stats (fs : gmap Path string) (a : DocumentAnalysis)
    (s : RunStats) : RunStats :=
  match move_error fs a, planned_path a with
  | None, Some dst =>
      incr_moved
        (if negb (String.eqb (OsPath.basename (path a)) (OsPath.basename dst))
         then incr_renamed s else s)
  | _, _ => s
  end.

(** The state after the [try]/[except] of one move, without a prompt. *)
Definition after_move (st : state) (a : DocumentAnalysis) : state :=
  mkState (move_stats (files st) a (stats st)) (migration_plan st)
    (move_result (files st) a) (stdin st)
    (stdout st ++ [move_report (files st) a])
    (trace st ++ move_calls a).

(** The state after the [try]/[except] of one reference edit. *)
Definition after_rewrite (st : state) (ref : ReferenceEdit) : state :=
  match read_result E (files st) (ref_file ref) with
  | inr e => add_stdout (PrintFailedToUpdate (ref_file ref) (str_exn e)) st
  | inl content =>
      match new_ref ref with
      | None => add_stdout (PrintFailedToUpdate (ref_file ref) (str_exn TypeError)) st
      | Some new_path =>
          let old_name := OsPath.basename (old_ref ref) in
          let new_name := OsPath.basename new_path in
          if Str.contains old_name content then
            let new_content := Str.replace old_name new_name content in
            let st1 := add_trace (SysWrite (ref_file ref) new_content) st in
            if unwritable E (ref_file ref)
            then add_stdout
                   (PrintFailedToUpdate (ref_file ref)
                      (str_exn (PermissionError (ref_file ref)))) st1
            else add_stdout (PrintUpdatedReferences (OsPath.basename (ref_file ref)))
                   (set_stats (incr_references_updated (stats st1))
                      (set_files (<[ref_file ref := new_content]> (files st1)) st1))
          else st
      end
  end.


End Execution.


Definition is_move (c : syscall) : Prop :=
  match c with SysMove _ _ => True | _ => False end.

Definition is_write (c : syscall) : Prop :=
  match c with SysWrite _ _ => True | _ => False end.

(** The calls of the backup: directories and copies. *)
Definition is_backup_call (c : syscall) : Prop :=
  match c with SysMakedirs _ | SysCopy _ _ => True | _ => False end.

(** The calls of the moves: directories and moves. *)
Definition is_move_call (c : syscall) : Prop :=
  match c with SysMakedirs _ | SysMove _ _ => True | _ => False end.

(** [st'] continues [st] with system calls that all satisfy [P]. *)
Definition extends_trace (P : syscall -> Prop) (st st' : state) : Prop :=
  exists calls, trace st' = trace st ++ calls /\ Forall P calls.

(** Every run of [m] relates its first state to its last by [R]. *)
Definition respects {A : Type} (R : state -> state -> Prop) (m : M A) : Prop :=
  forall st r st', m st = (r, st') -> R st st'.

Module DemoReadOnly.

(** The demo project where the new place of the first test plan cannot be
    written. *)
Definition E : env :=
  {| project_root := project_root Demo.E;
     detect_document_type := detect_document_type Demo.E;
     get_correct_path := get_correct_path Demo.E;
     unreadable := unreadable Demo.E;
     unwritable := fun p => bool_decide (p = Demo.plan_v1_new);
     creation_date_of := creation_date_of Demo.E;
     timestamp := timestamp Demo.E;
     dir_exists := dir_exists Demo.E;
     os_walk := os_walk Demo.E |}.

End DemoReadOnly.

(** The component [f] of the state is the same in [st'] as in [st]. *)
Definition unchanged {A : Type} (f : state -> A) (st st' : state) : Prop :=
  f st' = f st.

(** [st'] continues [st] with calls that write no file, and then with writes
    only. *)
Definition writes_last (st st' : state) : Prop :=
  exists calls writes,
    trace st' = trace st ++ calls ++ writes
    /\ Forall (fun c => ~ is_write c) calls
    /\ Forall is_write writes.

Section Migration.

Context (E : env).

(** The state [execute_migration('auto')] leaves once the backup, which
    returned [backup] and left [st1], is made. *)
Definition after_auto_migration (plan : MigrationPlan) (backup : Path)
    (st1 : state) : state :=
  let st2 :=
    List.fold_left (after_move E) (auto_moves plan)
      (add_stdout (PrintBackupCreated backup) st1) in
  let st3 := List.fold_left (after_rewrite E) (broken_refs plan) st2 in
  add_stdout
    (PrintMigrationComplete (moved (stats st3)) (renamed (stats st3))
       (references_updated (stats st3)))
    st3.

(** The first step of [execute_migration]: [mode == 'auto' or
    self.confirm_migration()]. *)
Definition confirmation (mode : string) : M bool :=
  if String.eqb mode "auto" then mret true else confirm_migration.

End Migration.

Section BackupPlaces.

Context (E : env).




End BackupPlaces.

Module DemoDiskFull.

(** The demo project where the backup copy of the second test plan cannot
    be written. *)
Definition E : env :=
  {| project_root := project_root Demo.E;
     detect_document_type := detect_document_type Demo.E;
     get_correct_path := get_correct_path Demo.E;
     unreadable := unreadable Demo.E;
     unwritable := fun p => bool_decide (p = backup_path Demo.E Demo.plan_copy);
     creation_date_of := creation_date_of Demo.E;
     timestamp := timestamp Demo.E;
     dir_exists := dir_exists Demo.E;
     os_walk := os_walk Demo.E |}.

End DemoDiskFull.

(** The number of edits of [edits] that rewrite [file] for the move of [old]. *)
Definition edits_between (file old : Path) (edits : list ReferenceEdit) : nat :=
  List.length
    (List.filter
       (fun r => bool_decide (ref_file r = file) && bool_decide (old_ref r = old))
       edits).

(** ** Further definitions used by the properties of the whole run *)

(** The number of times [p] is listed in [l]. *)
Definition occurrences (p : Path) (l : list Path) : nat :=
  List.length (List.filter (fun q => bool_decide (q = p)) l).

Module DemoNested.

(** A project whose [project_docs] directory holds one guide: [os.walk] of
    the root visits that directory too. *)
Definition docs_dir : Path := ["repo"; "project_docs"].
Definition guide : Path := ["repo"; "project_docs"; "guide.md"].

Definition E : env :=
  {| project_root := project_root Demo.E;
     detect_document_type := fun _ _ => ("guide", 95%Z);
     get_correct_path := fun _ p _ => Some p;
     unreadable := unreadable Demo.E;
     unwritable := unwritable Demo.E;
     creation_date_of := creation_date_of Demo.E;
     timestamp := timestamp Demo.E;
     dir_exists := fun p => bool_decide (p = Demo.root) || bool_decide (p = docs_dir);
     os_walk := fun p =>
       if bool_decide (p = Demo.root)
       then [(Demo.root, ["README.md"]); (docs_dir, ["guide.md"; "logo.png"])]
       else if bool_decide (p = docs_dir)
       then [(docs_dir, ["guide.md"; "logo.png"])]
       else [] |}.

End DemoNested.

(** The counters after the analysis of all the documents of a scan. *)
Definition count_all (analyses : list DocumentAnalysis) (s : RunStats) : RunStats :=
  List.fold_left (fun s a => count_analysis a s) analyses s.

(** The document at [p] can be read on the disk [fs]. *)
Definition readable (E : env) (fs : gmap Path string) (p : Path) : bool :=
  match read_result E fs p with
  | inl _ => true
  | inr _ => false
  end.

(** The analysis is the one of a document that was read, with a confidence
    in the given tier. *)
Definition high_tier (a : DocumentAnalysis) : bool :=
  match a with
  | DocAnalysis _ _ c _ _ _ _ => (90 <=? c)%Z
  | ErrorAnalysis _ _ => false
  end.

Definition medium_tier (a : DocumentAnalysis) : bool :=
  match a with
  | DocAnalysis _ _ c _ _ _ _ => negb (90 <=? c)%Z && (70 <=? c)%Z
  | ErrorAnalysis _ _ => false
  end.

Definition low_tier (a : DocumentAnalysis) : bool :=
  match a with
  | DocAnalysis _ _ c _ _ _ _ => negb (90 <=? c)%Z && negb (70 <=? c)%Z
  | ErrorAnalysis _ _ => false
  end.

(** The small project, with no document readable by the user. *)
Module DemoUnreadable.

Definition E : env :=
  {| project_root := project_root Demo.E;
     detect_document_type := detect_document_type Demo.E;
     get_correct_path := get_correct_path Demo.E;
     unreadable := fun _ => true;
     unwritable := unwritable Demo.E;
     creation_date_of := creation_date_of Demo.E;
     timestamp := timestamp Demo.E;
     dir_exists := dir_exists Demo.E;
     os_walk := os_walk Demo.E |}.

End DemoUnreadable.

(** The answers given at the prompts of [execute_moves(moves, auto=False)]
    select the moves that are tried: [y] approves, [q] ends the loop, any
    other answer skips.  The result holds the approved moves and the
    answers left unread; it is [None] when the input ends at a prompt. *)
Fixpoint approved (answers : list string) (moves : list DocumentAnalysis)
    {struct moves} : option (list DocumentAnalysis * list string) :=
  match moves with
  | [] => Some ([], answers)
  | a :: rest =>
      match answers with
      | [] => None
      | response :: answers' =>
          let response := Str.lower response in
          if String.eqb response "q" then Some ([], answers')
          else if negb (String.eqb response "y") then approved answers' rest
          else
            match approved answers' rest with
            | Some (ok, unread) => Some (a :: ok, unread)
            | None => None
            end
      end
  end.

(** The small project where the first test plan mentions the second. *)
Module DemoLinked.

Definition disk : gmap Path string :=
  <[Demo.plan_v1 := "# Test plan, see also testplanv1.md"]> Demo.disk.

(** The object once the plan is built on this disk. *)
Definition planned : state :=
  Eval vm_compute in
    snd (build_migration_plan Demo.E DemoData.documents
           (mkState init_stats init_plan disk [] [] [])).

(** The edit of the first test plan for the move of the second. *)
Definition edit : ReferenceEdit :=
  mkReferenceEdit Demo.plan_v1 Demo.plan_copy (Some Demo.plan_copy_new) "testplanv1.md".

End DemoLinked.

(** The lines of the output that report a move made, and a file rewritten. *)
Definition moved_lines (out : list line) : nat :=
  List.length
    (List.filter (fun l => match l with PrintMoved _ _ => true | _ => false end) out).

Definition updated_lines (out : list line) : nat :=
  List.length
    (List.filter
       (fun l => match l with PrintUpdatedReferences _ => true | _ => false end) out).

(** The summary printed when the migration completes. *)
Definition is_summary (l : line) : Prop :=
  match l with PrintMigrationComplete _ _ _ => True | _ => False end.

(** A line that reports neither a move, nor a rewrite, nor the summary. *)
Definition quiet (l : line) : Prop :=
  match l with
  | PrintMoved _ _ | PrintUpdatedReferences _ | PrintMigrationComplete _ _ _ => False
  | _ => True
  end.

(** From [st] to [st'] the counters of moves and of updated references
    have grown by the number of lines that report them, and no summary was
    printed. *)
Definition tallied (st st' : state) : Prop :=
  exists lines,
    stdout st' = stdout st ++ lines
    /\ moved (stats st') = (moved (stats st) + moved_lines lines)%nat
    /\ references_updated (stats st')
       = (references_updated (stats st) + updated_lines lines)%nat
    /\ Forall (fun l => ~ is_summary l) lines.

(** ** main, mode [detect]

    The lines this mode prints for a document are its own; they are
    returned as the value of the run, in the order they are printed. *)
Inductive detect_line : Type :=
| DetectDocument (name doc_type : string) (confidence : Z)
| DetectShouldBe (name : string).

(** The body of the loop, after the analysis. *)
Definition detect_report (analysis : DocumentAnalysis) : M (list detect_line) :=
  let head :=
    DetectDocument (OsPath.basename (path analysis)) (doc_type analysis)
      (confidence analysis) in
  moves ← subscript "needs_move" (needs_move analysis);
  if moves : bool then
    c ← subscript "correct_path" (correct_path analysis);
    c ← as_path c;
    mret [head; DetectShouldBe (OsPath.basename c)]
  else mret [head].

Fixpoint detect_documents (E : env) (documents : list Path) : M (list detect_line) :=
  match documents with
  | [] => mret []
  | doc_path :: rest =>
      analysis ← analyze_document E doc_path;
      lines ← detect_report analysis;
      more ← detect_documents E rest;
      mret (lines ++ more)
  end.

Definition detect (E : env) : M (list detect_line) :=
  documents ← scan_all_documents E;
  detect_documents E (firstn 10 documents).

(** A project whose [project_docs] directory holds a guide that mentions
    the plan lying at the root, and the plan has to move: the scan lists
    the guide twice. *)
Module DemoTwice.

Definition guide : Path := ["repo"; "project_docs"; "guide.md"].
Definition plan : Path := ["repo"; "plan.md"].
Definition plan_new : Path := ["repo"; "project_docs"; "plans"; "plan.md"].

Definition E : env :=
  {| project_root := Demo.root;
     detect_document_type := fun p _ =>
       if bool_decide (p = plan) then ("test_plan", 95%Z) else ("guide", 95%Z);
     get_correct_path := fun _ p _ =>
       if bool_decide (p = plan) then Some plan_new else Some p;
     unreadable := fun _ => false;
     unwritable := fun _ => false;
     creation_date_of := fun _ => "2024-01-01T00:00:00";
     timestamp := "2024-01-02-03-04-05";
     dir_exists := fun p =>
       bool_decide (p = Demo.root) || bool_decide (p = ["repo"; "project_docs"]);
     os_walk := fun p =>
       if bool_decide (p = Demo.root)
       then [(Demo.root, ["plan.md"]); (["repo"; "project_docs"], ["guide.md"])]
       else if bool_decide (p = ["repo"; "project_docs"])
       then [(["repo"; "project_docs"], ["guide.md"])]
       else [] |}.

Definition disk : gmap Path string :=
  <[guide := "See plan.md for the tests."]> (<[plan := "# Plan"]> ∅).

Definition start : state := mkState init_stats init_plan disk [] [] [].

(** The object after [organize --dry-run]. *)
Definition planned : state :=
  Eval vm_compute in snd (organize E true false start).

(** The edit of the guide for the move of the plan. *)
Definition edit : ReferenceEdit :=
  mkReferenceEdit guide plan (Some plan_new) "plan.md".

End DemoTwice.

(** * Properties *)

Example clean_ex : clean "test-plan_v1.md" = "testplanv1".
Proof. reflexivity. Qed.

Example similar_ex1 : names_are_similar "test-plan-v1.md" "testplanv1.md" = Some true.
Proof. reflexivity. Qed.

Example similar_ex2 : names_are_similar "abcdefghij.md" "abcdefgxyz.md" = Some false.
Proof. reflexivity. Qed.

Example similar_ex3 : names_are_similar "abcdefghij.md" "abcdefghyz.md" = Some true.
Proof. reflexivity. Qed.

(** ** Strings *)

Lemma contains_empty (s : string) : Str.contains "" s = true.
Proof. destruct s; reflexivity. Qed.

Lemma contains_nonempty (sub s : string) :
  Str.contains sub s = false -> (0 < String.length sub)%nat.
Proof.
  destruct sub as [|c sub]; [rewrite contains_empty; discriminate | simpl; lia].
Qed.

Lemma aligned_matches_comm (s1 s2 : string) :
  Str.aligned_matches s1 s2 = Str.aligned_matches s2 s1.
Proof.
  revert s2; induction s1 as [|c1 s1 IH]; intros [|c2 s2]; simpl; try reflexivity.
  rewrite IH, (Ascii.eqb_sym c1 c2). reflexivity.
Qed.

Lemma abs_diff_comm (a b : nat) : abs_diff a b = abs_diff b a.
Proof. unfold abs_diff; lia. Qed.

(** ** names_are_similar *)

(** The division is never by zero, and the result is the test of the
    specification on the cleaned names. *)
Lemma names_are_similar_eq (name1 name2 : string) :
  names_are_similar name1 name2 = Some (spec_similar (clean name1) (clean name2)).
Proof.
  unfold names_are_similar, spec_similar.
  destruct (Str.contains (clean name1) (clean name2)) eqn:H12; [reflexivity|].
  destruct (Str.contains (clean name2) (clean name1)) eqn:H21; [reflexivity|].
  simpl.
  destruct (abs_diff _ _ <=? 2)%nat; [|reflexivity].
  unfold ratio_exceeds_07.
  apply contains_nonempty in H12.
  destruct (Nat.eqb_spec (Nat.max (String.length (clean name1))
                            (String.length (clean name2))) 0) as [Hz|Hz]; [lia|].
  reflexivity.
Qed.

Lemma spec_similar_comm (n1 n2 : string) : spec_similar n1 n2 = spec_similar n2 n1.
Proof.
  unfold spec_similar.
  rewrite (abs_diff_comm (String.length n1)), (Nat.max_comm (String.length n1)),
    (aligned_matches_comm n1).
  destruct (Str.contains n1 n2), (Str.contains n2 n1); reflexivity.
Qed.

Lemma names_are_similar_comm (name1 name2 : string) :
  names_are_similar name1 name2 = names_are_similar name2 name1.
Proof. rewrite !names_are_similar_eq, spec_similar_comm. reflexivity. Qed.

(** C6, as far as the code follows it: two filenames are declared a match
    exactly when, on the names cleaned by the code, one is a substring of
    the other, or the lengths differ by at most 2 and the position-aligned
    equal characters are more than 0.7 of the longer length. *)
Lemma duplicate_match_on_cleaned_names (name1 name2 : string) :
  let c1 := clean (Str.lower name1) in
  let c2 := clean (Str.lower name2) in
  (duplicate_match name1 name2 = Some true \/ duplicate_match name1 name2 = Some false)
  /\ (duplicate_match name1 name2 = Some true <->
      Str.contains c1 c2 = true \/ Str.contains c2 c1 = true \/
      ((abs_diff (String.length c1) (String.length c2) <= 2)%nat /\
       (7 * Nat.max (String.length c1) (String.length c2)
        < 10 * Str.aligned_matches c1 c2)%nat)).
Proof.
  intros c1 c2. unfold duplicate_match. rewrite names_are_similar_eq.
  fold c1 c2. unfold spec_similar.
  split; [destruct (_ || _ || _); auto|].
  split.
  - intros [= H]. apply orb_true_iff in H as [H|H].
    + apply orb_true_iff in H as [H|H]; auto.
    + apply andb_true_iff in H as [Ha Hb].
      apply Nat.leb_le in Ha. apply Nat.ltb_lt in Hb. auto.
  - intros [H|[H|[Ha Hb]]]; f_equal.
    + rewrite H. reflexivity.
    + rewrite H, orb_true_r. reflexivity.
    + apply Nat.leb_le in Ha. apply Nat.ltb_lt in Hb.
      rewrite Ha, Hb. apply orb_true_r.
Qed.

(** ** Where the cleaning of the code is the normalisation of the specification *)

Lemma replace_char (c : ascii) (s : string) :
  Str.replace (String c "") "" s = remove_char c s.
Proof.
  unfold Str.replace. cbn [String.eqb].
  induction s as [|c' s IH]; [reflexivity|].
  cbn [Str.replace_from remove_char String.prefix String.length Nat.sub].
  destruct (ascii_dec c c') as [->|Hne].
  - rewrite Ascii.eqb_refl. destruct s; exact IH.
  - destruct (Ascii.eqb_spec c' c) as [->|_]; [contradiction|].
    rewrite IH. reflexivity.
Qed.

Lemma append_cons (c : ascii) (s t : string) : String c s +:+ t = String c (s +:+ t).
Proof. reflexivity. Qed.

Lemma append_empty (t : string) : "" +:+ t = t.
Proof. reflexivity. Qed.

Lemma prefix_empty (s : string) : String.prefix "" s = true.
Proof. destruct s; reflexivity. Qed.

Lemma prefix_md_stem (c : ascii) (stem : string) :
  String.prefix ".md" (String c stem +:+ ".m") = false ->
  String.prefix ".md" (String c stem +:+ ".md") = false.
Proof.
  destruct stem as [|c2 [|c3 stem]]; rewrite ?append_cons, ?append_empty;
    cbn [String.prefix];
    repeat (destruct (ascii_dec _ _); try discriminate; try reflexivity);
    rewrite !prefix_empty; discriminate.
Qed.

Lemma replace_md_extension (stem : string) :
  Str.contains ".md" (stem +:+ ".m") = false ->
  Str.replace ".md" "" (stem +:+ ".md") = stem.
Proof.
  unfold Str.replace. cbn [String.eqb].
  induction stem as [|c stem IH]; intros Hno; [reflexivity|].
  cbn [Str.contains] in Hno. apply orb_false_iff in Hno as [Hp Hrest].
  change (String c stem +:+ ".md") with (String c (stem +:+ ".md")).
  cbn [Str.replace_from].
  change (String c (stem +:+ ".md")) with (String c stem +:+ ".md").
  rewrite (prefix_md_stem c stem Hp). f_equal. apply IH. exact Hrest.
Qed.

Lemma endswith_append (stem ext : string) : Str.endswith (stem +:+ ext) ext = true.
Proof.
  induction stem as [|c stem IH].
  - rewrite append_empty. destruct ext; cbn [Str.endswith];
      rewrite String.eqb_refl; reflexivity.
  - rewrite append_cons. cbn [Str.endswith]. rewrite IH. apply orb_true_r.
Qed.

Lemma length_append (s t : string) :
  String.length (s +:+ t) = (String.length s + String.length t)%nat.
Proof.
  induction s as [|c s IH]; [reflexivity|].
  rewrite append_cons. cbn [String.length]. rewrite IH. reflexivity.
Qed.

Lemma substring_stem (stem ext : string) :
  String.substring 0 (String.length (stem +:+ ext) - String.length ext) (stem +:+ ext)
  = stem.
Proof.
  induction stem as [|c stem IH].
  - rewrite append_empty, Nat.sub_diag. destruct ext; reflexivity.
  - rewrite append_cons. cbn [String.length].
    assert (Hlen : (S (String.length (stem +:+ ext)) - String.length ext
                    = S (String.length (stem +:+ ext) - String.length ext))%nat).
    { rewrite length_append. lia. }
    rewrite Hlen. cbn [String.substring]. rewrite IH. reflexivity.
Qed.

Lemma strip_md_extension_stem (stem : string) :
  strip_md_extension (stem +:+ ".md") = stem.
Proof.
  unfold strip_md_extension. rewrite endswith_append.
  apply (substring_stem stem ".md").
Qed.

(** For a filename whose only [.md] is its extension, the code cleans the
    name as the specification normalises it. *)
Lemma clean_is_spec_normalize (name stem : string) :
  Str.lower name = stem +:+ ".md" ->
  Str.contains ".md" (stem +:+ ".m") = false ->
  clean (Str.lower name) = spec_normalize name.
Proof.
  intros Hname Hno. unfold clean, spec_normalize.
  rewrite Hname, (replace_md_extension stem Hno), strip_md_extension_stem.
  rewrite (replace_char "-"), (replace_char "_"). reflexivity.
Qed.

(** For two such filenames, the code declares a match exactly when the
    specification does. *)
Lemma duplicate_match_is_spec (name1 name2 stem1 stem2 : string) :
  Str.lower name1 = stem1 +:+ ".md" ->
  Str.contains ".md" (stem1 +:+ ".m") = false ->
  Str.lower name2 = stem2 +:+ ".md" ->
  Str.contains ".md" (stem2 +:+ ".m") = false ->
  duplicate_match name1 name2 = Some (spec_duplicate_match name1 name2).
Proof.
  intros H1 N1 H2 N2. unfold duplicate_match, spec_duplicate_match.
  rewrite names_are_similar_eq.
  rewrite (clean_is_spec_normalize name1 stem1 H1 N1),
    (clean_is_spec_normalize name2 stem2 H2 N2).
  reflexivity.
Qed.

(** C6: the code cleans a name with [replace('.md', '')], which removes
    [.md] wherever it occurs, not only as the extension.  For
    [guide.mdx.md] and [guidex.md] the code declares a match, while on the
    names without their extension ([guide.mdx] and [guidex]) neither is a
    substring of the other and the lengths differ by 3. *)
Theorem names_are_similar_strips_inner_md :
  clean (Str.lower "guide.mdx.md") = "guidex"
  /\ spec_normalize "guide.mdx.md" = "guide.mdx"
  /\ spec_normalize "guidex.md" = "guidex"
  /\ duplicate_match "guide.mdx.md" "guidex.md" = Some true
  /\ spec_duplicate_match "guide.mdx.md" "guidex.md" = false.
Proof. repeat split; reflexivity. Qed.

(** ** The monad *)

Lemma bind_eq {A B : Type} (m : M A) (f : A -> M B) (st : state) :
  (m ≫= f) st =
  match m st with
  | (Return a, st') => f a st'
  | (Raise e, st') => (Raise e, st')
  end.
Proof. reflexivity. Qed.

Lemma bind_return {A B : Type} (m : M A) (f : A -> M B) (st st' : state) (a : A) :
  m st = (Return a, st') -> (m ≫= f) st = f a st'.
Proof. intros H. rewrite bind_eq, H. reflexivity. Qed.

Lemma bind_raise {A B : Type} (m : M A) (f : A -> M B) (st st' : state) (e : exn) :
  m st = (Raise e, st') -> (m ≫= f) st = (Raise e, st').
Proof. intros H. rewrite bind_eq, H. reflexivity. Qed.

Lemma set_stats_id (st : state) : set_stats (stats st) st = st.
Proof. destruct st; reflexivity. Qed.

Lemma set_migration_plan_id (st : state) :
  set_migration_plan (migration_plan st) st = st.
Proof. destruct st; reflexivity. Qed.

Lemma for_each_app {A : Type} (l1 l2 : list A) (body : A -> M unit) (st : state) :
  for_each (l1 ++ l2) body st =
  match for_each l1 body st with
  | (Return _, st') => for_each l2 body st'
  | (Raise e, st') => (Raise e, st')
  end.
Proof.
  revert st; induction l1 as [|x l1 IH]; intros st; simpl; [reflexivity|].
  rewrite !bind_eq. destruct (body x st) as [[[]|e] st1]; [apply IH | reflexivity].
Qed.

(** ** analyze_document *)

Section Analysis.

Context (E : env).

Lemma read_file_eq (p : Path) (st : state) :
  read_file E p st =
  (match read_result E (files st) p with
   | inl content => Return content
   | inr e => Raise e
   end, st).
Proof.
  unfold read_file, read_result.
  destruct (unreadable E p); [reflexivity|].
  destruct (files st !! p); reflexivity.
Qed.

Lemma analyze_document_eq (doc_path : Path) (st : state) :
  analyze_document E doc_path st =
  (Return (analysis_of E (files st) doc_path),
   set_stats (count_analysis (analysis_of E (files st) doc_path) (stats st)) st).
Proof.
  unfold analyze_document, analysis_of, try_except.
  rewrite bind_eq, bind_eq, read_file_eq.
  destruct (read_result E (files st) doc_path) as [content|e]; cbn.
  - unfold analysis_of_content.
    destruct (detect_document_type E doc_path content) as [t c]; cbn.
    destruct (90 <=? c)%Z; [reflexivity|].
    destruct (70 <=? c)%Z; reflexivity.
  - rewrite set_stats_id. reflexivity.
Qed.

(** The analysis of an unreadable document is the degenerate record. *)
Lemma analysis_of_read_error (fs : gmap Path string) (p : Path) (e : exn) :
  read_result E fs p = inr e -> analysis_of E fs p = ErrorAnalysis p (str_exn e).
Proof. unfold analysis_of. intros ->. reflexivity. Qed.

Lemma read_error_message (fs : gmap Path string) (p : Path) (e : exn) :
  read_result E fs p = inr e -> truthy (str_exn e) = true.
Proof.
  unfold read_result.
  destruct (unreadable E p); [intros [= <-]; reflexivity|].
  destruct (fs !! p); [discriminate | intros [= <-]; reflexivity].
Qed.

Lemma analysis_of_path (fs : gmap Path string) (p : Path) :
  path (analysis_of E fs p) = p.
Proof.
  unfold analysis_of. destruct (read_result E fs p); [|reflexivity].
  unfold analysis_of_content.
  destruct (detect_document_type E p s). reflexivity.
Qed.

Lemma analysis_of_has_error (fs : gmap Path string) (p : Path) :
  has_error (analysis_of E fs p) =
  match read_result E fs p with inl _ => false | inr _ => true end.
Proof.
  unfold analysis_of. destruct (read_result E fs p) as [c|e] eqn:Hr.
  - unfold analysis_of_content. destruct (detect_document_type E p c). reflexivity.
  - simpl. eapply read_error_message, Hr.
Qed.

Lemma analysis_of_triageable (fs : gmap Path string) (p : Path) :
  triageable (analysis_of E fs p).
Proof.
  unfold analysis_of. destruct (read_result E fs p) as [c|e] eqn:Hr.
  - unfold analysis_of_content. destruct (detect_document_type E p c). exact I.
  - simpl. apply read_error_message in Hr. intros He. rewrite He in Hr. discriminate.
Qed.

(** [analyze_all] returns the analyses of the documents, in order, and
    changes the counters and the output only. *)
Lemma analyze_all_eq (documents : list Path) (i n : nat) (st : state) :
  exists s out,
    analyze_all E i n documents st =
    (Return (List.map (analysis_of E (files st)) documents),
     set_stdout out (set_stats s st))
    /\ scanned s = scanned (stats st).
Proof.
  revert i st; induction documents as [|p documents IH]; intros i st.
  - exists (stats st), (stdout st). destruct st; split; reflexivity.
  - cbn [analyze_all List.map].
    rewrite bind_eq, analyze_document_eq.
    set (st1 := set_stats _ st).
    assert (Hsc : scanned (stats st1) = scanned (stats st)).
    { subst st1. cbn. unfold count_analysis.
      destruct (analysis_of E (files st) p); [reflexivity|].
      destruct (90 <=? _)%Z; [reflexivity|]. destruct (70 <=? _)%Z; reflexivity. }
    rewrite bind_eq.
    assert (Hpr : exists st2,
               (if (i mod 10 =? 0)%nat then print (PrintAnalyzed i n) else mret tt) st1
               = (Return tt, st2)
               /\ files st2 = files st /\ stats st2 = stats st1
               /\ migration_plan st2 = migration_plan st
               /\ stdin st2 = stdin st /\ trace st2 = trace st).
    { destruct (i mod 10 =? 0)%nat; eexists; (split; [reflexivity|]);
        subst st1; destruct st; cbn; auto. }
    destruct Hpr as (st2 & -> & Hf & Hs & Hp & Hi & Ht).
    destruct (IH (S i) st2) as (s & out & Heq & Hs').
    rewrite bind_eq, Heq. cbn.
    exists s, out. split.
    + unfold set_stdout, set_stats; cbn. rewrite Hf, Hp, Hi, Ht. reflexivity.
    + rewrite Hs', Hs. exact Hsc.
Qed.

End Analysis.

(** ** The triage loop *)

Lemma triage_eq (a : DocumentAnalysis) (st : state) :
  triageable a ->
  triage a st = (Return tt, set_migration_plan (triage_plan a (migration_plan st)) st).
Proof.
  intros Ha. unfold triage, triage_plan.
  destruct (has_error a) eqn:Herr; [rewrite set_migration_plan_id; reflexivity|].
  destruct a as [p e|p t c cp nm len cd]; cbn in *.
  - unfold truthy in Herr.
    destruct (String.eqb_spec e ""); [contradiction | cbn in Herr; discriminate].
  - rewrite bind_eq. cbn. destruct nm; cbn.
    + destruct (90 <=? c)%Z; [reflexivity|]. destruct (70 <=? c)%Z; reflexivity.
    + rewrite set_migration_plan_id. reflexivity.
Qed.

Lemma for_each_triage_eq (l : list DocumentAnalysis) (st : state) :
  Forall triageable l ->
  for_each l triage st =
  (Return tt, set_migration_plan (triage_all l (migration_plan st)) st).
Proof.
  intros Hl; revert st; induction Hl as [|a l Ha Hl IH]; intros st.
  - cbn. rewrite set_migration_plan_id. reflexivity.
  - cbn [for_each]. rewrite bind_eq, triage_eq by assumption. rewrite IH. reflexivity.
Qed.

Lemma triage_plan_buckets (a : DocumentAnalysis) (p : MigrationPlan) :
  auto_moves (triage_plan a p) = auto_moves p ++ List.filter auto_bucket [a]
  /\ suggested_moves (triage_plan a p) = suggested_moves p ++ List.filter suggested_bucket [a]
  /\ manual_review (triage_plan a p) = manual_review p ++ List.filter manual_bucket [a]
  /\ duplicates (triage_plan a p) = duplicates p
  /\ broken_refs (triage_plan a p) = broken_refs p.
Proof.
  unfold triage_plan, auto_bucket, suggested_bucket, manual_bucket, needs_triage.
  cbn [List.filter].
  destruct (has_error a); cbn; [rewrite !app_nil_r; auto|].
  destruct (needs_move a) as [[|]|]; cbn; try (rewrite !app_nil_r; auto; fail).
  destruct (90 <=? confidence a)%Z; cbn; [rewrite !app_nil_r; auto|].
  destruct (70 <=? confidence a)%Z; cbn; rewrite !app_nil_r; auto.
Qed.

Lemma triage_all_buckets (l : list DocumentAnalysis) (p : MigrationPlan) :
  auto_moves (triage_all l p) = auto_moves p ++ List.filter auto_bucket l
  /\ suggested_moves (triage_all l p) = suggested_moves p ++ List.filter suggested_bucket l
  /\ manual_review (triage_all l p) = manual_review p ++ List.filter manual_bucket l
  /\ duplicates (triage_all l p) = duplicates p
  /\ broken_refs (triage_all l p) = broken_refs p.
Proof.
  revert p; induction l as [|a l IH]; intros p.
  - cbn. rewrite !app_nil_r. auto.
  - change (triage_all (a :: l) p) with (triage_all l (triage_plan a p)).
    destruct (IH (triage_plan a p)) as (H1 & H2 & H3 & H4 & H5).
    destruct (triage_plan_buckets a p) as (G1 & G2 & G3 & G4 & G5).
    rewrite H1, H2, H3, H4, H5, G1, G2, G3, G4, G5.
    change (a :: l) with ([a] ++ l). rewrite !List.filter_app, !app_assoc. auto.
Qed.

Lemma auto_bucket_has_correct_path (a : DocumentAnalysis) :
  auto_bucket a = true -> has_correct_path a.
Proof.
  destruct a as [p e|]; [|intros _; exact I].
  cbv [auto_bucket suggested_bucket needs_triage has_error get_error needs_move].
  destruct (truthy e); cbn; discriminate.
Qed.

Lemma suggested_bucket_has_correct_path (a : DocumentAnalysis) :
  suggested_bucket a = true -> has_correct_path a.
Proof.
  destruct a as [p e|]; [|intros _; exact I].
  cbv [auto_bucket suggested_bucket needs_triage has_error get_error needs_move].
  destruct (truthy e); cbn; discriminate.
Qed.

(** ** find_duplicates *)

Lemma with_duplicates_id (st : state) :
  with_duplicates (duplicates (migration_plan st)) (duplicates_found (stats st)) st = st.
Proof. destruct st as [[] [] ? ? ? ?]; reflexivity. Qed.

Lemma with_duplicates_twice (ds1 ds2 : list DuplicateGroup) (n1 n2 : nat) (st : state) :
  with_duplicates ds2 n2 (with_duplicates ds1 n1 st) = with_duplicates ds2 n2 st.
Proof. reflexivity. Qed.

Lemma compare_documents_eq (t : string) (doc1 doc2 : DocumentAnalysis) (st : state) :
  exists n,
    compare_documents t doc1 doc2 st =
    (Return tt,
     with_duplicates
       (if similar_documents doc1 doc2
        then add_duplicate (group_of t doc1 doc2) (duplicates (migration_plan st))
        else duplicates (migration_plan st)) n st).
Proof.
  unfold compare_documents, similar_documents.
  rewrite bind_eq, names_are_similar_eq. cbn.
  destruct (spec_similar _ _).
  - rewrite bind_eq. cbn. unfold add_duplicate. fold (group_of t doc1 doc2).
    destruct (bool_decide _).
    + exists (duplicates_found (stats st)). rewrite with_duplicates_id. reflexivity.
    + exists (S (duplicates_found (stats st))). reflexivity.
  - exists (duplicates_found (stats st)). rewrite with_duplicates_id. reflexivity.
Qed.

Lemma for_each_compare_eq (t : string) (doc1 : DocumentAnalysis)
    (later : list DocumentAnalysis) (st : state) :
  exists n,
    for_each later (compare_documents t doc1) st =
    (Return tt,
     with_duplicates (compare_with t doc1 later (duplicates (migration_plan st))) n st).
Proof.
  revert st; induction later as [|doc2 later IH]; intros st.
  - exists (duplicates_found (stats st)). cbn. rewrite with_duplicates_id. reflexivity.
  - cbn [for_each]. rewrite bind_eq.
    destruct (compare_documents_eq t doc1 doc2 st) as [n1 ->].
    destruct (IH (with_duplicates
                   (if similar_documents doc1 doc2
                    then add_duplicate (group_of t doc1 doc2) (duplicates (migration_plan st))
                    else duplicates (migration_plan st)) n1 st)) as [n2 ->].
    exists n2. reflexivity.
Qed.

Lemma compare_all_eq (t : string) (docs : list DocumentAnalysis) (st : state) :
  exists n,
    compare_all t docs st =
    (Return tt,
     with_duplicates (compare_group t docs (duplicates (migration_plan st))) n st).
Proof.
  revert st; induction docs as [|doc1 later IH]; intros st.
  - exists (duplicates_found (stats st)). cbn. rewrite with_duplicates_id. reflexivity.
  - cbn [compare_all]. rewrite bind_eq.
    destruct (for_each_compare_eq t doc1 later st) as [n1 ->].
    destruct (IH (with_duplicates
                   (compare_with t doc1 later (duplicates (migration_plan st))) n1 st))
      as [n2 ->].
    exists n2. reflexivity.
Qed.

Lemma for_each_groups_eq (groups : list (string * list DocumentAnalysis)) (st : state) :
  exists n,
    for_each groups
      (fun group =>
         let (t, docs) := group : string * list DocumentAnalysis in
         if (List.length docs <? 2)%nat then mret tt else compare_all t docs) st =
    (Return tt,
     with_duplicates (compare_groups groups (duplicates (migration_plan st))) n st).
Proof.
  revert st; induction groups as [|[t docs] groups IH]; intros st.
  - exists (duplicates_found (stats st)). cbn. rewrite with_duplicates_id. reflexivity.
  - cbn [for_each]. rewrite bind_eq. unfold compare_groups. cbn [List.fold_left fst snd].
    destruct (List.length docs <? 2)%nat.
    + cbn. apply IH.
    + destruct (compare_all_eq t docs st) as [n1 ->].
      destruct (IH (with_duplicates
                     (compare_group t docs (duplicates (migration_plan st))) n1 st))
        as [n2 ->].
      exists n2. reflexivity.
Qed.

(** [find_duplicates] never raises and changes only the list of duplicates
    and its counter. *)
Lemma find_duplicates_eq (analyses : list DocumentAnalysis) (st : state) :
  exists n,
    find_duplicates analyses st =
    (Return tt,
     with_duplicates
       (compare_groups (type_groups analyses) (duplicates (migration_plan st))) n st).
Proof. apply for_each_groups_eq. Qed.

(** ** find_broken_references *)

Lemma build_move_map_eq (pending : list DocumentAnalysis)
    (move_map : list (Path * option Path)) (st : state) :
  Forall has_correct_path pending ->
  build_move_map pending move_map st = (Return (move_map_of pending move_map), st).
Proof.
  intros Hp; revert move_map; induction Hp as [|a pending Ha Hp IH]; intros move_map.
  - reflexivity.
  - destruct a as [|p t c cp nm len cd]; [contradiction|].
    cbn [build_move_map]. rewrite bind_eq. cbn. apply IH.
Qed.

Lemma with_broken_refs_id (st : state) :
  with_broken_refs (broken_refs (migration_plan st)) st = st.
Proof. destruct st as [? [] ? ? ? ?]; reflexivity. Qed.

Section ReferenceScan.

Context (E : env).

Lemma record_edits_eq (file : Path) (content : string)
    (move_map : list (Path * option Path)) (st : state) :
  for_each move_map
    (fun item =>
       let (old_path, new_path) := item : Path * option Path in
       let old_name := OsPath.basename old_path in
       if mentions content old_path
       then modify_plan
              (append_broken_refs (mkReferenceEdit file old_path new_path old_name))
       else mret tt) st =
  (Return tt,
   with_broken_refs
     (broken_refs (migration_plan st) ++
      List.map
        (fun item : Path * option Path =>
           mkReferenceEdit file (fst item) (snd item) (OsPath.basename (fst item)))
        (List.filter (fun item : Path * option Path => mentions content (fst item))
           move_map)) st).
Proof.
  revert st; induction move_map as [|[old new] move_map IH]; intros st.
  - cbn. rewrite app_nil_r, with_broken_refs_id. reflexivity.
  - cbn [for_each List.filter fst]. rewrite bind_eq.
    destruct (mentions content old); cbn [modify_plan mret M_ret].
    + rewrite IH. cbn. rewrite <- app_assoc. reflexivity.
    + apply IH.
Qed.

Lemma scan_references_eq (move_map : list (Path * option Path))
    (a : DocumentAnalysis) (st : state) :
  scan_references E move_map a st =
  (Return tt,
   with_broken_refs
     (broken_refs (migration_plan st) ++ edits_for E (files st) move_map a) st).
Proof.
  unfold scan_references, try_except, edits_for.
  rewrite bind_eq, read_file_eq.
  destruct (read_result E (files st) (path a)) as [content|e].
  - rewrite record_edits_eq. reflexivity.
  - cbn. rewrite app_nil_r, with_broken_refs_id. reflexivity.
Qed.

Lemma for_each_scan_references_eq (move_map : list (Path * option Path))
    (analyses : list DocumentAnalysis) (st : state) :
  for_each analyses (scan_references E move_map) st =
  (Return tt,
   with_broken_refs
     (broken_refs (migration_plan st) ++
      List.flat_map (edits_for E (files st) move_map) analyses) st).
Proof.
  revert st; induction analyses as [|a analyses IH]; intros st.
  - cbn. rewrite app_nil_r, with_broken_refs_id. reflexivity.
  - cbn [for_each List.flat_map]. rewrite bind_eq, scan_references_eq, IH.
    cbn. rewrite <- app_assoc. reflexivity.
Qed.

Lemma edits_for_no_moves (fs : gmap Path string) (analyses : list DocumentAnalysis) :
  List.flat_map (edits_for E fs []) analyses = [].
Proof.
  induction analyses as [|a analyses IH]; [reflexivity|].
  cbn. rewrite IH. unfold edits_for. destruct (read_result E fs (path a)); reflexivity.
Qed.

(** [find_broken_references] raises nothing when the entries of the two
    buckets have a [correct_path], and only appends reference edits. *)
Lemma find_broken_references_eq (analyses : list DocumentAnalysis) (st : state) :
  Forall has_correct_path
    (auto_moves (migration_plan st) ++ suggested_moves (migration_plan st)) ->
  find_broken_references E analyses st =
  (Return tt,
   with_broken_refs
     (broken_refs (migration_plan st) ++
      List.flat_map (edits_for E (files st) (pending_moves (migration_plan st)))
        analyses) st).
Proof.
  intros Hp. unfold find_broken_references.
  rewrite bind_eq. cbn [get_plan].
  rewrite bind_eq, build_move_map_eq by assumption.
  fold (pending_moves (migration_plan st)).
  destruct (pending_moves (migration_plan st)) eqn:Hm.
  - rewrite edits_for_no_moves, app_nil_r, with_broken_refs_id. reflexivity.
  - apply for_each_scan_references_eq.
Qed.

(** ** build_migration_plan *)

Lemma build_migration_plan_eq (documents : list Path) (st : state) :
  Forall has_correct_path
    (auto_moves (migration_plan st) ++ suggested_moves (migration_plan st)) ->
  exists s out,
    build_migration_plan E documents st =
    (Return tt,
     mkState s (built_plan E (files st) documents (migration_plan st))
       (files st) (stdin st) out (trace st))
    /\ scanned s = scanned (stats st).
Proof.
  intros Hp. unfold build_migration_plan.
  rewrite bind_eq. cbn [print].
  destruct (analyze_all_eq E documents 1 (List.length documents)
              (add_stdout PrintAnalyzing st)) as (s1 & out1 & Ha & Hs1).
  rewrite bind_eq, Ha. cbn [files add_stdout].
  set (analyses := List.map (analysis_of E (files st)) documents).
  rewrite bind_eq. cbn [print].
  rewrite bind_eq, for_each_triage_eq
    by (apply Forall_forall; intros a Hin; apply list_elem_of_In, in_map_iff in Hin;
        destruct Hin as (p & <- & _); apply analysis_of_triageable).
  cbn [migration_plan add_stdout set_stdout set_stats set_migration_plan
         stats files stdin stdout trace].
  set (st1 := set_migration_plan _ _).
  destruct (find_duplicates_eq analyses st1) as [n Hd].
  destruct (triage_all_buckets analyses (migration_plan st)) as (B1 & B2 & B3 & B4 & B5).
  assert (Hp1 : Forall has_correct_path
                  (auto_moves (migration_plan (with_duplicates
                     (compare_groups (type_groups analyses)
                        (duplicates (migration_plan st1))) n st1)) ++
                   suggested_moves (migration_plan (with_duplicates
                     (compare_groups (type_groups analyses)
                        (duplicates (migration_plan st1))) n st1)))).
  { subst st1. cbn. rewrite B1, B2.
    apply Forall_app in Hp as [Hp1 Hp2].
    rewrite !Forall_app. repeat split; try assumption.
    + apply Forall_forall. intros a Hin. apply list_elem_of_In, List.filter_In in Hin.
      apply auto_bucket_has_correct_path, Hin.
    + apply Forall_forall. intros a Hin. apply list_elem_of_In, List.filter_In in Hin.
      apply suggested_bucket_has_correct_path, Hin. }
  eexists _, _. split.
  - rewrite bind_eq, Hd, find_broken_references_eq by exact Hp1.
    subst st1. unfold with_broken_refs, with_duplicates, built_plan. cbn.
    fold analyses. rewrite B4, B5. reflexivity.
  - cbn. exact Hs1.
Qed.

End ReferenceScan.

(** ** The buckets of the plan *)

Section Buckets.

Context (E : env).

Lemma built_plan_buckets (fs : gmap Path string) (documents : list Path) :
  let analyses := List.map (analysis_of E fs) documents in
  auto_moves (built_plan E fs documents init_plan) = List.filter auto_bucket analyses
  /\ suggested_moves (built_plan E fs documents init_plan)
     = List.filter suggested_bucket analyses
  /\ manual_review (built_plan E fs documents init_plan)
     = List.filter manual_bucket analyses.
Proof.
  intros analyses.
  destruct (triage_all_buckets analyses init_plan) as (B1 & B2 & B3 & _).
  unfold built_plan. fold analyses. cbn. rewrite B1, B2, B3. auto.
Qed.

Lemma build_migration_plan_fresh (documents : list Path) (st : state) :
  migration_plan st = init_plan ->
  exists s out,
    build_migration_plan E documents st =
    (Return tt,
     mkState s (built_plan E (files st) documents init_plan)
       (files st) (stdin st) out (trace st))
    /\ scanned s = scanned (stats st).
Proof.
  intros Hp.
  destruct (build_migration_plan_eq E documents st) as (s & out & Heq & Hs).
  - rewrite Hp. constructor.
  - exists s, out. rewrite <- Hp. auto.
Qed.

End Buckets.

(** C1: a document that needs a move is put in the bucket its confidence
    selects, with 90 and 70 as closed lower bounds, and in no other; a
    document that does not need a move is put in none. *)
Theorem build_migration_plan_partition (E : env) (documents : list Path) (st : state) :
  migration_plan st = init_plan ->
  exists st',
    build_migration_plan E documents st = (Return tt, st')
    /\ forall doc_path, In doc_path documents ->
       let a := analysis_of E (files st) doc_path in
       let p := migration_plan st' in
       (needs_move a = Some true ->
          (In a (auto_moves p) <-> (90 <= confidence a)%Z)
          /\ (In a (suggested_moves p) <-> (70 <= confidence a < 90)%Z)
          /\ (In a (manual_review p) <-> (confidence a < 70)%Z))
       /\ (needs_move a = Some false ->
             ~ In a (auto_moves p) /\ ~ In a (suggested_moves p)
             /\ ~ In a (manual_review p)).
Proof.
  intros Hp.
  destruct (build_migration_plan_fresh E documents st Hp) as (s & out & Heq & _).
  eexists. split; [exact Heq|].
  intros doc_path Hin a p. subst p. cbn [migration_plan].
  destruct (built_plan_buckets E (files st) documents) as (-> & -> & ->).
  assert (Ha : In a (List.map (analysis_of E (files st)) documents))
    by (apply in_map; exact Hin).
  rewrite !List.filter_In.
  unfold auto_bucket, suggested_bucket, manual_bucket, needs_triage.
  split; intros Hm.
  - assert (Herr : has_error a = false) by (destruct a; [discriminate | reflexivity]).
    rewrite Herr, Hm. cbn [negb andb]. rewrite bool_decide_eq_true_2 by reflexivity.
    cbn [andb].
    destruct (Z.leb_spec 90 (confidence a)), (Z.leb_spec 70 (confidence a));
      cbn; repeat split; intros; try tauto; try lia; try (exfalso; intuition (discriminate || lia)).
  - rewrite Hm. rewrite bool_decide_eq_false_2 by discriminate.
    rewrite !andb_false_r. cbn. intuition discriminate.
Qed.

Lemma build_migration_plan_partition_witness :
  migration_plan (Demo.start []) = init_plan
  /\ exists st',
       build_migration_plan Demo.E DemoData.documents (Demo.start []) = (Return tt, st')
       /\ forall doc_path, In doc_path DemoData.documents ->
          let a := analysis_of Demo.E (files (Demo.start [])) doc_path in
          let p := migration_plan st' in
          (needs_move a = Some true ->
             (In a (auto_moves p) <-> (90 <= confidence a)%Z)
             /\ (In a (suggested_moves p) <-> (70 <= confidence a < 90)%Z)
             /\ (In a (manual_review p) <-> (confidence a < 70)%Z))
          /\ (needs_move a = Some false ->
                ~ In a (auto_moves p) /\ ~ In a (suggested_moves p)
                /\ ~ In a (manual_review p)).
Proof.
  split; [reflexivity|].
  apply (build_migration_plan_partition Demo.E DemoData.documents (Demo.start [])).
  reflexivity.
Defined.

(** ** Documents that cannot be read *)

Lemma needs_triage_has_correct_path (a : DocumentAnalysis) :
  needs_triage a = true -> has_correct_path a.
Proof.
  destruct a as [p e|]; [|intros _; exact I].
  cbv [needs_triage has_error get_error needs_move].
  destruct (truthy e); cbn; discriminate.
Qed.

Lemma scan_all_documents_eq (E : env) (st : state) :
  exists documents,
    scan_all_documents E st =
    (Return documents, set_stats (set_scanned (List.length documents) (stats st)) st).
Proof. eexists. reflexivity. Qed.

(** C9: the analysis of a document that cannot be read has type ['error']
    and confidence 0; the plan holds it in none of its three buckets; the
    scanned total, set by the scan, still counts it. *)
Theorem unreadable_document_analysis (E : env) (st0 st : state)
    (documents : list Path) (doc_path : Path) (e : exn) :
  migration_plan st0 = init_plan ->
  scan_all_documents E st0 = (Return documents, st) ->
  In doc_path documents ->
  read_result E (files st) doc_path = inr e ->
  (exists st1,
      analyze_document E doc_path st = (Return (ErrorAnalysis doc_path (str_exn e)), st1))
  /\ doc_type (ErrorAnalysis doc_path (str_exn e)) = "error"
  /\ confidence (ErrorAnalysis doc_path (str_exn e)) = 0%Z
  /\ exists st',
       build_migration_plan E documents st = (Return tt, st')
       /\ (forall a,
             In a (auto_moves (migration_plan st') ++
                   suggested_moves (migration_plan st') ++
                   manual_review (migration_plan st')) ->
             path a <> doc_path)
       /\ scanned (stats st') = List.length documents.
Proof.
  intros Hp Hscan Hin Hread.
  assert (Hst : st = set_stats (set_scanned (List.length documents) (stats st0)) st0).
  { destruct (scan_all_documents_eq E st0) as [docs Heq].
    rewrite Heq in Hscan. injection Hscan as <- <-. reflexivity. }
  assert (Hp' : migration_plan st = init_plan) by (rewrite Hst; exact Hp).
  split; [|split; [reflexivity | split; [reflexivity|]]].
  - eexists. rewrite analyze_document_eq.
    rewrite (analysis_of_read_error E _ _ _ Hread). reflexivity.
  - destruct (build_migration_plan_fresh E documents st Hp') as (s & out & Heq & Hs).
    eexists. split; [exact Heq|]. cbn [migration_plan stats]. split.
    + destruct (built_plan_buckets E (files st) documents) as (-> & -> & ->).
      intros a Ha Hpath.
      assert (Hb : In a (List.map (analysis_of E (files st)) documents)
                   /\ needs_triage a = true).
      { rewrite !in_app_iff, !List.filter_In in Ha.
        unfold auto_bucket, suggested_bucket, manual_bucket in Ha.
        destruct Ha as [[? Ha]|[[? Ha]|[? Ha]]]; split; try assumption;
          destruct (needs_triage a); try reflexivity; discriminate. }
      destruct Hb as [Hb Ht]. apply in_map_iff in Hb as (p & <- & _).
      rewrite analysis_of_path in Hpath. subst p.
      rewrite (analysis_of_read_error E _ _ _ Hread) in Ht.
      apply needs_triage_has_correct_path in Ht. exact Ht.
    + rewrite Hs, Hst. reflexivity.
Qed.

Lemma unreadable_document_analysis_witness :
  let st := snd (scan_all_documents DemoLocked.E (Demo.start [])) in
  migration_plan (Demo.start []) = init_plan
  /\ scan_all_documents DemoLocked.E (Demo.start []) = (Return DemoData.documents, st)
  /\ In Demo.plan_v1 DemoData.documents
  /\ read_result DemoLocked.E (files st) Demo.plan_v1 = inr (PermissionError Demo.plan_v1)
  /\ exists st',
       build_migration_plan DemoLocked.E DemoData.documents st = (Return tt, st')
       /\ (forall a,
             In a (auto_moves (migration_plan st') ++
                   suggested_moves (migration_plan st') ++
                   manual_review (migration_plan st')) ->
             path a <> Demo.plan_v1)
       /\ scanned (stats st') = 4%nat.
Proof.
  intros st.
  assert (H1 : migration_plan (Demo.start []) = init_plan) by reflexivity.
  assert (H2 : scan_all_documents DemoLocked.E (Demo.start [])
               = (Return DemoData.documents, st)) by reflexivity.
  assert (H3 : In Demo.plan_v1 DemoData.documents) by (left; reflexivity).
  assert (H4 : read_result DemoLocked.E (files st) Demo.plan_v1
               = inr (PermissionError Demo.plan_v1)) by reflexivity.
  repeat (split; [assumption|]).
  exact (proj2 (proj2 (proj2
    (unreadable_document_analysis DemoLocked.E (Demo.start []) st DemoData.documents
       Demo.plan_v1 (PermissionError Demo.plan_v1) H1 H2 H3 H4)))).
Defined.

(** ** The groups of [find_duplicates] *)

Lemma add_duplicate_keeps (g g' : DuplicateGroup) (ds : list DuplicateGroup) :
  In g ds -> In g (add_duplicate g' ds).
Proof.
  unfold add_duplicate. destruct (bool_decide _); [auto|].
  intros H. apply in_or_app. auto.
Qed.

Lemma add_duplicate_adds (g : DuplicateGroup) (ds : list DuplicateGroup) :
  In g (add_duplicate g ds).
Proof.
  unfold add_duplicate. destruct (bool_decide_reflect (g ∈ ds)) as [H|H].
  - apply list_elem_of_In, H.
  - apply in_or_app. right. left. reflexivity.
Qed.

Lemma add_duplicate_NoDup (g : DuplicateGroup) (ds : list DuplicateGroup) :
  List.NoDup ds -> List.NoDup (add_duplicate g ds).
Proof.
  unfold add_duplicate. destruct (bool_decide_reflect (g ∈ ds)) as [H|H]; [auto|].
  intros Hnd. apply NoDup_ListNoDup, NoDup_app. apply NoDup_ListNoDup in Hnd.
  split; [assumption|]. split; [|apply NoDup_singleton].
  intros x Hx Hx'. apply list_elem_of_singleton in Hx'. subst x. contradiction.
Qed.

Lemma compare_with_keeps (t : string) (doc1 : DocumentAnalysis)
    (later : list DocumentAnalysis) (ds : list DuplicateGroup) (g : DuplicateGroup) :
  In g ds -> In g (compare_with t doc1 later ds).
Proof.
  revert ds; induction later as [|doc2 later IH]; intros ds H; [exact H|].
  cbn. apply IH. destruct (similar_documents doc1 doc2); [apply add_duplicate_keeps|]; exact H.
Qed.

Lemma compare_with_NoDup (t : string) (doc1 : DocumentAnalysis)
    (later : list DocumentAnalysis) (ds : list DuplicateGroup) :
  List.NoDup ds -> List.NoDup (compare_with t doc1 later ds).
Proof.
  revert ds; induction later as [|doc2 later IH]; intros ds H; [exact H|].
  cbn. apply IH. destruct (similar_documents doc1 doc2); [apply add_duplicate_NoDup|]; exact H.
Qed.

Lemma compare_with_adds (t : string) (doc1 doc2 : DocumentAnalysis)
    (later : list DocumentAnalysis) (ds : list DuplicateGroup) :
  In doc2 later -> similar_documents doc1 doc2 = true ->
  In (group_of t doc1 doc2) (compare_with t doc1 later ds).
Proof.
  revert ds; induction later as [|d later IH]; intros ds Hin Hs; [destruct Hin|].
  cbn. destruct Hin as [->|Hin].
  - rewrite Hs. apply compare_with_keeps, add_duplicate_adds.
  - apply IH; assumption.
Qed.

Lemma compare_group_keeps (t : string) (docs : list DocumentAnalysis)
    (ds : list DuplicateGroup) (g : DuplicateGroup) :
  In g ds -> In g (compare_group t docs ds).
Proof.
  revert ds; induction docs as [|d docs IH]; intros ds H; [exact H|].
  cbn. apply IH, compare_with_keeps, H.
Qed.

Lemma compare_group_NoDup (t : string) (docs : list DocumentAnalysis)
    (ds : list DuplicateGroup) :
  List.NoDup ds -> List.NoDup (compare_group t docs ds).
Proof.
  revert ds; induction docs as [|d docs IH]; intros ds H; [exact H|].
  cbn. apply IH, compare_with_NoDup, H.
Qed.

Lemma compare_group_adds (t : string) (before later : list DocumentAnalysis)
    (doc1 doc2 : DocumentAnalysis) (ds : list DuplicateGroup) :
  In doc2 later -> similar_documents doc1 doc2 = true ->
  In (group_of t doc1 doc2) (compare_group t (before ++ doc1 :: later) ds).
Proof.
  revert ds; induction before as [|d before IH]; intros ds Hin Hs.
  - cbn. apply compare_group_keeps, compare_with_adds; assumption.
  - cbn. apply IH; assumption.
Qed.

Lemma compare_groups_cons (t : string) (docs : list DocumentAnalysis)
    (groups : list (string * list DocumentAnalysis)) (ds : list DuplicateGroup) :
  compare_groups ((t, docs) :: groups) ds =
  compare_groups groups
    (if (List.length docs <? 2)%nat then ds else compare_group t docs ds).
Proof. reflexivity. Qed.

Lemma compare_groups_keeps (groups : list (string * list DocumentAnalysis))
    (ds : list DuplicateGroup) (g : DuplicateGroup) :
  In g ds -> In g (compare_groups groups ds).
Proof.
  revert ds; induction groups as [|[t docs] groups IH]; intros ds H; [exact H|].
  rewrite compare_groups_cons. apply IH.
  destruct (_ <? 2)%nat; [|apply compare_group_keeps]; exact H.
Qed.

Lemma compare_groups_NoDup (groups : list (string * list DocumentAnalysis))
    (ds : list DuplicateGroup) :
  List.NoDup ds -> List.NoDup (compare_groups groups ds).
Proof.
  revert ds; induction groups as [|[t docs] groups IH]; intros ds H; [exact H|].
  rewrite compare_groups_cons. apply IH.
  destruct (_ <? 2)%nat; [|apply compare_group_NoDup]; exact H.
Qed.

Lemma compare_groups_adds (groups : list (string * list DocumentAnalysis))
    (t : string) (before later : list DocumentAnalysis)
    (doc1 doc2 : DocumentAnalysis) (ds : list DuplicateGroup) :
  In (t, before ++ doc1 :: later) groups ->
  In doc2 later -> similar_documents doc1 doc2 = true ->
  In (group_of t doc1 doc2) (compare_groups groups ds).
Proof.
  revert ds; induction groups as [|[t' docs] groups IH]; intros ds Hg Hin Hs;
    [destruct Hg|].
  rewrite compare_groups_cons.
  destruct Hg as [[= -> ->]|Hg].
  - apply (compare_groups_keeps groups).
    destruct (Nat.ltb_spec (List.length (before ++ doc1 :: later)) 2) as [Hlen|_].
    + rewrite length_app in Hlen. destruct later; [destruct Hin | cbn in Hlen; lia].
    + apply compare_group_adds; assumption.
  - apply IH; assumption.
Qed.

Lemma group_lookup_append (t t' : string) (a : DocumentAnalysis)
    (groups : list (string * list DocumentAnalysis)) :
  group_lookup t' (group_append t a groups) =
  if String.eqb t t'
  then Some (default [] (group_lookup t groups) ++ [a])
  else group_lookup t' groups.
Proof.
  induction groups as [|[t0 docs] groups IH]; cbn.
  - destruct (String.eqb t t'); reflexivity.
  - destruct (String.eqb_spec t0 t) as [->|Hne]; cbn.
    + destruct (String.eqb t t'); reflexivity.
    + rewrite IH. destruct (String.eqb_spec t t') as [->|Hne'].
      * destruct (String.eqb_spec t0 t'); [contradiction | reflexivity].
      * reflexivity.
Qed.

Lemma group_lookup_In (t : string) (docs : list DocumentAnalysis)
    (groups : list (string * list DocumentAnalysis)) :
  group_lookup t groups = Some docs -> In (t, docs) groups.
Proof.
  induction groups as [|[t0 docs0] groups IH]; cbn; [discriminate|].
  destruct (String.eqb_spec t0 t) as [->|Hne].
  - intros [= ->]. left. reflexivity.
  - intros H. right. apply IH, H.
Qed.

Lemma members_app (t : string) (l1 l2 : list DocumentAnalysis) :
  members t (l1 ++ l2) = members t l1 ++ members t l2.
Proof. apply List.filter_app. Qed.

Lemma type_groups_snoc (l : list DocumentAnalysis) (a : DocumentAnalysis) :
  type_groups (l ++ [a]) =
  if groupable a then group_append (doc_type a) a (type_groups l) else type_groups l.
Proof. unfold type_groups. rewrite fold_left_app. reflexivity. Qed.

(** The group of a type holds the groupable documents of that type, in the
    order of the analyses. *)
Lemma type_groups_lookup (l : list DocumentAnalysis) (t : string) :
  group_lookup t (type_groups l) =
  match members t l with
  | [] => None
  | docs => Some docs
  end.
Proof.
  induction l as [|a l IH] using rev_ind; [reflexivity|].
  rewrite type_groups_snoc, members_app. cbn [members List.filter].
  destruct (groupable a); cbn [andb].
  - rewrite group_lookup_append.
    destruct (String.eqb_spec (doc_type a) t) as [<-|Hne].
    + rewrite IH. destruct (members (doc_type a) l); reflexivity.
    + rewrite app_nil_r. exact IH.
  - rewrite app_nil_r. exact IH.
Qed.

(** Two groupable documents of one type with similar filenames, the first
    analysed before the second, are reported as a group. *)
Lemma compare_groups_reports (before between after : list DocumentAnalysis)
    (a1 a2 : DocumentAnalysis) (ds : list DuplicateGroup) :
  groupable a1 = true -> groupable a2 = true ->
  doc_type a2 = doc_type a1 ->
  similar_documents a1 a2 = true ->
  In (group_of (doc_type a1) a1 a2)
    (compare_groups (type_groups (before ++ a1 :: between ++ a2 :: after)) ds).
Proof.
  intros G1 G2 Ht Hs.
  set (t := doc_type a1).
  assert (Hm : members t (before ++ a1 :: between ++ a2 :: after)
               = members t before ++ a1 :: members t (between ++ a2 :: after)).
  { rewrite members_app. f_equal. unfold members. cbn [List.filter].
    subst t. rewrite G1, String.eqb_refl. reflexivity. }
  assert (Hin : In a2 (members t (between ++ a2 :: after))).
  { apply List.filter_In. split; [apply in_or_app; right; left; reflexivity|].
    subst t. rewrite G2, Ht, String.eqb_refl. reflexivity. }
  apply compare_groups_adds with (before := members t before)
                                 (later := members t (between ++ a2 :: after));
    [|exact Hin | exact Hs].
  apply group_lookup_In. rewrite type_groups_lookup, Hm.
  destruct (members t before); reflexivity.
Qed.

(** C10: documents whose read failed take part in duplicate detection.  Two
    unreadable documents with similar filenames, the first scanned before
    the second, are reported as a duplicate group of type ['error']. *)
Theorem unreadable_documents_reported_as_duplicates (E : env) (st : state)
    (before between after : list Path) (p1 p2 : Path) (e1 e2 : exn) :
  migration_plan st = init_plan ->
  read_result E (files st) p1 = inr e1 ->
  read_result E (files st) p2 = inr e2 ->
  duplicate_match (OsPath.basename p1) (OsPath.basename p2) = Some true ->
  groupable (ErrorAnalysis p1 (str_exn e1)) = true
  /\ exists st',
       build_migration_plan E (before ++ p1 :: between ++ p2 :: after) st
       = (Return tt, st')
       /\ In (mkDuplicateGroup "error"
                [ErrorAnalysis p1 (str_exn e1); ErrorAnalysis p2 (str_exn e2)]
                "filename")
            (duplicates (migration_plan st')).
Proof.
  intros Hp H1 H2 Hs. split; [reflexivity|].
  destruct (build_migration_plan_fresh E (before ++ p1 :: between ++ p2 :: after) st Hp)
    as (s & out & Heq & _).
  eexists. split; [exact Heq|]. cbn [migration_plan].
  unfold built_plan. cbn [duplicates set_broken_refs set_duplicates].
  rewrite map_app. cbn [List.map]. rewrite map_app. cbn [List.map].
  rewrite (analysis_of_read_error E _ _ _ H1), (analysis_of_read_error E _ _ _ H2).
  apply (compare_groups_reports _ _ _ (ErrorAnalysis p1 (str_exn e1))
           (ErrorAnalysis p2 (str_exn e2))); try reflexivity.
  unfold duplicate_match in Hs. rewrite names_are_similar_eq in Hs.
  injection Hs as Hs. exact Hs.
Qed.

Lemma unreadable_documents_reported_as_duplicates_witness :
  let st := Demo.start [] in
  migration_plan st = init_plan
  /\ read_result DemoLocked.E (files st) Demo.plan_v1 = inr (PermissionError Demo.plan_v1)
  /\ read_result DemoLocked.E (files st) Demo.plan_copy
     = inr (PermissionError Demo.plan_copy)
  /\ duplicate_match "test-plan-v1.md" "testplanv1.md" = Some true
  /\ exists st',
       build_migration_plan DemoLocked.E DemoData.documents st = (Return tt, st')
       /\ In (mkDuplicateGroup "error"
                [ErrorAnalysis Demo.plan_v1 (str_exn (PermissionError Demo.plan_v1));
                 ErrorAnalysis Demo.plan_copy (str_exn (PermissionError Demo.plan_copy))]
                "filename")
            (duplicates (migration_plan st')).
Proof.
  intros st.
  assert (H0 : migration_plan st = init_plan) by reflexivity.
  assert (H1 : read_result DemoLocked.E (files st) Demo.plan_v1
               = inr (PermissionError Demo.plan_v1)) by reflexivity.
  assert (H2 : read_result DemoLocked.E (files st) Demo.plan_copy
               = inr (PermissionError Demo.plan_copy)) by reflexivity.
  assert (H3 : duplicate_match "test-plan-v1.md" "testplanv1.md" = Some true)
    by reflexivity.
  repeat (split; [assumption|]).
  exact (proj2 (unreadable_documents_reported_as_duplicates DemoLocked.E st
                  [] [] [Demo.arch; Demo.notes] Demo.plan_v1 Demo.plan_copy
                  (PermissionError Demo.plan_v1) (PermissionError Demo.plan_copy)
                  H0 H1 H2 H3)).
Defined.

(** ** Duplicate groups and the order of the documents *)

Lemma type_groups_pair (a b : DocumentAnalysis) :
  groupable a = true -> groupable b = true -> doc_type b = doc_type a ->
  type_groups [a; b] = [(doc_type a, [a; b])].
Proof.
  intros Ga Gb Ht. unfold type_groups. cbn [List.fold_left].
  rewrite Ga, Gb, Ht. cbn. rewrite String.eqb_refl. reflexivity.
Qed.

Lemma compare_groups_pair (a b : DocumentAnalysis) :
  groupable a = true -> groupable b = true -> doc_type b = doc_type a ->
  similar_documents a b = true ->
  compare_groups (type_groups [a; b]) [] = [group_of (doc_type a) a b].
Proof.
  intros Ga Gb Ht Hs. rewrite type_groups_pair by assumption.
  unfold compare_groups. cbn. rewrite Hs. reflexivity.
Qed.

Lemma duplicates_with_duplicates (ds : list DuplicateGroup) (n : nat) (st : state) :
  duplicates (migration_plan (with_duplicates ds n st)) = ds.
Proof. reflexivity. Qed.

Lemma similar_documents_comm (a b : DocumentAnalysis) :
  similar_documents a b = similar_documents b a.
Proof. apply spec_similar_comm. Qed.

(** C5, counterexample.  For the two test plans of the demo project, [A]
    then [B] is reported as the group [(A, B)], and [B] then [A] as the
    group [(B, A)], which does not compare equal to it; with [A], [B], [A]
    analysed in this order both groups are reported in one run. *)
Lemma duplicate_groups_depend_on_order :
  DemoData.detect [DemoData.A; DemoData.B]
  = [group_of "test_plan" DemoData.A DemoData.B]
  /\ DemoData.detect [DemoData.B; DemoData.A]
     = [group_of "test_plan" DemoData.B DemoData.A]
  /\ group_of "test_plan" DemoData.A DemoData.B
     <> group_of "test_plan" DemoData.B DemoData.A
  /\ DemoData.detect [DemoData.A; DemoData.B; DemoData.A]
     = [group_of "test_plan" DemoData.A DemoData.B;
        group_of "test_plan" DemoData.A DemoData.A;
        group_of "test_plan" DemoData.B DemoData.A].
Proof.
  split; [vm_compute; reflexivity|].
  split; [vm_compute; reflexivity|].
  split; [vm_compute; discriminate|].
  vm_compute; reflexivity.
Qed.

(** C5, amended.  Duplicate groups are ordered pairs without repetition:
    [find_duplicates] never lists twice a group that compares equal to one
    already listed, and a group holds its two documents in the order they
    were analysed, so that detection on [A], [B] reports [(A, B)] and
    detection on [B], [A] reports [(B, A)]. *)
Theorem find_duplicates_ordered_pairs (analyses : list DocumentAnalysis)
    (a b : DocumentAnalysis) (st st0 : state) :
  List.NoDup (duplicates (migration_plan st)) ->
  duplicates (migration_plan st0) = [] ->
  groupable a = true -> groupable b = true -> doc_type b = doc_type a ->
  similar_documents a b = true ->
  (exists st',
      find_duplicates analyses st = (Return tt, st')
      /\ List.NoDup (duplicates (migration_plan st')))
  /\ (exists st1 st2,
        find_duplicates [a; b] st0 = (Return tt, st1)
        /\ duplicates (migration_plan st1) = [group_of (doc_type a) a b]
        /\ find_duplicates [b; a] st0 = (Return tt, st2)
        /\ duplicates (migration_plan st2) = [group_of (doc_type a) b a])
  /\ (group_of (doc_type a) a b = group_of (doc_type a) b a <-> a = b).
Proof.
  intros Hnd Hempty Ga Gb Ht Hs. split; [|split].
  - destruct (find_duplicates_eq analyses st) as [n ->].
    eexists. split; [reflexivity|].
    rewrite duplicates_with_duplicates. apply compare_groups_NoDup, Hnd.
  - destruct (find_duplicates_eq [a; b] st0) as [n1 ->].
    destruct (find_duplicates_eq [b; a] st0) as [n2 ->].
    eexists _, _. repeat split; rewrite duplicates_with_duplicates, Hempty.
    + apply compare_groups_pair; assumption.
    + rewrite (compare_groups_pair b a Gb Ga (eq_sym Ht))
        by (rewrite similar_documents_comm; exact Hs).
      rewrite Ht. reflexivity.
  - unfold group_of. split; [intros [= ->]; reflexivity | intros ->; reflexivity].
Qed.

Lemma find_duplicates_ordered_pairs_witness :
  let st := Demo.start [] in
  List.NoDup (duplicates (migration_plan st))
  /\ duplicates (migration_plan st) = []
  /\ groupable DemoData.A = true /\ groupable DemoData.B = true
  /\ doc_type DemoData.B = doc_type DemoData.A
  /\ similar_documents DemoData.A DemoData.B = true
  /\ (exists st',
         find_duplicates [DemoData.A; DemoData.B; DemoData.A] st = (Return tt, st')
         /\ List.NoDup (duplicates (migration_plan st'))).
Proof.
  intros st.
  assert (H1 : List.NoDup (duplicates (migration_plan st))) by constructor.
  assert (H2 : duplicates (migration_plan st) = []) by reflexivity.
  assert (H3 : groupable DemoData.A = true) by reflexivity.
  assert (H4 : groupable DemoData.B = true) by reflexivity.
  assert (H5 : doc_type DemoData.B = doc_type DemoData.A) by reflexivity.
  assert (H6 : similar_documents DemoData.A DemoData.B = true) by reflexivity.
  repeat (split; [assumption|]).
  exact (proj1 (find_duplicates_ordered_pairs [DemoData.A; DemoData.B; DemoData.A]
                  DemoData.A DemoData.B st st H1 H2 H3 H4 H5 H6)).
Defined.

(** ** The move map and the reference edits *)






Lemma edits_between_app (file old : Path) (l1 l2 : list ReferenceEdit) :
  edits_between file old (l1 ++ l2)
  = (edits_between file old l1 + edits_between file old l2)%nat.
Proof. unfold edits_between. rewrite List.filter_app, length_app. reflexivity. Qed.

Lemma edits_for_file (E : env) (fs : gmap Path string)
    (move_map : list (Path * option Path)) (a : DocumentAnalysis) (r : ReferenceEdit) :
  In r (edits_for E fs move_map a) -> ref_file r = path a.
Proof.
  unfold edits_for. destruct (read_result E fs (path a)); [|intros []].
  intros Hin. apply in_map_iff in Hin as (item & <- & _). reflexivity.
Qed.

Lemma edits_between_for (E : env) (fs : gmap Path string)
    (move_map : list (Path * option Path)) (a : DocumentAnalysis) (file old : Path) :
  edits_between file old (edits_for E fs move_map a)
  = if bool_decide (path a = file)
    then edits_about old (edits_for E fs move_map a)
    else 0%nat.
Proof.
  unfold edits_between, edits_about.
  assert (H : forall l : list ReferenceEdit,
             (forall r, In r l -> ref_file r = path a) ->
             List.length
               (List.filter
                  (fun r => bool_decide (ref_file r = file) && bool_decide (old_ref r = old))
                  l)
             = if bool_decide (path a = file)
               then List.length (List.filter (fun r => bool_decide (old_ref r = old)) l)
               else 0%nat).
  { induction l as [|r l IH]; intros Hl; [destruct (bool_decide _); reflexivity|].
    cbn [List.filter]. rewrite (Hl r) by (left; reflexivity).
    assert (IH' := IH (fun r' Hr' => Hl r' (or_intror Hr'))).
    destruct (bool_decide (path a = file)); cbn [andb].
    - destruct (bool_decide (old_ref r = old)); cbn [List.length]; rewrite IH'; reflexivity.
    - exact IH'. }
  apply H. intros r. apply edits_for_file.
Qed.

(** With no document analysed twice, the edits of the whole scan for one
    document and one move are the edits recorded at that document. *)
Lemma edits_between_scan (E : env) (fs : gmap Path string)
    (move_map : list (Path * option Path)) (analyses : list DocumentAnalysis)
    (a : DocumentAnalysis) (old : Path) :
  List.NoDup (List.map path analyses) -> In a analyses ->
  edits_between (path a) old (List.flat_map (edits_for E fs move_map) analyses)
  = edits_about old (edits_for E fs move_map a).
Proof.
  induction analyses as [|b analyses IH]; intros Hnd Hin; [destruct Hin|].
  cbn [List.flat_map List.map] in *. rewrite edits_between_app, edits_between_for.
  inversion Hnd as [|? ? Hnotin Hnd']; subst.
  destruct Hin as [->|Hin].
  - rewrite bool_decide_eq_true_2 by reflexivity.
    assert (Hrest : edits_between (path a) old
                      (List.flat_map (edits_for E fs move_map) analyses) = 0%nat).
    { clear IH Hnd Hnd'. induction analyses as [|c analyses IHc]; [reflexivity|].
      cbn [List.flat_map]. rewrite edits_between_app, edits_between_for.
      rewrite bool_decide_eq_false_2
        by (intros Heq; apply Hnotin; left; exact Heq).
      apply IHc. intros Hin. apply Hnotin. right. exact Hin. }
    rewrite Hrest. lia.
  - rewrite bool_decide_eq_false_2.
    + apply IH; assumption.
    + intros Heq. apply Hnotin. rewrite Heq. apply in_map, Hin.
Qed.






(** ** execute_moves without prompts *)

Section Moves.

Context (E : env).

Lemma correct_path_planned (a : DocumentAnalysis) :
  has_correct_path a -> correct_path a = Some (planned_path a).
Proof. destruct a; [contradiction | reflexivity]. Qed.

(** The [try]/[except] of one move never raises. *)
Lemma try_move_eq (a : DocumentAnalysis) (st : state) :
  try_except (apply_move E (path a) (planned_path a))
    (fun e => print (PrintFailedToMove (path a) (str_exn e))) st
  = (Return tt, after_move E st a).
Proof.
  unfold try_except, apply_move, after_move, move_stats, move_result, move_report,
    move_calls, move_error.
  destruct (planned_path a) as [dst|]; rewrite bind_eq; cbn [as_path mret M_ret raise].
  - rewrite bind_eq. unfold makedirs.
    destruct (unwritable E (OsPath.dirname dst)) eqn:Hd.
    + unfold print, add_stdout, add_trace. cbn. reflexivity.
    + rewrite bind_eq. unfold move. cbn [files add_trace].
      destruct (files st !! path a) as [content|] eqn:Hsrc.
      * destruct (unwritable E dst) eqn:Hw.
        -- unfold print, add_stdout, add_trace. cbn. rewrite <- app_assoc. reflexivity.
        -- rewrite !bind_eq.
           destruct (negb _); unfold modify_stats, print, add_stdout, add_trace,
             set_stats, set_files; cbn; rewrite <- app_assoc; reflexivity.
      * unfold print, add_stdout, add_trace. cbn. rewrite <- app_assoc. reflexivity.
  - unfold print, add_stdout. cbn. rewrite app_nil_r. reflexivity.
Qed.

Lemma execute_moves_auto_eq (moves : list DocumentAnalysis) (st : state) :
  Forall has_correct_path moves ->
  execute_moves E moves true st = (Return tt, List.fold_left (after_move E) moves st).
Proof.
  intros Hm; revert st; induction Hm as [|a moves Ha Hm IH]; intros st; [reflexivity|].
  cbn [execute_moves List.fold_left].
  rewrite (correct_path_planned a Ha).
  rewrite bind_eq. cbn [subscript mret M_ret].
  rewrite bind_eq. cbn [confirm_move mret M_ret].
  rewrite bind_eq, try_move_eq. apply IH.
Qed.

(** A move that fails leaves the disk and the counters as they were. *)
Lemma after_move_failed (a : DocumentAnalysis) (st : state) (e : exn) :
  move_error E (files st) a = Some e ->
  files (after_move E st a) = files st
  /\ stats (after_move E st a) = stats st
  /\ stdout (after_move E st a) = stdout st ++ [PrintFailedToMove (path a) (str_exn e)].
Proof.
  intros He. unfold after_move, move_result, move_stats, move_report.
  rewrite He. cbn. auto.
Qed.

Lemma fold_after_move_stdout (moves : list DocumentAnalysis) (st : state) :
  exists reports,
    stdout (List.fold_left (after_move E) moves st) = stdout st ++ reports
    /\ Forall2
         (fun a l =>
            (exists dst, l = PrintMoved (OsPath.basename (path a)) dst)
            \/ (exists e, l = PrintFailedToMove (path a) e))
         moves reports.
Proof.
  revert st; induction moves as [|a moves IH]; intros st.
  - exists []. cbn. rewrite app_nil_r. split; [reflexivity | constructor].
  - cbn [List.fold_left]. destruct (IH (after_move E st a)) as (reports & Hout & Hall).
    exists (move_report E (files st) a :: reports). split.
    + rewrite Hout. cbn. rewrite <- app_assoc. reflexivity.
    + constructor; [|exact Hall]. unfold move_report.
      destruct (move_error E (files st) a), (planned_path a); eauto.
Qed.

Lemma fold_after_move_frame (moves : list DocumentAnalysis) (st : state) :
  migration_plan (List.fold_left (after_move E) moves st) = migration_plan st
  /\ stdin (List.fold_left (after_move E) moves st) = stdin st
  /\ trace (List.fold_left (after_move E) moves st)
     = trace st ++ List.flat_map (move_calls E) moves.
Proof.
  revert st; induction moves as [|a moves IH]; intros st.
  - cbn. rewrite app_nil_r. auto.
  - cbn [List.fold_left List.flat_map]. destruct (IH (after_move E st a)) as (-> & -> & ->).
    cbn. rewrite <- app_assoc. auto.
Qed.

End Moves.

(** ** update_references *)

Section Rewrites.

Context (E : env).

Lemma try_rewrite_eq (ref : ReferenceEdit) (st : state) :
  try_except (rewrite_reference E ref)
    (fun e => print (PrintFailedToUpdate (ref_file ref) (str_exn e))) st
  = (Return tt, after_rewrite E st ref).
Proof.
  unfold try_except, rewrite_reference, after_rewrite.
  rewrite bind_eq, read_file_eq.
  destruct (read_result E (files st) (ref_file ref)) as [content|e]; [|reflexivity].
  rewrite bind_eq.
  destruct (new_ref ref) as [new_path|]; cbn [as_path mret M_ret raise]; [|reflexivity].
  destruct (Str.contains _ content); [|reflexivity].
  rewrite bind_eq. unfold write_file.
  destruct (unwritable E (ref_file ref)); reflexivity.
Qed.

Lemma for_each_rewrite_eq (refs : list ReferenceEdit) (st : state) :
  for_each refs
    (fun ref =>
       try_except (rewrite_reference E ref)
         (fun e => print (PrintFailedToUpdate (ref_file ref) (str_exn e)))) st
  = (Return tt, List.fold_left (after_rewrite E) refs st).
Proof.
  revert st; induction refs as [|ref refs IH]; intros st; [reflexivity|].
  cbn [for_each List.fold_left]. rewrite bind_eq, try_rewrite_eq. apply IH.
Qed.

(** [update_references] never raises and goes through every edit of the
    plan. *)
Lemma update_references_eq (st : state) :
  update_references E st
  = (Return tt, List.fold_left (after_rewrite E) (broken_refs (migration_plan st)) st).
Proof. unfold update_references. rewrite bind_eq. apply for_each_rewrite_eq. Qed.

End Rewrites.

(** C8: a move that raises is caught and reported with the path of its
    source, and the loop goes on with the items that remain.  Without
    prompts the loop is the fold of [after_move] over all the items: one
    report for each item, in order; a failed move leaves the disk and the
    counters as they were, so nothing is retried and nothing is undone.
    With or without prompts, after a failed move of the first item the loop
    behaves as the loop over the remaining items. *)
Theorem execute_moves_continues_after_failure (E : env)
    (moves : list DocumentAnalysis) (st : state) :
  Forall has_correct_path moves ->
  execute_moves E moves true st = (Return tt, List.fold_left (after_move E) moves st)
  /\ (exists reports,
        stdout (List.fold_left (after_move E) moves st) = stdout st ++ reports
        /\ Forall2
             (fun a l =>
                (exists dst, l = PrintMoved (OsPath.basename (path a)) dst)
                \/ (exists e, l = PrintFailedToMove (path a) e))
             moves reports)
  /\ (forall st1 a e,
        move_error E (files st1) a = Some e ->
        files (after_move E st1 a) = files st1
        /\ stats (after_move E st1 a) = stats st1
        /\ stdout (after_move E st1 a)
           = stdout st1 ++ [PrintFailedToMove (path a) (str_exn e)])
  /\ (forall auto a rest st0 st1 st2 e,
        has_correct_path a ->
        confirm_move auto (path a) (planned_path a) st0 = (Return Proceed, st1) ->
        apply_move E (path a) (planned_path a) st1 = (Raise e, st2) ->
        execute_moves E (a :: rest) auto st0
        = execute_moves E rest auto
            (add_stdout (PrintFailedToMove (path a) (str_exn e)) st2)
        /\ files st2 = files st1 /\ stats st2 = stats st1).
Proof.
  intros Hm. split; [apply execute_moves_auto_eq, Hm|].
  split; [apply fold_after_move_stdout|].
  split; [intros st1 a e; apply after_move_failed|].
  intros auto a rest st0 st1 st2 e Ha Hc Hraise. split.
  - cbn [execute_moves]. rewrite (correct_path_planned a Ha).
    rewrite bind_eq. cbn [subscript mret M_ret].
    rewrite bind_eq, Hc. rewrite bind_eq.
    unfold try_except at 1. rewrite Hraise. reflexivity.
  - pose proof (try_move_eq E a st1) as Ht.
    unfold try_except in Ht. rewrite Hraise in Ht.
    apply (f_equal snd) in Ht. cbn [snd] in Ht.
    assert (Hout : stdout st2 ++ [PrintFailedToMove (path a) (str_exn e)]
                   = stdout st1 ++ [move_report E (files st1) a])
      by (apply (f_equal stdout) in Ht; exact Ht).
    apply app_inj_tail in Hout as [_ Hrep].
    assert (Hf : files st2 = files (after_move E st1 a))
      by (apply (f_equal files) in Ht; exact Ht).
    assert (Hs : stats st2 = stats (after_move E st1 a))
      by (apply (f_equal stats) in Ht; exact Ht).
    destruct (move_error E (files st1) a) as [e'|] eqn:He.
    + destruct (after_move_failed E a st1 e' He) as (Hf' & Hs' & _). split; congruence.
    + unfold move_report in Hrep. rewrite He in Hrep.
      destruct (planned_path a) eqn:Hpp; [discriminate|].
      unfold move_error in He. rewrite Hpp in He. discriminate.
Qed.

Lemma execute_moves_continues_after_failure_witness :
  Forall has_correct_path [DemoData.A; DemoData.B]
  /\ move_error DemoReadOnly.E Demo.disk DemoData.A
     = Some (PermissionError Demo.plan_v1_new)
  /\ execute_moves DemoReadOnly.E [DemoData.A; DemoData.B] true (Demo.start [])
     = (Return tt,
        List.fold_left (after_move DemoReadOnly.E) [DemoData.A; DemoData.B] (Demo.start []))
  /\ stdout (List.fold_left (after_move DemoReadOnly.E) [DemoData.A; DemoData.B]
               (Demo.start []))
     = [PrintFailedToMove Demo.plan_v1
          (str_exn (PermissionError Demo.plan_v1_new));
        PrintMoved "testplanv1.md" "TEST-PLAN-COPY.md"].
Proof.
  assert (H : Forall has_correct_path [DemoData.A; DemoData.B]) by (repeat constructor).
  split; [exact H|]. split; [reflexivity|].
  split; [|reflexivity].
  exact (proj1 (execute_moves_continues_after_failure DemoReadOnly.E
                  [DemoData.A; DemoData.B] (Demo.start []) H)).
Defined.

(** ** Relations every run of a method respects *)

Section Respects.

Context (R : state -> state -> Prop).
Hypothesis R_refl : forall st, R st st.
Hypothesis R_trans : forall st1 st2 st3, R st1 st2 -> R st2 st3 -> R st1 st3.

Lemma respects_ret {A : Type} (a : A) : respects R (mret a : M A).
Proof. intros st r st' [= <- <-]. apply R_refl. Qed.

Lemma respects_raise {A : Type} (e : exn) : respects R (raise e : M A).
Proof. intros st r st' [= <- <-]. apply R_refl. Qed.

Lemma respects_bind {A B : Type} (m : M A) (f : A -> M B) :
  respects R m -> (forall a, respects R (f a)) -> respects R (m ≫= f).
Proof.
  intros Hm Hf st r st' Hrun. rewrite bind_eq in Hrun.
  destruct (m st) as [[a|e] st1] eqn:Hm1.
  - eapply R_trans; [eapply Hm, Hm1 | eapply Hf, Hrun].
  - injection Hrun as <- <-. eapply Hm, Hm1.
Qed.

Lemma respects_try_except {A : Type} (body : M A) (handler : exn -> M A) :
  respects R body -> (forall e, respects R (handler e)) ->
  respects R (try_except body handler).
Proof.
  intros Hb Hh st r st' Hrun. unfold try_except in Hrun.
  destruct (body st) as [[a|e] st1] eqn:Hb1.
  - injection Hrun as <- <-. eapply Hb, Hb1.
  - eapply R_trans; [eapply Hb, Hb1 | eapply Hh, Hrun].
Qed.

Lemma respects_for_each {A : Type} (l : list A) (body : A -> M unit) :
  (forall x, In x l -> respects R (body x)) -> respects R (for_each l body).
Proof.
  induction l as [|x l IH]; intros Hb; [apply respects_ret|].
  cbn [for_each]. apply respects_bind; [apply Hb; left; reflexivity|].
  intros _. apply IH. intros y Hy. apply Hb. right. exact Hy.
Qed.

Lemma respects_get_plan : respects R get_plan.
Proof. intros st r st' [= <- <-]. apply R_refl. Qed.

Lemma respects_get_stats : respects R get_stats.
Proof. intros st r st' [= <- <-]. apply R_refl. Qed.

Lemma respects_subscript {A : Type} (key : string) (v : option A) :
  respects R (subscript key v).
Proof. destruct v; [apply respects_ret | apply respects_raise]. Qed.

Lemma respects_as_path (v : option Path) : respects R (as_path v).
Proof. destruct v; [apply respects_ret | apply respects_raise]. Qed.

(** The methods of the execution, from what their primitive steps respect. *)
Context (E : env).
Hypothesis R_print : forall l st, R st (add_stdout l st).
Hypothesis R_stdin : forall i st, R st (set_stdin i st).
Hypothesis R_stats : forall s st, R st (set_stats s st).

Lemma respects_print (l : line) : respects R (print l).
Proof. intros st r st' [= <- <-]. apply R_print. Qed.

Lemma respects_input (prompt : line) : respects R (input prompt).
Proof.
  intros st r st' Hrun. unfold input in Hrun.
  destruct (stdin (add_stdout prompt st)) as [|response rest].
  - injection Hrun as <- <-. apply R_print.
  - injection Hrun as <- <-. eapply R_trans; [apply R_print | apply R_stdin].
Qed.

Lemma respects_modify_stats (f : RunStats -> RunStats) : respects R (modify_stats f).
Proof. intros st r st' [= <- <-]. apply R_stats. Qed.

Lemma respects_read_file (p : Path) : respects R (read_file E p).
Proof. intros st r st' Hrun. rewrite read_file_eq in Hrun. injection Hrun as <- <-. apply R_refl. Qed.

Lemma respects_confirm_migration : respects R confirm_migration.
Proof.
  unfold confirm_migration. apply respects_bind; [apply respects_get_plan|].
  intros plan. destruct (_ =? 0)%nat.
  - apply respects_bind; [apply respects_print | intros; apply respects_ret].
  - apply respects_bind; [apply respects_input | intros; apply respects_ret].
Qed.

Lemma respects_confirm_move (auto : bool) (src : Path) (dst : option Path) :
  respects R (confirm_move auto src dst).
Proof.
  unfold confirm_move. destruct auto; [apply respects_ret|].
  apply respects_bind; [apply respects_as_path|]. intros d.
  apply respects_bind; [apply respects_input|]. intros response.
  destruct (String.eqb _ "q"); [apply respects_ret|].
  destruct (negb _); apply respects_ret.
Qed.

Hypothesis R_makedirs : forall d, respects R (makedirs E d).
Hypothesis R_move : forall src dst, respects R (move E src dst).

Lemma respects_apply_move (src : Path) (dst : option Path) :
  respects R (apply_move E src dst).
Proof.
  unfold apply_move. apply respects_bind; [apply respects_as_path|]. intros d.
  apply respects_bind; [apply R_makedirs|]. intros _.
  apply respects_bind; [apply R_move|]. intros _.
  apply respects_bind;
    [destruct (negb _); [apply respects_modify_stats | apply respects_ret]|].
  intros _. apply respects_bind; [apply respects_modify_stats|].
  intros _. apply respects_print.
Qed.

Lemma respects_execute_moves (moves : list DocumentAnalysis) (auto : bool) :
  respects R (execute_moves E moves auto).
Proof.
  induction moves as [|a moves IH]; [apply respects_ret|].
  cbn [execute_moves]. apply respects_bind; [apply respects_subscript|]. intros dst.
  apply respects_bind; [apply respects_confirm_move|]. intros [| |].
  - apply respects_bind; [|intros _; exact IH].
    apply respects_try_except; [apply respects_apply_move|].
    intros e. apply respects_print.
  - exact IH.
  - apply respects_ret.
Qed.

Hypothesis R_copy : forall src dst, respects R (copy2 E src dst).

Lemma respects_create_backup : respects R (create_backup E).
Proof.
  unfold create_backup. apply respects_bind; [apply R_makedirs|]. intros _.
  apply respects_bind; [apply respects_get_plan|]. intros plan.
  apply respects_bind; [|intros _; apply respects_ret].
  apply respects_for_each. intros a _.
  apply respects_bind; [apply R_makedirs | intros _; apply R_copy].
Qed.

End Respects.

(** ** The system calls of each phase *)

Lemma extends_trace_refl (P : syscall -> Prop) (st : state) : extends_trace P st st.
Proof. exists []. rewrite app_nil_r. split; [reflexivity | constructor]. Qed.

Lemma extends_trace_trans (P : syscall -> Prop) (st1 st2 st3 : state) :
  extends_trace P st1 st2 -> extends_trace P st2 st3 -> extends_trace P st1 st3.
Proof.
  intros (c1 & H1 & F1) (c2 & H2 & F2). exists (c1 ++ c2).
  rewrite H2, H1, app_assoc. split; [reflexivity | apply Forall_app; auto].
Qed.

Lemma extends_trace_weaken (P Q : syscall -> Prop) (st st' : state) :
  (forall c, P c -> Q c) -> extends_trace P st st' -> extends_trace Q st st'.
Proof.
  intros HPQ (c & H & F). exists c. split; [exact H|].
  eapply Forall_impl; [exact F | exact HPQ].
Qed.

Lemma extends_trace_same (P : syscall -> Prop) (st st' : state) :
  trace st' = trace st -> extends_trace P st st'.
Proof. intros H. exists []. rewrite app_nil_r. split; [exact H | constructor]. Qed.

Lemma extends_trace_one (P : syscall -> Prop) (st st' : state) (c : syscall) :
  P c -> trace st' = trace st ++ [c] -> extends_trace P st st'.
Proof. intros Hc H. exists [c]. split; [exact H | repeat constructor; exact Hc]. Qed.

Section Traces.

Context (E : env).

Lemma makedirs_trace (P : syscall -> Prop) (d : Path) :
  P (SysMakedirs d) -> respects (extends_trace P) (makedirs E d).
Proof.
  intros HP st r st' Hrun. unfold makedirs in Hrun.
  destruct (unwritable E d); injection Hrun as <- <-;
    apply (extends_trace_one P _ _ (SysMakedirs d)); auto.
Qed.

Lemma copy2_trace (P : syscall -> Prop) (src dst : Path) :
  P (SysCopy src dst) -> respects (extends_trace P) (copy2 E src dst).
Proof.
  intros HP st r st' Hrun. unfold copy2 in Hrun.
  destruct (unreadable E src);
    [|destruct (files (add_trace (SysCopy src dst) st) !! src);
      [destruct (unwritable E dst)|]];
    injection Hrun as <- <-;
    apply (extends_trace_one P _ _ (SysCopy src dst)); auto.
Qed.

Lemma move_trace (P : syscall -> Prop) (src dst : Path) :
  P (SysMove src dst) -> respects (extends_trace P) (move E src dst).
Proof.
  intros HP st r st' Hrun. unfold move in Hrun.
  destruct (files (add_trace (SysMove src dst) st) !! src);
    [destruct (unwritable E dst)|];
    injection Hrun as <- <-;
    apply (extends_trace_one P _ _ (SysMove src dst)); auto.
Qed.

(** The backup issues directory creations and copies only. *)
Lemma create_backup_trace : respects (extends_trace is_backup_call) (create_backup E).
Proof.
  apply respects_create_backup.
  - apply extends_trace_refl.
  - apply extends_trace_trans.
  - intros d. apply makedirs_trace. exact I.
  - intros src dst. apply copy2_trace. exact I.
Qed.

(** The moves issue directory creations and moves only. *)
Lemma execute_moves_trace (moves : list DocumentAnalysis) (auto : bool) :
  respects (extends_trace is_move_call) (execute_moves E moves auto).
Proof.
  apply respects_execute_moves.
  - apply extends_trace_refl.
  - apply extends_trace_trans.
  - intros l st. apply extends_trace_same. reflexivity.
  - intros i st. apply extends_trace_same. reflexivity.
  - intros s st. apply extends_trace_same. reflexivity.
  - intros d. apply makedirs_trace. exact I.
  - intros src dst. apply move_trace. exact I.
Qed.

(** Neither changes the plan. *)
Lemma create_backup_plan : respects (unchanged migration_plan) (create_backup E).
Proof.
  apply respects_create_backup; unfold unchanged.
  - reflexivity.
  - congruence.
  - intros d st r st' Hrun. unfold makedirs in Hrun.
    destruct (unwritable E d); injection Hrun as <- <-; reflexivity.
  - intros src dst st r st' Hrun. unfold copy2 in Hrun.
    destruct (unreadable E src);
      [|destruct (files (add_trace (SysCopy src dst) st) !! src);
        [destruct (unwritable E dst)|]];
      injection Hrun as <- <-; reflexivity.
Qed.

Lemma create_backup_stdin : respects (unchanged stdin) (create_backup E).
Proof.
  apply respects_create_backup; unfold unchanged.
  - reflexivity.
  - congruence.
  - intros d st r st' Hrun. unfold makedirs in Hrun.
    destruct (unwritable E d); injection Hrun as <- <-; reflexivity.
  - intros src dst st r st' Hrun. unfold copy2 in Hrun.
    destruct (unreadable E src);
      [|destruct (files (add_trace (SysCopy src dst) st) !! src);
        [destruct (unwritable E dst)|]];
      injection Hrun as <- <-; reflexivity.
Qed.

Lemma execute_moves_plan (moves : list DocumentAnalysis) (auto : bool) :
  respects (unchanged migration_plan) (execute_moves E moves auto).
Proof.
  apply respects_execute_moves; unfold unchanged.
  - reflexivity.
  - congruence.
  - reflexivity.
  - reflexivity.
  - reflexivity.
  - intros d st r st' Hrun. unfold makedirs in Hrun.
    destruct (unwritable E d); injection Hrun as <- <-; reflexivity.
  - intros src dst st r st' Hrun. unfold move in Hrun.
    destruct (files (add_trace (SysMove src dst) st) !! src);
      [destruct (unwritable E dst)|];
      injection Hrun as <- <-; reflexivity.
Qed.

(** The rewriting of the references issues writes only, and keeps the plan
    and the standard input. *)
Lemma after_rewrite_frame (st : state) (ref : ReferenceEdit) :
  extends_trace is_write st (after_rewrite E st ref)
  /\ migration_plan (after_rewrite E st ref) = migration_plan st
  /\ stdin (after_rewrite E st ref) = stdin st.
Proof.
  unfold after_rewrite.
  destruct (read_result E (files st) (ref_file ref)) as [content|e];
    [|split; [apply extends_trace_same|]; auto].
  destruct (new_ref ref) as [new_path|];
    [|split; [apply extends_trace_same|]; auto].
  destruct (Str.contains _ content);
    [|split; [apply extends_trace_refl|]; auto].
  cbn zeta.
  destruct (unwritable E (ref_file ref)); (split; [|auto]);
    (eapply (extends_trace_one is_write _ _ (SysWrite _ _)); [exact I | reflexivity]).
Qed.

Lemma fold_after_rewrite_frame (refs : list ReferenceEdit) (st : state) :
  extends_trace is_write st (List.fold_left (after_rewrite E) refs st)
  /\ migration_plan (List.fold_left (after_rewrite E) refs st) = migration_plan st
  /\ stdin (List.fold_left (after_rewrite E) refs st) = stdin st.
Proof.
  revert st; induction refs as [|ref refs IH]; intros st.
  - split; [apply extends_trace_refl | auto].
  - cbn [List.fold_left].
    destruct (IH (after_rewrite E st ref)) as (T & P & I).
    destruct (after_rewrite_frame st ref) as (T0 & P0 & I0).
    split; [eapply extends_trace_trans; eassumption|]. split; congruence.
Qed.

Lemma update_references_trace : respects (extends_trace is_write) (update_references E).
Proof.
  intros st r st' Hrun. rewrite update_references_eq in Hrun.
  injection Hrun as <- <-. apply fold_after_rewrite_frame.
Qed.

End Traces.


(** ** execute_migration in automatic mode *)

Section AutoMode.

Context (E : env).

Lemma execute_migration_auto_eq (st : state) :
  Forall has_correct_path (auto_moves (migration_plan st)) ->
  execute_migration E "auto" st =
  match create_backup E st with
  | (Return backup, st1) =>
      (Return true, after_auto_migration E (migration_plan st) backup st1)
  | (Raise e, st1) => (Raise e, st1)
  end.
Proof.
  intros Hm. unfold execute_migration. cbn [String.eqb Ascii.eqb Bool.eqb].
  rewrite bind_eq. cbn [mret M_ret]. rewrite bind_eq.
  destruct (create_backup E st) as [[backup|e] st1] eqn:Hb; [|reflexivity].
  assert (Hp : migration_plan st1 = migration_plan st)
    by (eapply create_backup_plan, Hb).
  unfold migrate. rewrite bind_eq. cbn [print].
  unfold try_except. rewrite bind_eq. cbn [get_plan migration_plan add_stdout].
  rewrite Hp. rewrite bind_eq, execute_moves_auto_eq by exact Hm.
  cbn [String.eqb Ascii.eqb Bool.eqb].
  cbn [negb]. rewrite bind_eq. cbn [mret M_ret].
  rewrite bind_eq, update_references_eq.
  destruct (fold_after_move_frame E (auto_moves (migration_plan st))
              (add_stdout (PrintBackupCreated backup) st1)) as (Hp2 & _ & _).
  rewrite Hp2. cbn [migration_plan add_stdout]. rewrite Hp.
  reflexivity.
Qed.

End AutoMode.

(** C3, counterexample.  In the demo project the second test plan is in the
    suggested bucket.  After [organize --auto] it is still at its old path,
    nothing is at its planned path, and no move of it was issued. *)
Lemma auto_mode_skips_suggested_moves :
  let st := Demo.after_organize false true [] in
  In DemoData.B (suggested_moves (migration_plan st))
  /\ files st !! Demo.plan_copy = Some "# Test plan (copy)"
  /\ files st !! Demo.plan_copy_new = None
  /\ ~ In (SysMove Demo.plan_copy Demo.plan_copy_new) (trace st)
  /\ In (SysMove Demo.plan_v1 Demo.plan_v1_new) (trace st).
Proof.
  vm_compute.
  split; [left; reflexivity|].
  split; [reflexivity|].
  split; [reflexivity|].
  split.
  - intros H. repeat (destruct H as [H|H]; [discriminate|]). exact H.
  - do 6 right. left. reflexivity.
Qed.

(** C3, amended.  In mode ['auto'] nothing is read from standard input, and
    once the backup is made the moves of the auto bucket are executed, one
    after the other without a prompt, then the references are updated; no
    entry of the suggested bucket is moved. *)
Theorem auto_mode_executes_auto_bucket_only (E : env) (st st1 : state) (backup : Path) :
  Forall has_correct_path (auto_moves (migration_plan st)) ->
  create_backup E st = (Return backup, st1) ->
  let st2 :=
    List.fold_left (after_move E) (auto_moves (migration_plan st))
      (add_stdout (PrintBackupCreated backup) st1) in
  let st' := after_auto_migration E (migration_plan st) backup st1 in
  execute_migration E "auto" st = (Return true, st')
  /\ execute_moves E (auto_moves (migration_plan st)) true
       (add_stdout (PrintBackupCreated backup) st1) = (Return tt, st2)
  /\ stdin st' = stdin st
  /\ (forall src dst,
        In (SysMove src dst) (trace st') ->
        In (SysMove src dst) (trace st)
        \/ exists a, In a (auto_moves (migration_plan st))
                     /\ path a = src /\ planned_path a = Some dst).
Proof.
  intros Hm Hb st2 st'.
  split; [rewrite execute_migration_auto_eq, Hb by exact Hm; reflexivity|].
  split; [apply execute_moves_auto_eq, Hm|].
  destruct (fold_after_move_frame E (auto_moves (migration_plan st))
              (add_stdout (PrintBackupCreated backup) st1)) as (Hp2 & Hi2 & Ht2).
  fold st2 in Hp2, Hi2, Ht2.
  destruct (fold_after_rewrite_frame E (broken_refs (migration_plan st)) st2)
    as ((writes & Ht3 & Hw) & _ & Hi3).
  destruct (create_backup_trace E st _ _ Hb) as (copies & Ht1 & Hc).
  split.
  - subst st'. unfold after_auto_migration. fold st2. cbn [stdin add_stdout].
    rewrite Hi3, Hi2. cbn [stdin add_stdout]. eapply create_backup_stdin, Hb.
  - intros src dst Hin. subst st'. unfold after_auto_migration in Hin.
    fold st2 in Hin. cbn [trace add_stdout] in Hin.
    rewrite Ht3, Ht2 in Hin. cbn [trace add_stdout] in Hin. rewrite Ht1 in Hin.
    rewrite !in_app_iff in Hin. destruct Hin as [[[Hin|Hin]|Hin]|Hin].
    + left. exact Hin.
    + exfalso. rewrite Forall_forall in Hc. apply list_elem_of_In, Hc in Hin. exact Hin.
    + right. apply in_flat_map in Hin as (a & Ha & Hin). exists a. split; [exact Ha|].
      unfold move_calls in Hin. destruct (planned_path a) as [d|]; [|destruct Hin].
      destruct Hin as [Hin|Hin]; [discriminate|].
      destruct (unwritable E (OsPath.dirname d)); [destruct Hin|].
      destruct Hin as [[= <- <-]|[]]. auto.
    + exfalso. rewrite Forall_forall in Hw. apply list_elem_of_In, Hw in Hin. exact Hin.
Qed.

Lemma auto_mode_executes_auto_bucket_only_witness :
  Forall has_correct_path (auto_moves (migration_plan DemoData.planned))
  /\ create_backup Demo.E DemoData.planned
     = (Return (backup_dir Demo.E), DemoData.backed_up)
  /\ execute_migration Demo.E "auto" DemoData.planned
     = (Return true,
        after_auto_migration Demo.E (migration_plan DemoData.planned)
          (backup_dir Demo.E) DemoData.backed_up).
Proof.
  assert (H1 : Forall has_correct_path (auto_moves (migration_plan DemoData.planned)))
    by (repeat constructor).
  assert (H2 : create_backup Demo.E DemoData.planned
               = (Return (backup_dir Demo.E), DemoData.backed_up))
    by (vm_cast_no_check (eq_refl (Return (backup_dir Demo.E), DemoData.backed_up))).
  split; [exact H1|]. split; [exact H2|].
  exact (proj1 (auto_mode_executes_auto_bucket_only Demo.E DemoData.planned DemoData.backed_up
                  (backup_dir Demo.E) H1 H2)).
Defined.

(** ** The order of the system calls of execute_migration *)

Lemma writes_last_of_calls (st st' : state) :
  extends_trace (fun c => ~ is_write c) st st' -> writes_last st st'.
Proof.
  intros (calls & H & F). exists calls, []. rewrite app_nil_r.
  split; [exact H|]. split; [exact F | constructor].
Qed.

Lemma writes_last_of_writes (st st' : state) :
  extends_trace is_write st st' -> writes_last st st'.
Proof.
  intros (writes & H & F). exists [], writes.
  split; [exact H|]. split; [constructor | exact F].
Qed.

Lemma writes_last_after_calls (st1 st2 st3 : state) :
  extends_trace (fun c => ~ is_write c) st1 st2 -> writes_last st2 st3 ->
  writes_last st1 st3.
Proof.
  intros (c1 & H1 & F1) (c2 & w & H2 & F2 & Fw). exists (c1 ++ c2), w.
  rewrite H2, H1, <- !app_assoc. split; [reflexivity|].
  split; [apply Forall_app; auto | exact Fw].
Qed.

Lemma writes_last_then_writes (st1 st2 st3 : state) :
  writes_last st1 st2 -> extends_trace is_write st2 st3 -> writes_last st1 st3.
Proof.
  intros (c & w & H1 & Fc & Fw) (w' & H2 & Fw'). exists c, (w ++ w').
  rewrite H2, H1, <- !app_assoc. split; [reflexivity|].
  split; [exact Fc | apply Forall_app; auto].
Qed.

Lemma writes_last_bind {A B : Type} (m : M A) (f : A -> M B) :
  respects (extends_trace (fun c => ~ is_write c)) m ->
  (forall a, respects writes_last (f a)) ->
  respects writes_last (m ≫= f).
Proof.
  intros Hm Hf st r st' Hrun. rewrite bind_eq in Hrun.
  destruct (m st) as [[a|e] st1] eqn:Hm1.
  - eapply writes_last_after_calls; [eapply Hm, Hm1 | eapply Hf, Hrun].
  - injection Hrun as <- <-. apply writes_last_of_calls. eapply Hm, Hm1.
Qed.

Lemma writes_last_try_except {A : Type} (body : M A) (handler : exn -> M A) :
  respects writes_last body ->
  (forall e, respects (extends_trace is_write) (handler e)) ->
  respects writes_last (try_except body handler).
Proof.
  intros Hb Hh st r st' Hrun. unfold try_except in Hrun.
  destruct (body st) as [[a|e] st1] eqn:Hb1.
  - injection Hrun as <- <-. eapply Hb, Hb1.
  - eapply writes_last_then_writes; [eapply Hb, Hb1 | eapply Hh, Hrun].
Qed.

Section Order.

Context (E : env).

Lemma calls_print (l : line) : respects (extends_trace (fun c => ~ is_write c)) (print l).
Proof. intros st r st' [= <- <-]. apply extends_trace_same. reflexivity. Qed.

Lemma writes_print (l : line) : respects (extends_trace is_write) (print l).
Proof. intros st r st' [= <- <-]. apply extends_trace_same. reflexivity. Qed.

Lemma calls_confirmation (mode : string) : respects (extends_trace (fun c => ~ is_write c)) (confirmation mode).
Proof.
  unfold confirmation. destruct (String.eqb mode "auto").
  - apply respects_ret. apply extends_trace_refl.
  - apply respects_confirm_migration.
    + apply extends_trace_refl.
    + apply extends_trace_trans.
    + intros l st. apply extends_trace_same. reflexivity.
    + intros i st. apply extends_trace_same. reflexivity.
Qed.

Lemma calls_create_backup : respects (extends_trace (fun c => ~ is_write c)) (create_backup E).
Proof.
  intros st r st' Hrun. eapply extends_trace_weaken; [|eapply create_backup_trace, Hrun].
  intros [] H; try destruct H; intros [].
Qed.

Lemma calls_execute_moves (moves : list DocumentAnalysis) (auto : bool) :
  respects (extends_trace (fun c => ~ is_write c)) (execute_moves E moves auto).
Proof.
  intros st r st' Hrun.
  eapply extends_trace_weaken; [|eapply execute_moves_trace, Hrun].
  intros [] H; try destruct H; intros [].
Qed.

(** Once the backup is made: copies and moves first, writes last. *)
Lemma migrate_writes_last (mode : string) (backup : Path) :
  respects writes_last (migrate E mode backup).
Proof.
  unfold migrate.
  apply writes_last_bind; [apply calls_print|]. intros _.
  apply writes_last_try_except.
  - apply writes_last_bind;
      [apply respects_get_plan; apply extends_trace_refl|]. intros plan.
    apply writes_last_bind; [apply calls_execute_moves|]. intros _.
    apply writes_last_bind.
    + destruct (negb _); [|apply respects_ret, extends_trace_refl].
      apply respects_bind;
        [apply extends_trace_trans | apply respects_get_plan, extends_trace_refl|].
      intros plan'. apply calls_execute_moves.
    + intros _ st r st' Hrun. apply writes_last_of_writes. revert st r st' Hrun.
      apply respects_bind; [apply extends_trace_trans | apply update_references_trace|].
      intros _. apply respects_bind;
        [apply extends_trace_trans | apply respects_get_stats, extends_trace_refl|].
      intros s. apply respects_bind; [apply extends_trace_trans | apply writes_print|].
      intros _. apply respects_ret, extends_trace_refl.
  - intros e. apply respects_bind; [apply extends_trace_trans | apply writes_print|].
    intros _. apply respects_ret, extends_trace_refl.
Qed.

(** In every run of [execute_migration] the writes of the reference
    rewriting come after all the copies and moves. *)
Lemma execute_migration_writes_last (mode : string) :
  respects writes_last (execute_migration E mode).
Proof.
  unfold execute_migration. fold (confirmation mode).
  apply writes_last_bind; [apply calls_confirmation|]. intros [|].
  - apply writes_last_bind; [apply calls_create_backup|]. intros backup.
    apply migrate_writes_last.
  - intros st r st' [= <- <-]. apply writes_last_of_calls, extends_trace_refl.
Qed.

(** An edit whose file can be read and written and holds the old name is
    rewritten, whatever happened to the move it comes from. *)
Lemma after_rewrite_rewrites (st : state) (ref : ReferenceEdit)
    (content : string) (new_path : Path) :
  read_result E (files st) (ref_file ref) = inl content ->
  new_ref ref = Some new_path ->
  Str.contains (OsPath.basename (old_ref ref)) content = true ->
  unwritable E (ref_file ref) = false ->
  files (after_rewrite E st ref) !! ref_file ref
  = Some (Str.replace (OsPath.basename (old_ref ref)) (OsPath.basename new_path) content)
  /\ In (SysWrite (ref_file ref)
           (Str.replace (OsPath.basename (old_ref ref)) (OsPath.basename new_path)
              content))
        (trace (after_rewrite E st ref)).
Proof.
  intros Hr Hn Hc Hw. unfold after_rewrite. rewrite Hr, Hn, Hc. cbn zeta. rewrite Hw.
  cbn. split; [apply lookup_insert_eq | apply in_or_app; right; left; reflexivity].
Qed.

End Order.

(** C4: [update_references] goes through every edit of the plan and keeps
    no record of the moves that were made, so a reference is rewritten also
    when the document it names was not moved, and then names a file that
    does not exist.  In the demo project [notes.md] mentions both test
    plans.  The second plan stays where it is when its move is skipped with
    [n], abandoned with [q], or not attempted at all under [--auto]; the
    first stays when its move fails because the new place cannot be
    written.  In the four runs [notes.md] is rewritten with the new names
    all the same. *)
Theorem unapplied_move_is_still_rewritten :
  let edit :=
    mkReferenceEdit Demo.notes Demo.plan_copy (Some Demo.plan_copy_new) "testplanv1.md" in
  let rewritten := "See TEST-PLAN-V1.md and TEST-PLAN-COPY.md." in
  let unmoved (run : outcome unit * state) :=
    fst run = Return tt
    /\ In edit (broken_refs (migration_plan (snd run)))
    /\ files (snd run) !! Demo.plan_copy = Some "# Test plan (copy)"
    /\ files (snd run) !! Demo.plan_copy_new = None
    /\ ~ In (SysMove Demo.plan_copy Demo.plan_copy_new) (trace (snd run))
    /\ files (snd run) !! Demo.notes = Some rewritten
    /\ In (SysWrite Demo.notes rewritten) (trace (snd run)) in
  files (Demo.start []) !! Demo.notes = Some "See test-plan-v1.md and testplanv1.md."
  /\ unmoved (organize Demo.E false false (Demo.start ["y"; "n"]))
  /\ unmoved (organize Demo.E false false (Demo.start ["y"; "q"]))
  /\ unmoved (organize Demo.E false true (Demo.start []))
  /\ (let run := organize DemoReadOnly.E false true (Demo.start []) in
      fst run = Return tt
      /\ files (snd run) !! Demo.plan_v1 = Some "# Test plan"
      /\ files (snd run) !! Demo.plan_v1_new = None
      /\ In (PrintFailedToMove Demo.plan_v1
               "[Errno 13] Permission denied: '/repo/project_docs/qa/TEST-PLAN-V1.md'")
            (stdout (snd run))
      /\ files (snd run) !! Demo.notes = Some rewritten
      /\ In (SysWrite Demo.notes "See TEST-PLAN-V1.md and testplanv1.md.")
            (trace (snd run))).
Proof.
  vm_compute.
  split; [reflexivity|].
  split.
  { split; [reflexivity|]. split; [right; left; reflexivity|].
    split; [reflexivity|]. split; [reflexivity|].
    split; [intros H; repeat (destruct H as [H|H]; [discriminate|]); exact H|].
    split; [reflexivity|]. repeat (first [left; reflexivity | right]). }
  split.
  { split; [reflexivity|]. split; [right; left; reflexivity|].
    split; [reflexivity|]. split; [reflexivity|].
    split; [intros H; repeat (destruct H as [H|H]; [discriminate|]); exact H|].
    split; [reflexivity|]. repeat (first [left; reflexivity | right]). }
  split.
  { split; [reflexivity|]. split; [right; left; reflexivity|].
    split; [reflexivity|]. split; [reflexivity|].
    split; [intros H; repeat (destruct H as [H|H]; [discriminate|]); exact H|].
    split; [reflexivity|]. repeat (first [left; reflexivity | right]). }
  split; [reflexivity|]. split; [reflexivity|]. split; [reflexivity|].
  split; [repeat (first [left; reflexivity | right])|].
  split; [reflexivity|]. repeat (first [left; reflexivity | right]).
Qed.

(** ** create_backup *)



Section Backup.

Context (E : env).









End Backup.



(** When the backup copy of the second test plan cannot be written, the run
    stops with the error and no move is issued. *)
Example failed_backup_stops_the_run :
  let run := organize DemoDiskFull.E false true (Demo.start []) in
  fst run = Raise (PermissionError (backup_path Demo.E Demo.plan_copy))
  /\ Forall (fun c => ~ is_move c) (trace (snd run))
  /\ files (snd run) !! Demo.plan_v1 = Some "# Test plan".
Proof.
  vm_compute. split; [reflexivity|]. split; [|reflexivity].
  repeat constructor; intros [].
Qed.

(** * Further properties of the code *)

(** ** Filename similarity *)

(** X1: the similarity test does not depend on the order of the two names,
    and it never divides by zero. *)
Theorem names_are_similar_symmetric (name1 name2 : string) :
  names_are_similar name1 name2 = names_are_similar name2 name1
  /\ names_are_similar name1 name2 <> None.
Proof.
  split.
  - rewrite !names_are_similar_eq, spec_similar_comm. reflexivity.
  - rewrite names_are_similar_eq. discriminate.
Qed.

Lemma prefix_refl (s : string) : String.prefix s s = true.
Proof.
  induction s as [|c s IH]; [reflexivity|].
  cbn [String.prefix]. destruct (ascii_dec c c); [exact IH | contradiction].
Qed.

Lemma contains_refl (s : string) : Str.contains s s = true.
Proof. destruct s; cbn [Str.contains]; rewrite prefix_refl; reflexivity. Qed.

(** X2: every name is similar to itself, whatever it is. *)
Theorem names_are_similar_reflexive (name : string) :
  names_are_similar name name = Some true.
Proof.
  unfold names_are_similar. rewrite contains_refl. reflexivity.
Qed.

(** X3: a name that is cleaned to the empty string (only [.md], hyphens and
    underscores) is similar to every name, on either side. *)
Theorem names_are_similar_empty_name (name1 name2 : string) :
  clean name1 = "" ->
  names_are_similar name1 name2 = Some true
  /\ names_are_similar name2 name1 = Some true.
Proof.
  intros Hc.
  assert (H : names_are_similar name1 name2 = Some true).
  { unfold names_are_similar. rewrite Hc, contains_empty. reflexivity. }
  split; [exact H|]. rewrite names_are_similar_comm. exact H.
Qed.

Lemma names_are_similar_empty_name_witness :
  clean "-_.md" = ""
  /\ names_are_similar "-_.md" "architecture.md" = Some true
  /\ names_are_similar "architecture.md" "-_.md" = Some true.
Proof.
  assert (H : clean "-_.md" = "") by reflexivity.
  split; [exact H|]. exact (names_are_similar_empty_name "-_.md" "architecture.md" H).
Defined.

(** ** scan_all_documents *)

Lemma basename_join (root : Path) (file : string) :
  OsPath.basename (OsPath.join root [file]) = file.
Proof. unfold OsPath.basename, OsPath.join. apply last_last. Qed.

Lemma dirname_join (root : Path) (file : string) :
  OsPath.dirname (OsPath.join root [file]) = root.
Proof. unfold OsPath.dirname, OsPath.join. apply removelast_last. Qed.

Lemma walk_entry_In (root : Path) (names : list string) (p : Path) :
  In p (walk_entry (root, names)) <->
  existsb (fun skip => Str.contains skip (OsPath.path_str root)) skip_dirs = false
  /\ exists file, In file names /\ Str.endswith file ".md" = true
                  /\ p = OsPath.join root [file].
Proof.
  unfold walk_entry.
  destruct (existsb _ skip_dirs).
  - split; [intros [] | intros [H _]; discriminate].
  - rewrite in_map_iff. split.
    + intros (file & <- & Hin). apply List.filter_In in Hin as [Hin He]. eauto.
    + intros (_ & file & Hin & He & ->). exists file. split; [reflexivity|].
      apply List.filter_In. auto.
Qed.

Lemma scan_path_documents_In (E : env) (scan_path p : Path) :
  In p (scan_path_documents E scan_path) <->
  dir_exists E scan_path = true
  /\ exists root names, In (root, names) (os_walk E scan_path)
                        /\ In p (walk_entry (root, names)).
Proof.
  unfold scan_path_documents. destruct (dir_exists E scan_path); cbn [negb].
  - rewrite in_flat_map. split.
    + intros ([root names] & Hin & Hp). eauto.
    + intros (_ & root & names & Hin & Hp). exists (root, names). auto.
  - split; [intros [] | intros [H _]; discriminate].
Qed.

(** X4: every path [scan_all_documents] returns is a file whose name ends
    in [.md], in a directory whose text holds none of [.git],
    [node_modules], [.apm/config]; the scanned counter is set to the length
    of the returned list, repetitions included. *)
Theorem scan_all_documents_sound (E : env) (st st' : state) (documents : list Path) :
  scan_all_documents E st = (Return documents, st') ->
  scanned (stats st') = List.length documents
  /\ files st' = files st /\ migration_plan st' = migration_plan st
  /\ forall p, In p documents ->
       Str.endswith (OsPath.basename p) ".md" = true
       /\ forall skip, In skip [".git"; "node_modules"; ".apm/config"] ->
                       Str.contains skip (OsPath.path_str (OsPath.dirname p)) = false.
Proof.
  intros Hrun. unfold scan_all_documents in Hrun. rewrite bind_eq in Hrun.
  cbn [modify_stats mret M_ret] in Hrun. injection Hrun as <- <-.
  split; [reflexivity|]. split; [reflexivity|]. split; [reflexivity|].
  intros p Hin.
  assert (Hsp : exists scan_path, In p (scan_path_documents E scan_path)).
  { rewrite !in_app_iff in Hin. destruct Hin as [H|[H|[H|[]]]]; eauto. }
  destruct Hsp as (scan_path & Hsp).
  apply scan_path_documents_In in Hsp as (_ & root & names & _ & Hin').
  clear Hin. rename Hin' into Hin.
  apply walk_entry_In in Hin as (Hskip & file & _ & Hmd & ->).
  rewrite basename_join, dirname_join. split; [exact Hmd|].
  intros skip Hs.
  destruct (Str.contains skip (OsPath.path_str root)) eqn:Hc; [|reflexivity].
  assert (Hex : existsb (fun skip => Str.contains skip (OsPath.path_str root)) skip_dirs
                = true).
  { apply existsb_exists. exists skip. split; [exact Hs | exact Hc]. }
  rewrite Hex in Hskip. discriminate.
Qed.

Lemma scan_all_documents_sound_witness :
  scan_all_documents Demo.E (Demo.start [])
  = (Return DemoData.documents, snd (scan_all_documents Demo.E (Demo.start [])))
  /\ scanned (stats (snd (scan_all_documents Demo.E (Demo.start [])))) = 4%nat.
Proof.
  assert (H : scan_all_documents Demo.E (Demo.start [])
              = (Return DemoData.documents,
                 snd (scan_all_documents Demo.E (Demo.start [])))) by reflexivity.
  split; [exact H|].
  exact (proj1 (scan_all_documents_sound Demo.E (Demo.start []) _ _ H)).
Defined.

Lemma occurrences_app (p : Path) (l1 l2 : list Path) :
  occurrences p (l1 ++ l2) = (occurrences p l1 + occurrences p l2)%nat.
Proof. unfold occurrences. rewrite List.filter_app, length_app. reflexivity. Qed.

Lemma occurrences_In (p : Path) (l : list Path) :
  In p l -> (1 <= occurrences p l)%nat.
Proof.
  intros Hin. unfold occurrences.
  assert (H : In p (List.filter (fun q => bool_decide (q = p)) l)).
  { apply List.filter_In. split; [exact Hin | apply bool_decide_eq_true_2; reflexivity]. }
  destruct (List.filter _ l); [destruct H | cbn; lia].
Qed.

(** X5: the project root is walked after [project_docs], and the walk of
    the root goes through [project_docs] again; a document of a directory
    that both walks visit is returned twice, and counted twice. *)
Theorem scan_all_documents_lists_twice (E : env) (st : state)
    (dir : Path) (names : list string) (file : string) :
  dir_exists E (OsPath.join (project_root E) ["project_docs"]) = true ->
  dir_exists E (project_root E) = true ->
  In (dir, names) (os_walk E (OsPath.join (project_root E) ["project_docs"])) ->
  In (dir, names) (os_walk E (project_root E)) ->
  existsb (fun skip => Str.contains skip (OsPath.path_str dir)) skip_dirs = false ->
  In file names -> Str.endswith file ".md" = true ->
  exists documents st',
    scan_all_documents E st = (Return documents, st')
    /\ (2 <= occurrences (OsPath.join dir [file]) documents)%nat
    /\ (2 <= scanned (stats st'))%nat.
Proof.
  intros Hd1 Hd2 Hw1 Hw2 Hskip Hfile Hmd.
  eexists _, _. split; [reflexivity|].
  assert (Hentry : In (OsPath.join dir [file]) (walk_entry (dir, names))).
  { apply walk_entry_In. split; [exact Hskip|]. eauto. }
  assert (H1 : In (OsPath.join dir [file])
                 (scan_path_documents E (OsPath.join (project_root E) ["project_docs"]))).
  { apply scan_path_documents_In. split; [exact Hd1|]. eauto. }
  assert (H2 : In (OsPath.join dir [file]) (scan_path_documents E (project_root E))).
  { apply scan_path_documents_In. split; [exact Hd2|]. eauto. }
  assert (Hocc : (2 <= occurrences (OsPath.join dir [file])
                         (List.flat_map (scan_path_documents E) (scan_paths E)))%nat).
  { unfold scan_paths. cbn [List.flat_map]. rewrite !occurrences_app.
    apply occurrences_In in H1, H2. lia. }
  split; [exact Hocc|].
  cbn [stats set_stats scanned set_scanned].
  etransitivity; [exact Hocc|]. unfold occurrences. apply List.filter_length_le.
Qed.

Lemma scan_all_documents_lists_twice_witness :
  dir_exists DemoNested.E (OsPath.join (project_root DemoNested.E) ["project_docs"]) = true
  /\ dir_exists DemoNested.E (project_root DemoNested.E) = true
  /\ fst (scan_all_documents DemoNested.E (Demo.start []))
     = Return [DemoNested.guide; ["repo"; "README.md"]; DemoNested.guide]
  /\ exists documents st',
       scan_all_documents DemoNested.E (Demo.start []) = (Return documents, st')
       /\ (2 <= occurrences DemoNested.guide documents)%nat
       /\ (2 <= scanned (stats st'))%nat.
Proof.
  split; [reflexivity|]. split; [reflexivity|]. split; [reflexivity|].
  apply (scan_all_documents_lists_twice DemoNested.E (Demo.start [])
           DemoNested.docs_dir ["guide.md"; "logo.png"] "guide.md");
    try reflexivity.
  - left. reflexivity.
  - right. left. reflexivity.
  - left. reflexivity.
Defined.

(** ** A document analysed twice *)

Lemma similar_documents_refl (a : DocumentAnalysis) : similar_documents a a = true.
Proof. unfold similar_documents, spec_similar. rewrite contains_refl. reflexivity. Qed.

(** X6: a document that is listed twice in the scan, and whose type is
    neither empty nor ['uncertain'], is reported as a duplicate of itself. *)
Theorem document_listed_twice_is_its_own_duplicate (E : env) (st : state)
    (before between after : list Path) (p : Path) :
  migration_plan st = init_plan ->
  groupable (analysis_of E (files st) p) = true ->
  exists st',
    build_migration_plan E (before ++ p :: between ++ p :: after) st = (Return tt, st')
    /\ In (mkDuplicateGroup (doc_type (analysis_of E (files st) p))
             [analysis_of E (files st) p; analysis_of E (files st) p] "filename")
          (duplicates (migration_plan st')).
Proof.
  intros Hp Hg.
  destruct (build_migration_plan_fresh E (before ++ p :: between ++ p :: after) st Hp)
    as (s & out & Heq & _).
  eexists. split; [exact Heq|]. cbn [migration_plan].
  unfold built_plan. cbn [duplicates set_broken_refs set_duplicates].
  rewrite map_app. cbn [List.map]. rewrite map_app. cbn [List.map].
  apply (compare_groups_reports _ _ _ (analysis_of E (files st) p)
           (analysis_of E (files st) p)); try assumption; try reflexivity.
  apply similar_documents_refl.
Qed.

Lemma document_listed_twice_is_its_own_duplicate_witness :
  let st := Demo.start [] in
  let a := analysis_of DemoNested.E (files st) DemoNested.guide in
  migration_plan st = init_plan
  /\ groupable a = true
  /\ exists st',
       build_migration_plan DemoNested.E
         ([] ++ DemoNested.guide :: [["repo"; "README.md"]] ++ DemoNested.guide :: []) st
       = (Return tt, st')
       /\ In (mkDuplicateGroup (doc_type a) [a; a] "filename")
            (duplicates (migration_plan st')).
Proof.
  intros st a.
  assert (H1 : migration_plan st = init_plan) by reflexivity.
  assert (H2 : groupable a = true) by reflexivity.
  split; [exact H1|]. split; [exact H2|].
  exact (document_listed_twice_is_its_own_duplicate DemoNested.E st
           [] [["repo"; "README.md"]] [] DemoNested.guide H1 H2).
Defined.

(** ** The counters of the analysis *)

Lemma count_analysis_fields (a : DocumentAnalysis) (s : RunStats) :
  detected (count_analysis a s)
  = (detected s + (if high_tier a || medium_tier a || low_tier a then 1 else 0))%nat
  /\ high_confidence (count_analysis a s)
     = (high_confidence s + (if high_tier a then 1 else 0))%nat
  /\ medium_confidence (count_analysis a s)
     = (medium_confidence s + (if medium_tier a then 1 else 0))%nat
  /\ low_confidence (count_analysis a s)
     = (low_confidence s + (if low_tier a then 1 else 0))%nat
  /\ scanned (count_analysis a s) = scanned s
  /\ moved (count_analysis a s) = moved s
  /\ renamed (count_analysis a s) = renamed s
  /\ duplicates_found (count_analysis a s) = duplicates_found s
  /\ references_updated (count_analysis a s) = references_updated s.
Proof.
  destruct a as [p e|p t c cp nm len cd]; cbn.
  - repeat split; lia.
  - destruct (90 <=? c)%Z; [cbn; repeat split; lia|].
    destruct (70 <=? c)%Z; cbn; repeat split; lia.
Qed.

Lemma count_all_fields (analyses : list DocumentAnalysis) (s : RunStats) :
  detected (count_all analyses s)
  = (detected s
     + List.length (List.filter (fun a => high_tier a || medium_tier a || low_tier a)
                      analyses))%nat
  /\ high_confidence (count_all analyses s)
     = (high_confidence s + List.length (List.filter high_tier analyses))%nat
  /\ medium_confidence (count_all analyses s)
     = (medium_confidence s + List.length (List.filter medium_tier analyses))%nat
  /\ low_confidence (count_all analyses s)
     = (low_confidence s + List.length (List.filter low_tier analyses))%nat
  /\ scanned (count_all analyses s) = scanned s
  /\ moved (count_all analyses s) = moved s
  /\ renamed (count_all analyses s) = renamed s
  /\ duplicates_found (count_all analyses s) = duplicates_found s
  /\ references_updated (count_all analyses s) = references_updated s.
Proof.
  revert s; induction analyses as [|a analyses IH]; intros s.
  - cbn. repeat split; lia.
  - change (count_all (a :: analyses) s) with (count_all analyses (count_analysis a s)).
    destruct (IH (count_analysis a s)) as (I1 & I2 & I3 & I4 & I5 & I6 & I7 & I8 & I9).
    destruct (count_analysis_fields a s) as (C1 & C2 & C3 & C4 & C5 & C6 & C7 & C8 & C9).
    rewrite I1, I2, I3, I4, I5, I6, I7, I8, I9, C1, C2, C3, C4, C5, C6, C7, C8, C9.
    cbn [List.filter].
    destruct (high_tier a), (medium_tier a), (low_tier a); cbn; repeat split; lia.
Qed.

Lemma tiers_of_analysis (E : env) (fs : gmap Path string) (p : Path) :
  (high_tier (analysis_of E fs p) || medium_tier (analysis_of E fs p)
   || low_tier (analysis_of E fs p)) = readable E fs p.
Proof.
  unfold analysis_of, readable. destruct (read_result E fs p) as [c|e]; [|reflexivity].
  unfold analysis_of_content. destruct (detect_document_type E p c) as [t conf]. cbn.
  destruct (90 <=? conf)%Z, (70 <=? conf)%Z; reflexivity.
Qed.

Lemma filter_map_length {A B : Type} (f : A -> B) (P : B -> bool) (l : list A) :
  List.length (List.filter P (List.map f l))
  = List.length (List.filter (fun x => P (f x)) l).
Proof.
  induction l as [|x l IH]; [reflexivity|].
  cbn. destruct (P (f x)); cbn; rewrite IH; reflexivity.
Qed.

Lemma filter_length_ext {A : Type} (P Q : A -> bool) (l : list A) :
  (forall x, P x = Q x) ->
  List.length (List.filter P l) = List.length (List.filter Q l).
Proof.
  intros H. induction l as [|x l IH]; [reflexivity|].
  cbn. rewrite H. destruct (Q x); cbn; rewrite IH; reflexivity.
Qed.

Lemma filter_length_impl {A : Type} (P Q : A -> bool) (l : list A) :
  (forall x, P x = true -> Q x = true) ->
  (List.length (List.filter P l) <= List.length (List.filter Q l))%nat.
Proof.
  intros H. induction l as [|x l IH]; [reflexivity|].
  cbn. destruct (P x) eqn:HP.
  - rewrite (H x HP). cbn. lia.
  - destruct (Q x); cbn; lia.
Qed.

Section Counters.

Context (E : env).

Lemma analyze_all_stats (documents : list Path) (i n : nat) (st : state) :
  exists out,
    analyze_all E i n documents st =
    (Return (List.map (analysis_of E (files st)) documents),
     set_stdout out
       (set_stats (count_all (List.map (analysis_of E (files st)) documents) (stats st))
          st)).
Proof.
  revert i st; induction documents as [|p documents IH]; intros i st.
  - exists (stdout st). destruct st; reflexivity.
  - cbn [analyze_all List.map].
    rewrite bind_eq, analyze_document_eq, bind_eq.
    set (st1 := set_stats _ st).
    assert (Hpr : exists st2,
               (if (i mod 10 =? 0)%nat then print (PrintAnalyzed i n) else mret tt) st1
               = (Return tt, st2)
               /\ files st2 = files st /\ stats st2 = stats st1
               /\ migration_plan st2 = migration_plan st
               /\ stdin st2 = stdin st /\ trace st2 = trace st).
    { destruct (i mod 10 =? 0)%nat; eexists; (split; [reflexivity|]);
        subst st1; destruct st; cbn; auto. }
    destruct Hpr as (st2 & -> & Hf & Hs & Hp & Hi & Ht).
    destruct (IH (S i) st2) as (out & Heq).
    rewrite bind_eq, Heq. cbn [mret M_ret].
    exists out. unfold set_stdout, set_stats; cbn.
    rewrite Hf, Hp, Hi, Ht, Hs. reflexivity.
Qed.

(** [find_duplicates] counts what it appends. *)
Lemma find_duplicates_counts (analyses : list DocumentAnalysis) (st : state) (n : nat)
    (ds : list DuplicateGroup) :
  find_duplicates analyses st = (Return tt, with_duplicates ds n st) ->
  (n + List.length (duplicates (migration_plan st))
   = duplicates_found (stats st) + List.length ds)%nat.
Proof.
  set (R := fun st st' : state =>
              (duplicates_found (stats st') + List.length (duplicates (migration_plan st))
               = duplicates_found (stats st)
                 + List.length (duplicates (migration_plan st')))%nat).
  assert (Rrefl : forall st, R st st) by (intros; unfold R; lia).
  assert (Rtrans : forall a b c, R a b -> R b c -> R a c) by (unfold R; intros; lia).
  assert (Hcmp : forall t d1 d2, respects R (compare_documents t d1 d2)).
  { intros t d1 d2 s r s' Hrun. unfold compare_documents in Hrun.
    rewrite bind_eq, names_are_similar_eq in Hrun. cbn [mret M_ret] in Hrun.
    destruct (spec_similar _ _).
    - rewrite bind_eq in Hrun. cbn [get_plan] in Hrun.
      destruct (bool_decide _).
      + injection Hrun as <- <-. apply Rrefl.
      + rewrite bind_eq in Hrun. injection Hrun as <- <-.
        unfold R. cbn. rewrite length_app. cbn. lia.
    - injection Hrun as <- <-. apply Rrefl. }
  assert (Hall : forall t docs, respects R (compare_all t docs)).
  { intros t docs. induction docs as [|d docs IH]; [apply respects_ret, Rrefl|].
    cbn [compare_all]. apply respects_bind; [exact Rtrans| |intros _; exact IH].
    apply respects_for_each; [exact Rrefl | exact Rtrans|]. intros x _. apply Hcmp. }
  assert (Hfd : respects R (find_duplicates analyses)).
  { unfold find_duplicates. apply respects_for_each; [exact Rrefl | exact Rtrans|].
    intros [t docs] _. destruct (_ <? 2)%nat; [apply respects_ret, Rrefl | apply Hall]. }
  intros Hrun. apply Hfd in Hrun. unfold R in Hrun. cbn in Hrun. lia.
Qed.

(** The state [build_migration_plan] leaves, counters included. *)
Lemma build_migration_plan_state (documents : list Path) (st : state) :
  migration_plan st = init_plan ->
  exists n out,
    build_migration_plan E documents st =
    (Return tt,
     mkState
       (set_duplicates_found n
          (count_all (List.map (analysis_of E (files st)) documents) (stats st)))
       (built_plan E (files st) documents init_plan)
       (files st) (stdin st) out (trace st))
    /\ (n = duplicates_found (stats st)
            + List.length (duplicates (built_plan E (files st) documents init_plan)))%nat.
Proof.
  intros Hp. unfold build_migration_plan.
  rewrite bind_eq. cbn [print].
  destruct (analyze_all_stats documents 1 (List.length documents)
              (add_stdout PrintAnalyzing st)) as (out1 & Ha).
  rewrite bind_eq, Ha. cbn [files add_stdout].
  set (analyses := List.map (analysis_of E (files st)) documents).
  rewrite bind_eq. cbn [print].
  rewrite bind_eq, for_each_triage_eq
    by (apply Forall_forall; intros a Hin; apply list_elem_of_In, in_map_iff in Hin;
        destruct Hin as (p & <- & _); apply analysis_of_triageable).
  cbn [migration_plan add_stdout set_stdout set_stats set_migration_plan
         stats files stdin stdout trace].
  set (st1 := set_migration_plan _ _).
  destruct (find_duplicates_eq analyses st1) as [n Hd].
  pose proof (find_duplicates_counts analyses st1 n _ Hd) as Hn.
  destruct (triage_all_buckets analyses (migration_plan st)) as (B1 & B2 & B3 & B4 & B5).
  assert (Hp1 : Forall has_correct_path
                  (auto_moves (migration_plan (with_duplicates
                     (compare_groups (type_groups analyses)
                        (duplicates (migration_plan st1))) n st1)) ++
                   suggested_moves (migration_plan (with_duplicates
                     (compare_groups (type_groups analyses)
                        (duplicates (migration_plan st1))) n st1)))).
  { subst st1. cbn. rewrite B1, B2, Hp. cbn.
    rewrite !Forall_app. split.
    + apply Forall_forall. intros a Hin. apply list_elem_of_In, List.filter_In in Hin.
      apply auto_bucket_has_correct_path, Hin.
    + apply Forall_forall. intros a Hin. apply list_elem_of_In, List.filter_In in Hin.
      apply suggested_bucket_has_correct_path, Hin. }
  exists n. eexists. split.
  - rewrite bind_eq, Hd, find_broken_references_eq by exact Hp1.
    subst st1. unfold with_broken_refs, with_duplicates, built_plan. cbn.
    fold analyses. rewrite B4, B5, Hp. reflexivity.
  - subst st1. cbn in Hn. rewrite B4, Hp in Hn. cbn in Hn.
    destruct (count_all_fields analyses (stats st))
      as (_ & _ & _ & _ & _ & _ & _ & Hdf & _).
    rewrite Hdf in Hn.
    unfold built_plan. cbn. fold analyses. lia.
Qed.

End Counters.

(** X7: from a fresh plan, [build_migration_plan] counts each readable
    document once in [stats['detected']] and once in exactly one of the
    three confidence counters; the scanned total and the counters of the
    execution are left alone. *)
Theorem build_migration_plan_counts_readable (E : env) (documents : list Path)
    (st : state) :
  migration_plan st = init_plan ->
  exists st',
    build_migration_plan E documents st = (Return tt, st')
    /\ detected (stats st')
       = (detected (stats st)
          + List.length (List.filter (readable E (files st)) documents))%nat
    /\ (detected (stats st') + high_confidence (stats st)
        + medium_confidence (stats st) + low_confidence (stats st)
        = detected (stats st) + high_confidence (stats st')
          + medium_confidence (stats st') + low_confidence (stats st'))%nat
    /\ scanned (stats st') = scanned (stats st)
    /\ moved (stats st') = moved (stats st)
    /\ renamed (stats st') = renamed (stats st)
    /\ references_updated (stats st') = references_updated (stats st).
Proof.
  intros Hp.
  destruct (build_migration_plan_state E documents st Hp) as (n & out & Heq & _).
  eexists. split; [exact Heq|]. cbn [stats].
  set (analyses := List.map (analysis_of E (files st)) documents).
  destruct (count_all_fields analyses (stats st))
    as (C1 & C2 & C3 & C4 & C5 & C6 & C7 & C8 & C9).
  cbn. rewrite C1, C2, C3, C4, C5, C6, C7, C9.
  assert (Hsum : forall l : list DocumentAnalysis,
             List.length (List.filter
                            (fun a => high_tier a || medium_tier a || low_tier a) l)
             = (List.length (List.filter high_tier l)
                + List.length (List.filter medium_tier l)
                + List.length (List.filter low_tier l))%nat).
  { induction l as [|a l IH]; [reflexivity|].
    cbn [List.filter].
    destruct a as [p e|p t c cp nm len cd]; cbn [high_tier medium_tier low_tier orb].
    - exact IH.
    - destruct (90 <=? c)%Z, (70 <=? c)%Z; cbn; lia. }
  repeat split; try reflexivity.
  - f_equal. subst analyses. rewrite filter_map_length.
    apply filter_length_ext. intros p. apply tiers_of_analysis.
  - rewrite (Hsum analyses). lia.
Qed.

Lemma build_migration_plan_counts_readable_witness :
  migration_plan (Demo.start []) = init_plan
  /\ exists st',
       build_migration_plan DemoLocked.E DemoData.documents (Demo.start [])
       = (Return tt, st')
       /\ detected (stats st')
          = (detected (stats (Demo.start []))
             + List.length
                 (List.filter (readable DemoLocked.E (files (Demo.start [])))
                    DemoData.documents))%nat
       /\ (detected (stats st') + high_confidence (stats (Demo.start []))
           + medium_confidence (stats (Demo.start []))
           + low_confidence (stats (Demo.start []))
           = detected (stats (Demo.start [])) + high_confidence (stats st')
             + medium_confidence (stats st') + low_confidence (stats st'))%nat
       /\ scanned (stats st') = scanned (stats (Demo.start []))
       /\ moved (stats st') = moved (stats (Demo.start []))
       /\ renamed (stats st') = renamed (stats (Demo.start []))
       /\ references_updated (stats st') = references_updated (stats (Demo.start [])).
Proof.
  split; [reflexivity|].
  apply (build_migration_plan_counts_readable DemoLocked.E DemoData.documents
           (Demo.start [])).
  reflexivity.
Defined.

Lemma auto_bucket_high (a : DocumentAnalysis) : auto_bucket a = true -> high_tier a = true.
Proof.
  unfold auto_bucket, needs_triage.
  destruct a as [p e|p t c cp nm len cd]; cbn;
    intros H; apply andb_true_iff in H as [_ H]; exact H.
Qed.

Lemma suggested_bucket_medium (a : DocumentAnalysis) :
  suggested_bucket a = true -> medium_tier a = true.
Proof.
  unfold suggested_bucket, needs_triage.
  destruct a as [p e|p t c cp nm len cd]; cbn;
    intros H; apply andb_true_iff in H as [H H2]; [discriminate H2|].
  apply andb_true_iff in H as [_ H1].
  rewrite H1, H2. reflexivity.
Qed.

Lemma manual_bucket_low (a : DocumentAnalysis) :
  manual_bucket a = true -> low_tier a = true.
Proof.
  unfold manual_bucket, needs_triage.
  destruct a as [p e|p t c cp nm len cd]; cbn; intros H.
  - apply andb_true_iff in H as [H _]. apply andb_true_iff in H as [H _].
    apply andb_true_iff in H as [_ H]. apply bool_decide_eq_true in H. discriminate H.
  - apply andb_true_iff in H as [H H2]. apply andb_true_iff in H as [_ H1].
    rewrite H1, H2. reflexivity.
Qed.

(** X8: from a fresh plan, each bucket holds at most as many documents as
    its confidence counter has grown: the counters count every readable
    document, the buckets only those that need a move. *)
Theorem buckets_bounded_by_confidence_counters (E : env) (documents : list Path)
    (st : state) :
  migration_plan st = init_plan ->
  exists st',
    build_migration_plan E documents st = (Return tt, st')
    /\ (List.length (auto_moves (migration_plan st')) + high_confidence (stats st)
        <= high_confidence (stats st'))%nat
    /\ (List.length (suggested_moves (migration_plan st')) + medium_confidence (stats st)
        <= medium_confidence (stats st'))%nat
    /\ (List.length (manual_review (migration_plan st')) + low_confidence (stats st)
        <= low_confidence (stats st'))%nat.
Proof.
  intros Hp.
  destruct (build_migration_plan_state E documents st Hp) as (n & out & Heq & _).
  eexists. split; [exact Heq|]. cbn [stats migration_plan].
  destruct (built_plan_buckets E (files st) documents) as (-> & -> & ->).
  set (analyses := List.map (analysis_of E (files st)) documents).
  destruct (count_all_fields analyses (stats st)) as (_ & C2 & C3 & C4 & _).
  cbn. rewrite C2, C3, C4.
  pose proof (filter_length_impl auto_bucket high_tier analyses auto_bucket_high).
  pose proof (filter_length_impl suggested_bucket medium_tier analyses
                suggested_bucket_medium).
  pose proof (filter_length_impl manual_bucket low_tier analyses manual_bucket_low).
  repeat split; lia.
Qed.

Lemma buckets_bounded_by_confidence_counters_witness :
  migration_plan (Demo.start []) = init_plan
  /\ exists st',
       build_migration_plan Demo.E DemoData.documents (Demo.start []) = (Return tt, st')
       /\ (List.length (auto_moves (migration_plan st'))
           + high_confidence (stats (Demo.start []))
           <= high_confidence (stats st'))%nat
       /\ (List.length (suggested_moves (migration_plan st'))
           + medium_confidence (stats (Demo.start []))
           <= medium_confidence (stats st'))%nat
       /\ (List.length (manual_review (migration_plan st'))
           + low_confidence (stats (Demo.start []))
           <= low_confidence (stats st'))%nat.
Proof.
  split; [reflexivity|].
  apply (buckets_bounded_by_confidence_counters Demo.E DemoData.documents (Demo.start [])).
  reflexivity.
Defined.

(** X9: from a fresh plan, [stats['duplicates_found']] grows by the number
    of duplicate groups the plan lists: on a new object the counter is the
    length of [migration_plan['duplicates']]. *)
Theorem duplicates_found_counts_the_groups (E : env) (documents : list Path)
    (st : state) :
  migration_plan st = init_plan ->
  exists st',
    build_migration_plan E documents st = (Return tt, st')
    /\ duplicates_found (stats st')
       = (duplicates_found (stats st)
          + List.length (duplicates (migration_plan st')))%nat.
Proof.
  intros Hp.
  destruct (build_migration_plan_state E documents st Hp) as (n & out & Heq & Hn).
  eexists. split; [exact Heq|]. cbn. exact Hn.
Qed.

Lemma duplicates_found_counts_the_groups_witness :
  migration_plan (Demo.start []) = init_plan
  /\ exists st',
       build_migration_plan Demo.E DemoData.documents (Demo.start []) = (Return tt, st')
       /\ duplicates_found (stats st')
          = (duplicates_found (stats (Demo.start []))
             + List.length (duplicates (migration_plan st')))%nat.
Proof.
  split; [reflexivity|].
  apply (duplicates_found_counts_the_groups Demo.E DemoData.documents (Demo.start [])).
  reflexivity.
Defined.

(** ** The display of the plan *)

Lemma filter_none {A : Type} (P : A -> bool) (l : list A) :
  Forall (fun x => P x = false) l -> List.filter P l = [].
Proof.
  induction 1 as [|x l Hx _ IH]; [reflexivity|]. cbn. rewrite Hx. exact IH.
Qed.

(** X10: [organize] on a project whose scan finds documents, none of which
    can be read, ends with [ZeroDivisionError]: the header of the plan
    divides by [stats['detected']], which is still 0.  Nothing is asked and
    the disk is not touched. *)
Theorem organize_divides_by_zero (E : env) (dry_run auto : bool) (st : state)
    (documents : list Path) :
  migration_plan st = init_plan ->
  detected (stats st) = 0%nat ->
  fst (scan_all_documents E st) = Return documents ->
  documents <> [] ->
  Forall (fun p => readable E (files st) p = false) documents ->
  exists st',
    organize E dry_run auto st = (Raise ZeroDivisionError, st')
    /\ files st' = files st /\ trace st' = trace st /\ stdin st' = stdin st.
Proof.
  intros Hp Hd Hscan Hne Hun.
  unfold organize. rewrite bind_eq.
  destruct (scan_all_documents_eq E st) as [docs Hs].
  rewrite Hs in Hscan |- *. cbn [fst] in Hscan. injection Hscan as ->.
  rewrite bind_eq. cbn [print].
  destruct documents as [|p documents]; [congruence|].
  set (docs := p :: documents) in *.
  set (st1 := add_stdout _ _).
  assert (Hp1 : migration_plan st1 = init_plan) by (subst st1; destruct st; exact Hp).
  destruct (build_migration_plan_state E docs st1 Hp1) as (n & out & Heq & _).
  rewrite bind_eq, Heq. unfold print_migration_plan, print, get_stats, add_stdout.
  rewrite !bind_eq. cbn [stats detected set_duplicates_found].
  assert (Hf : files st1 = files st) by (subst st1; destruct st; reflexivity).
  assert (Hz : detected
                 (count_all (List.map (analysis_of E (files st1)) docs) (stats st1))
               = 0%nat).
  { destruct (count_all_fields (List.map (analysis_of E (files st1)) docs) (stats st1))
      as (-> & _).
    rewrite filter_map_length,
      (filter_length_ext _ (readable E (files st1)))
      by (intros x; apply tiers_of_analysis).
    rewrite Hf, (filter_none _ _ Hun).
    subst st1. destruct st. cbn in *. lia. }
  rewrite Hz. cbn.
  eexists. split; [reflexivity|]. cbn.
  subst st1. destruct st; cbn. auto.
Qed.

Lemma organize_divides_by_zero_witness :
  let st := Demo.start [] in
  migration_plan st = init_plan
  /\ detected (stats st) = 0%nat
  /\ fst (scan_all_documents DemoUnreadable.E st) = Return DemoData.documents
  /\ DemoData.documents <> []
  /\ Forall (fun p => readable DemoUnreadable.E (files st) p = false) DemoData.documents
  /\ exists st',
       organize DemoUnreadable.E true false st = (Raise ZeroDivisionError, st')
       /\ files st' = files st /\ trace st' = trace st /\ stdin st' = stdin st.
Proof.
  intros st.
  assert (H1 : migration_plan st = init_plan) by reflexivity.
  assert (H2 : detected (stats st) = 0%nat) by reflexivity.
  assert (H3 : fst (scan_all_documents DemoUnreadable.E st) = Return DemoData.documents)
    by (vm_compute; reflexivity).
  assert (H4 : DemoData.documents <> []) by discriminate.
  assert (H5 : Forall (fun p => readable DemoUnreadable.E (files st) p = false)
                 DemoData.documents)
    by (repeat constructor).
  repeat (split; [assumption|]).
  exact (organize_divides_by_zero DemoUnreadable.E true false st DemoData.documents
           H1 H2 H3 H4 H5).
Defined.

(** ** The prompts of the interactive mode *)

(** X11: in a mode other than ['auto'], [execute_migration] first asks once
    for the whole plan.  With no move planned it prints that nothing is to
    be done and reads nothing; with an answer other than [y] or [yes] (in
    any case of letters) it returns [True], as after a migration, and has
    made no backup and no change; at the end of the input the [EOFError]
    of the prompt leaves [execute_migration], which catches nothing there. *)
Theorem execute_migration_without_consent (E : env) (mode : string) (st : state) :
  String.eqb mode "auto" = false ->
  let total :=
    (List.length (auto_moves (migration_plan st))
     + List.length (suggested_moves (migration_plan st)))%nat in
  (total = 0%nat ->
   execute_migration E mode st = (Return true, add_stdout PrintNoMigrationsNeeded st))
  /\ (forall response rest,
        total <> 0%nat -> stdin st = response :: rest ->
        Str.lower response <> "y" -> Str.lower response <> "yes" ->
        execute_migration E mode st
        = (Return true, set_stdin rest (add_stdout (PromptProceed total) st)))
  /\ (total <> 0%nat -> stdin st = [] ->
      execute_migration E mode st
      = (Raise EOFError, add_stdout (PromptProceed total) st)).
Proof.
  intros Hmode total. unfold execute_migration. rewrite Hmode.
  unfold confirm_migration. rewrite !bind_eq. cbn [get_plan]. fold total.
  split; [|split].
  - intros ->. reflexivity.
  - intros response rest Ht Hin Hy Hyes.
    apply Nat.eqb_neq in Ht. rewrite Ht.
    rewrite bind_eq. unfold input. cbn [stdin add_stdout]. rewrite Hin.
    cbn [mret M_ret]. rewrite bool_decide_eq_false_2; [reflexivity|].
    intros Hel. apply list_elem_of_In in Hel. destruct Hel as [H|[H|[]]]; congruence.
  - intros Ht Hin. apply Nat.eqb_neq in Ht. rewrite Ht.
    rewrite bind_eq. unfold input. cbn [stdin add_stdout]. rewrite Hin. reflexivity.
Qed.

Lemma execute_migration_without_consent_witness :
  String.eqb "interactive" "auto" = false
  /\ execute_migration Demo.E "interactive" (set_stdin ["Yep"] DemoData.planned)
     = (Return true, set_stdin [] (add_stdout (PromptProceed 2) DemoData.planned)).
Proof.
  split; [reflexivity|].
  refine (proj1 (proj2 (execute_migration_without_consent Demo.E "interactive"
                          (set_stdin ["Yep"] DemoData.planned) eq_refl))
            "Yep" [] _ eq_refl _ _); vm_compute; discriminate.
Defined.

(** X12: the end of the input at the prompt of a suggested move ends the
    migration: [execute_migration] catches the [EOFError], reports the
    failure and returns [False].  The high confidence moves made before
    stay made, and no reference is updated. *)
Theorem migrate_eof_at_a_prompt (E : env) (mode : string) (backup : Path) (st : state)
    (a : DocumentAnalysis) (rest : list DocumentAnalysis) (dst : Path) :
  String.eqb mode "auto" = false ->
  Forall has_correct_path (auto_moves (migration_plan st)) ->
  suggested_moves (migration_plan st) = a :: rest ->
  correct_path a = Some (Some dst) ->
  stdin st = [] ->
  let st1 :=
    List.fold_left (after_move E) (auto_moves (migration_plan st))
      (add_stdout (PrintBackupCreated backup) st) in
  migrate E mode backup st
  = (Return false,
     add_stdout (PrintMigrationFailed (str_exn EOFError) backup)
       (add_stdout (PromptMove (OsPath.basename (path a)) (OsPath.basename dst)) st1))
  /\ Forall (fun c => ~ is_write c) (List.flat_map (move_calls E) (auto_moves (migration_plan st)))
  /\ trace st1 = trace st ++ List.flat_map (move_calls E) (auto_moves (migration_plan st)).
Proof.
  intros Hmode Hauto Hsug Hdst Hin st1.
  destruct (fold_after_move_frame E (auto_moves (migration_plan st))
              (add_stdout (PrintBackupCreated backup) st)) as (Hp & Hi & Ht).
  fold st1 in Hp, Hi, Ht. cbn [migration_plan stdin trace add_stdout] in Hp, Hi, Ht.
  split; [|split].
  - unfold migrate. rewrite bind_eq. unfold print at 1.
    unfold try_except. rewrite bind_eq. cbn [get_plan add_stdout migration_plan].
    rewrite bind_eq, (execute_moves_auto_eq E _ _ Hauto). fold st1.
    rewrite bind_eq, Hmode. cbn [negb]. rewrite bind_eq. cbn [get_plan].
    rewrite Hp, Hsug. cbn [execute_moves]. rewrite Hdst.
    rewrite bind_eq. cbn [subscript mret M_ret].
    rewrite bind_eq. unfold confirm_move. rewrite bind_eq. cbn [as_path mret M_ret].
    rewrite bind_eq. unfold input. cbn [stdin add_stdout]. rewrite Hi, Hin.
    reflexivity.
  - apply Forall_forall. intros c Hc. apply list_elem_of_In, in_flat_map in Hc.
    destruct Hc as (x & _ & Hc). unfold move_calls in Hc.
    destruct (planned_path x) as [d|]; [|destruct Hc].
    destruct Hc as [<-|Hc]; [intros []|].
    destruct (unwritable E (OsPath.dirname d)); [destruct Hc|].
    destruct Hc as [<-|[]]. intros [].
  - exact Ht.
Qed.

Lemma migrate_eof_at_a_prompt_witness :
  let st := DemoData.backed_up in
  String.eqb "interactive" "auto" = false
  /\ Forall has_correct_path (auto_moves (migration_plan st))
  /\ suggested_moves (migration_plan st) = [DemoData.B]
  /\ correct_path DemoData.B = Some (Some Demo.plan_copy_new)
  /\ stdin st = []
  /\ fst (migrate Demo.E "interactive" (backup_dir Demo.E) st) = Return false.
Proof.
  intros st.
  assert (H1 : String.eqb "interactive" "auto" = false) by reflexivity.
  assert (H2 : Forall has_correct_path (auto_moves (migration_plan st)))
    by (vm_compute; repeat constructor).
  assert (H3 : suggested_moves (migration_plan st) = [DemoData.B])
    by (vm_compute; reflexivity).
  assert (H4 : correct_path DemoData.B = Some (Some Demo.plan_copy_new))
    by (vm_compute; reflexivity).
  assert (H5 : stdin st = []) by reflexivity.
  repeat (split; [assumption|]).
  exact (f_equal fst
           (proj1 (migrate_eof_at_a_prompt Demo.E "interactive" (backup_dir Demo.E) st
                     DemoData.B [] Demo.plan_copy_new H1 H2 H3 H4 H5))).
Defined.

Section Interactive.

Context (E : env).

Lemma after_move_sim (st sh : state) (a : DocumentAnalysis) :
  files st = files sh -> stats st = stats sh -> trace st = trace sh ->
  files (after_move E st a) = files (after_move E sh a)
  /\ stats (after_move E st a) = stats (after_move E sh a)
  /\ trace (after_move E st a) = trace (after_move E sh a).
Proof. intros Hf Hs Ht. unfold after_move. cbn. rewrite Hf, Hs, Ht. auto. Qed.

Lemma execute_moves_interactive_sim (moves : list DocumentAnalysis) :
  Forall (fun a => exists dst, correct_path a = Some (Some dst)) moves ->
  forall st sh : state,
    files st = files sh -> stats st = stats sh -> trace st = trace sh ->
    match approved (stdin st) moves with
    | Some (ok, unread) =>
        exists st',
          execute_moves E moves false st = (Return tt, st')
          /\ files st' = files (List.fold_left (after_move E) ok sh)
          /\ stats st' = stats (List.fold_left (after_move E) ok sh)
          /\ trace st' = trace (List.fold_left (after_move E) ok sh)
          /\ stdin st' = unread
          /\ migration_plan st' = migration_plan st
    | None =>
        exists st', execute_moves E moves false st = (Raise EOFError, st')
    end.
Proof.
  intros Hall. induction Hall as [|a moves [dst Ha] Hm IH]; intros st sh Hf Hs Ht.
  - cbn. exists st. auto 10.
  - cbn [approved execute_moves]. rewrite Ha.
    rewrite bind_eq. cbn [subscript mret M_ret].
    rewrite bind_eq. unfold confirm_move. rewrite bind_eq. cbn [as_path mret M_ret].
    rewrite bind_eq. unfold input. cbn [stdin add_stdout].
    destruct (stdin st) as [|response answers] eqn:Hin.
    + eexists. reflexivity.
    + cbn zeta. destruct (String.eqb (Str.lower response) "q").
      * cbn [mret M_ret]. eexists. split; [reflexivity|]. cbn. auto 10.
      * destruct (String.eqb (Str.lower response) "y"); cbn [negb mret M_ret].
        -- set (st1 := set_stdin answers _).
           assert (Hp : planned_path a = Some dst) by (unfold planned_path; rewrite Ha; reflexivity).
           rewrite <- Hp, bind_eq, try_move_eq.
           destruct (after_move_sim st1 sh a) as (Hf1 & Hs1 & Ht1);
             [subst st1; cbn; assumption ..|].
           specialize (IH (after_move E st1 a) (after_move E sh a) Hf1 Hs1 Ht1).
           change (stdin (after_move E st1 a)) with answers in IH.
           destruct (approved answers moves) as [[ok unread]|].
           ++ destruct IH as (st' & Hrun & F1 & F2 & F3 & F4 & F5).
              exists st'. cbn [List.fold_left]. repeat split; assumption.
           ++ exact IH.
        -- set (st1 := set_stdin answers _).
           assert (Hf1 : files st1 = files sh) by (subst st1; cbn; assumption).
           assert (Hs1 : stats st1 = stats sh) by (subst st1; cbn; assumption).
           assert (Ht1 : trace st1 = trace sh) by (subst st1; cbn; assumption).
           specialize (IH st1 sh Hf1 Hs1 Ht1).
           change (stdin st1) with answers in IH.
           destruct (approved answers moves) as [[ok unread]|].
           ++ destruct IH as (st' & Hrun & F1 & F2 & F3 & F4 & F5).
              exists st'. repeat split; assumption.
           ++ exact IH.
Qed.

End Interactive.

(** X13: with prompts, [execute_moves] changes the disk, the counters and
    the system calls as the loop without prompts does on the moves the
    answers approve: [y] approves a move, [q] ends the loop and any other
    answer, [yes] included, skips the move.  When the input ends at a
    prompt the loop raises [EOFError]. *)
Theorem execute_moves_interactive (E : env) (moves : list DocumentAnalysis) (st : state) :
  Forall (fun a => exists dst, correct_path a = Some (Some dst)) moves ->
  match approved (stdin st) moves with
  | Some (ok, unread) =>
      exists st',
        execute_moves E moves false st = (Return tt, st')
        /\ files st' = files (List.fold_left (after_move E) ok st)
        /\ stats st' = stats (List.fold_left (after_move E) ok st)
        /\ trace st' = trace (List.fold_left (after_move E) ok st)
        /\ stdin st' = unread
        /\ migration_plan st' = migration_plan st
  | None =>
      exists st', execute_moves E moves false st = (Raise EOFError, st')
  end.
Proof.
  intros Hm. apply execute_moves_interactive_sim; auto.
Qed.

Lemma execute_moves_interactive_witness :
  let st := set_stdin ["yes"; "Y"; "q"; "y"] DemoData.backed_up in
  let moves := [DemoData.B; DemoData.A; DemoData.B] in
  Forall (fun a => exists dst, correct_path a = Some (Some dst)) moves
  /\ approved (stdin st) moves = Some ([DemoData.A], ["y"])
  /\ exists st',
       execute_moves Demo.E moves false st = (Return tt, st')
       /\ files st' = files (List.fold_left (after_move Demo.E) [DemoData.A] st)
       /\ stats st' = stats (List.fold_left (after_move Demo.E) [DemoData.A] st)
       /\ trace st' = trace (List.fold_left (after_move Demo.E) [DemoData.A] st)
       /\ stdin st' = ["y"]
       /\ migration_plan st' = migration_plan st.
Proof.
  intros st moves.
  assert (H1 : Forall (fun a => exists dst, correct_path a = Some (Some dst)) moves).
  { repeat constructor; eexists; vm_compute; reflexivity. }
  assert (H2 : approved (stdin st) moves = Some ([DemoData.A], ["y"]))
    by (vm_compute; reflexivity).
  split; [exact H1|]. split; [exact H2|].
  pose proof (execute_moves_interactive Demo.E moves st H1) as H.
  rewrite H2 in H. exact H.
Defined.

(** ** The disk after the references are updated *)

Section RewriteFrame.

Context (E : env).

Lemma after_rewrite_disk (st : state) (ref : ReferenceEdit) (p : Path) :
  (files (after_rewrite E st ref) !! p = None <-> files st !! p = None)
  /\ (ref_file ref <> p -> files (after_rewrite E st ref) !! p = files st !! p)
  /\ moved (stats (after_rewrite E st ref)) = moved (stats st)
  /\ renamed (stats (after_rewrite E st ref)) = renamed (stats st)
  /\ (references_updated (stats st)
      <= references_updated (stats (after_rewrite E st ref))
      <= S (references_updated (stats st)))%nat.
Proof.
  unfold after_rewrite, read_result.
  destruct (unreadable E (ref_file ref)); [cbn; repeat split; auto; lia|].
  destruct (files st !! ref_file ref) as [content|] eqn:Hfile;
    [|cbn; repeat split; auto; lia].
  destruct (new_ref ref) as [new_path|]; [|cbn; repeat split; auto; lia].
  destruct (Str.contains _ content); [|repeat split; auto; lia].
  cbn zeta. destruct (unwritable E (ref_file ref)); [cbn; repeat split; auto; lia|].
  cbn. split; [|split; [|repeat split; lia]].
  - destruct (decide (ref_file ref = p)) as [<-|Hne].
    + rewrite lookup_insert_eq, Hfile. split; discriminate.
    + rewrite lookup_insert_ne by exact Hne. reflexivity.
  - intros Hne. apply lookup_insert_ne. exact Hne.
Qed.

Lemma fold_after_rewrite_disk (refs : list ReferenceEdit) (st : state) (p : Path) :
  (files (List.fold_left (after_rewrite E) refs st) !! p = None <-> files st !! p = None)
  /\ ((forall ref, In ref refs -> ref_file ref <> p) ->
      files (List.fold_left (after_rewrite E) refs st) !! p = files st !! p)
  /\ moved (stats (List.fold_left (after_rewrite E) refs st)) = moved (stats st)
  /\ renamed (stats (List.fold_left (after_rewrite E) refs st)) = renamed (stats st)
  /\ (references_updated (stats st)
      <= references_updated (stats (List.fold_left (after_rewrite E) refs st))
      <= references_updated (stats st) + List.length refs)%nat.
Proof.
  revert st; induction refs as [|ref refs IH]; intros st.
  - cbn. repeat split; auto; lia.
  - cbn [List.fold_left List.length].
    destruct (IH (after_rewrite E st ref)) as (I1 & I2 & I3 & I4 & I5).
    destruct (after_rewrite_disk st ref p) as (A1 & A2 & A3 & A4 & A5).
    split; [rewrite I1; exact A1|]. split; [|repeat split; [congruence ..|lia|lia]].
    intros Hne. rewrite I2 by (intros r Hr; apply Hne; right; exact Hr).
    apply A2, Hne. left. reflexivity.
Qed.

Lemma after_rewrite_stdout (st : state) (ref : ReferenceEdit) (l : line) :
  In l (stdout st) -> In l (stdout (after_rewrite E st ref)).
Proof.
  intros Hl. unfold after_rewrite.
  destruct (read_result E (files st) (ref_file ref)) as [content|e];
    [|cbn; apply in_or_app; auto].
  destruct (new_ref ref); [|cbn; apply in_or_app; auto].
  destruct (Str.contains _ content); [|exact Hl].
  cbn zeta. destruct (unwritable E (ref_file ref)); cbn; apply in_or_app; auto.
Qed.

Lemma fold_after_rewrite_stdout (refs : list ReferenceEdit) (st : state) (l : line) :
  In l (stdout st) -> In l (stdout (List.fold_left (after_rewrite E) refs st)).
Proof.
  revert st; induction refs as [|ref refs IH]; intros st Hl; [exact Hl|].
  cbn [List.fold_left]. apply IH, after_rewrite_stdout, Hl.
Qed.

(** The edits of a file that is not on the disk are reported as failed. *)
Lemma fold_after_rewrite_missing (refs : list ReferenceEdit) (st : state)
    (ref : ReferenceEdit) :
  In ref refs ->
  files st !! ref_file ref = None ->
  unreadable E (ref_file ref) = false ->
  In (PrintFailedToUpdate (ref_file ref) (str_exn (FileNotFoundError (ref_file ref))))
     (stdout (List.fold_left (after_rewrite E) refs st)).
Proof.
  revert st; induction refs as [|r refs IH]; intros st Hin Hnone Hread; [destruct Hin|].
  cbn [List.fold_left]. destruct Hin as [->|Hin].
  - apply fold_after_rewrite_stdout.
    unfold after_rewrite, read_result. rewrite Hread, Hnone. cbn.
    apply in_or_app. right. left. reflexivity.
  - apply IH; [exact Hin| |exact Hread].
    apply (after_rewrite_disk st r (ref_file ref)). exact Hnone.
Qed.

End RewriteFrame.

(** X14: [update_references] returns normally, creates no file and removes
    none, and changes no file other than the referencing files of the
    edits; it adds at most one to [stats['references_updated']] for each
    edit and leaves the counters of the moves alone. *)
Theorem update_references_frame (E : env) (st : state) :
  exists st',
    update_references E st = (Return tt, st')
    /\ (forall p, files st' !! p = None <-> files st !! p = None)
    /\ (forall p,
          (forall ref, In ref (broken_refs (migration_plan st)) -> ref_file ref <> p) ->
          files st' !! p = files st !! p)
    /\ moved (stats st') = moved (stats st)
    /\ renamed (stats st') = renamed (stats st)
    /\ (references_updated (stats st) <= references_updated (stats st')
        <= references_updated (stats st)
           + List.length (broken_refs (migration_plan st)))%nat.
Proof.
  eexists. split; [apply update_references_eq|].
  split; [intros p; apply fold_after_rewrite_disk|].
  split; [intros p; apply fold_after_rewrite_disk|].
  apply (fold_after_rewrite_disk E _ st []).
Qed.

Section MovedTwice.

Context (E : env).

Lemma move_succeeds (a : DocumentAnalysis) (dst : Path) (st : state) :
  correct_path a = Some (Some dst) ->
  move_error E (files st) a = None ->
  exists content,
    files st !! path a = Some content
    /\ files (after_move E st a) = <[dst := content]> (delete (path a) (files st))
    /\ stats (after_move E st a)
       = incr_moved
           (if negb (String.eqb (OsPath.basename (path a)) (OsPath.basename dst))
            then incr_renamed (stats st) else stats st)
    /\ stdout (after_move E st a)
       = stdout st ++ [PrintMoved (OsPath.basename (path a)) (OsPath.basename dst)].
Proof.
  intros Hc He.
  assert (Hp : planned_path a = Some dst) by (unfold planned_path; rewrite Hc; reflexivity).
  unfold after_move, move_result, move_stats, move_report. rewrite He, Hp. cbn.
  unfold move_error in He. rewrite Hp in He.
  destruct (unwritable E (OsPath.dirname dst)); [discriminate|].
  destruct (files st !! path a) as [content|]; [|discriminate].
  exists content. auto.
Qed.

Lemma move_of_missing (a : DocumentAnalysis) (dst : Path) (st : state) :
  correct_path a = Some (Some dst) ->
  unwritable E (OsPath.dirname dst) = false ->
  files st !! path a = None ->
  move_error E (files st) a = Some (FileNotFoundError (path a)).
Proof.
  intros Hc Hw Hnone. unfold move_error, planned_path. rewrite Hc, Hw, Hnone. reflexivity.
Qed.

End MovedTwice.

(** X15: a document that is listed twice among the moves is moved once:
    the second attempt finds no file at the old path, is reported as
    failed and counts nothing. *)
Theorem second_move_of_a_document_fails (E : env) (a : DocumentAnalysis) (dst : Path)
    (st : state) :
  correct_path a = Some (Some dst) ->
  dst <> path a ->
  move_error E (files st) a = None ->
  exists st',
    execute_moves E [a; a] true st = (Return tt, st')
    /\ files st' !! path a = None
    /\ files st' !! dst = files st !! path a
    /\ moved (stats st') = S (moved (stats st))
    /\ stdout st'
       = stdout st ++
         [PrintMoved (OsPath.basename (path a)) (OsPath.basename dst);
          PrintFailedToMove (path a) (str_exn (FileNotFoundError (path a)))].
Proof.
  intros Hc Hne He.
  assert (Hh : has_correct_path a) by (destruct a; [discriminate | exact I]).
  eexists. split; [apply execute_moves_auto_eq; repeat constructor; exact Hh|].
  cbn [List.fold_left].
  destruct (move_succeeds E a dst st Hc He) as (content & Hsrc & Hf & Hs & Ho).
  assert (Hw : unwritable E (OsPath.dirname dst) = false).
  { unfold move_error, planned_path in He. rewrite Hc in He.
    destruct (unwritable E (OsPath.dirname dst)); [discriminate | reflexivity]. }
  assert (Hgone : files (after_move E st a) !! path a = None).
  { rewrite Hf, lookup_insert_ne by exact Hne. apply lookup_delete_eq. }
  pose proof (move_of_missing E a dst _ Hc Hw Hgone) as He2.
  destruct (after_move_failed E a _ _ He2) as (Hf2 & Hs2 & Ho2).
  rewrite Hf2, Hs2, Ho2, Ho, Hs, Hsrc, <- app_assoc.
  split; [exact Hgone|]. split; [rewrite Hf; apply lookup_insert_eq|].
  split; [|reflexivity].
  destruct (negb _); reflexivity.
Qed.

Lemma second_move_of_a_document_fails_witness :
  let st := DemoData.backed_up in
  correct_path DemoData.A = Some (Some Demo.plan_v1_new)
  /\ Demo.plan_v1_new <> path DemoData.A
  /\ move_error Demo.E (files st) DemoData.A = None
  /\ exists st',
       execute_moves Demo.E [DemoData.A; DemoData.A] true st = (Return tt, st')
       /\ files st' !! path DemoData.A = None
       /\ files st' !! Demo.plan_v1_new = files st !! path DemoData.A
       /\ moved (stats st') = S (moved (stats st))
       /\ stdout st'
          = stdout st ++
            [PrintMoved (OsPath.basename (path DemoData.A))
               (OsPath.basename Demo.plan_v1_new);
             PrintFailedToMove (path DemoData.A)
               (str_exn (FileNotFoundError (path DemoData.A)))].
Proof.
  intros st.
  assert (H1 : correct_path DemoData.A = Some (Some Demo.plan_v1_new))
    by (vm_compute; reflexivity).
  assert (H2 : Demo.plan_v1_new <> path DemoData.A) by (vm_compute; discriminate).
  assert (H3 : move_error Demo.E (files st) DemoData.A = None)
    by (vm_compute; reflexivity).
  repeat (split; [assumption|]).
  exact (second_move_of_a_document_fails Demo.E DemoData.A Demo.plan_v1_new st H1 H2 H3).
Defined.

(** X16: the references a moved document holds are not updated: its edits
    name the old path as the file to rewrite, and after the move no file
    is there, so each of them is reported as failed and nothing is written
    at the old path. *)
Theorem references_of_a_moved_document_are_not_updated (E : env)
    (a : DocumentAnalysis) (dst : Path) (ref : ReferenceEdit) (st : state) :
  correct_path a = Some (Some dst) ->
  dst <> path a ->
  move_error E (files st) a = None ->
  unreadable E (path a) = false ->
  In ref (broken_refs (migration_plan st)) ->
  ref_file ref = path a ->
  exists st1 st2,
    execute_moves E [a] true st = (Return tt, st1)
    /\ update_references E st1 = (Return tt, st2)
    /\ files st2 !! path a = None
    /\ In (PrintFailedToUpdate (path a) (str_exn (FileNotFoundError (path a))))
          (stdout st2).
Proof.
  intros Hc Hne He Hread Hin Hfile.
  assert (Hh : has_correct_path a) by (destruct a; [discriminate | exact I]).
  eexists _, _. split; [apply execute_moves_auto_eq; repeat constructor; exact Hh|].
  split; [apply update_references_eq|].
  cbn [List.fold_left migration_plan after_move].
  destruct (move_succeeds E a dst st Hc He) as (content & Hsrc & Hf & Hs & Ho).
  assert (Hgone : files (after_move E st a) !! path a = None).
  { rewrite Hf, lookup_insert_ne by exact Hne. apply lookup_delete_eq. }
  split.
  - apply (fold_after_rewrite_disk E _ (after_move E st a) (path a)). exact Hgone.
  - rewrite <- Hfile.
    apply (fold_after_rewrite_missing E _ (after_move E st a) ref); rewrite ?Hfile; auto.
Qed.

Lemma references_of_a_moved_document_are_not_updated_witness :
  let st := DemoLinked.planned in
  let a := analysis_of Demo.E DemoLinked.disk Demo.plan_v1 in
  correct_path a = Some (Some Demo.plan_v1_new)
  /\ Demo.plan_v1_new <> path a
  /\ move_error Demo.E (files st) a = None
  /\ unreadable Demo.E (path a) = false
  /\ In DemoLinked.edit (broken_refs (migration_plan st))
  /\ ref_file DemoLinked.edit = path a
  /\ exists st1 st2,
       execute_moves Demo.E [a] true st = (Return tt, st1)
       /\ update_references Demo.E st1 = (Return tt, st2)
       /\ files st2 !! path a = None
       /\ In (PrintFailedToUpdate (path a) (str_exn (FileNotFoundError (path a))))
             (stdout st2).
Proof.
  intros st a.
  assert (H1 : correct_path a = Some (Some Demo.plan_v1_new)) by (vm_compute; reflexivity).
  assert (H2 : Demo.plan_v1_new <> path a) by (vm_compute; discriminate).
  assert (H3 : move_error Demo.E (files st) a = None) by (vm_compute; reflexivity).
  assert (H4 : unreadable Demo.E (path a) = false) by reflexivity.
  assert (H5 : In DemoLinked.edit (broken_refs (migration_plan st))).
  { vm_compute. left. reflexivity. }
  assert (H6 : ref_file DemoLinked.edit = path a) by reflexivity.
  repeat (split; [assumption|]).
  exact (references_of_a_moved_document_are_not_updated Demo.E a Demo.plan_v1_new
           DemoLinked.edit st H1 H2 H3 H4 H5 H6).
Defined.

(** ** What the buckets hold *)

Lemma needs_triage_analysis (E : env) (fs : gmap Path string) (p : Path) :
  needs_triage (analysis_of E fs p) = true ->
  exists c,
    correct_path (analysis_of E fs p) = Some (Some c)
    /\ c <> p
    /\ doc_type (analysis_of E fs p) <> "uncertain"
    /\ (50 <= confidence (analysis_of E fs p))%Z.
Proof.
  unfold analysis_of. destruct (read_result E fs p) as [content|e].
  - unfold analysis_of_content.
    destruct (detect_document_type E p content) as [t conf].
    unfold needs_triage. cbn.
    destruct (negb (String.eqb t "uncertain") && (50 <=? conf)%Z) eqn:Hcond.
    + destruct (get_correct_path E t p content) as [c|]; cbn.
      * intros H. apply bool_decide_eq_true in H. injection H as H.
        apply negb_true_iff, bool_decide_eq_false in H.
        apply andb_true_iff in Hcond as [Ht Hc].
        exists c. split; [reflexivity|]. split; [exact H|]. split.
        -- intros ->. discriminate Ht.
        -- apply Z.leb_le, Hc.
      * intros H. apply bool_decide_eq_true in H. discriminate H.
    + cbn. intros H. apply bool_decide_eq_true in H. discriminate H.
  - unfold needs_triage. cbn. intros H.
    apply andb_true_iff in H as [_ H]. apply bool_decide_eq_true in H. discriminate H.
Qed.

(** X17: from a fresh plan, every entry of the three buckets is the
    analysis of a listed document with a destination that differs from its
    path, a type other than ['uncertain'] and a confidence of at least 50:
    [correct_path] is only computed then.  So [manual_review] holds the
    documents of confidence 50 to 69 that need a move, and a document of
    lower confidence is never put up for review. *)
Theorem bucket_entries_have_a_destination (E : env) (documents : list Path)
    (st : state) :
  migration_plan st = init_plan ->
  exists st',
    build_migration_plan E documents st = (Return tt, st')
    /\ forall a,
         In a (auto_moves (migration_plan st') ++ suggested_moves (migration_plan st')
               ++ manual_review (migration_plan st')) ->
         (exists p, In p documents /\ a = analysis_of E (files st) p)
         /\ (exists c, correct_path a = Some (Some c) /\ c <> path a)
         /\ doc_type a <> "uncertain"
         /\ (50 <= confidence a)%Z
         /\ (In a (manual_review (migration_plan st')) -> (50 <= confidence a < 70)%Z).
Proof.
  intros Hp.
  destruct (build_migration_plan_fresh E documents st Hp) as (s & out & Heq & _).
  eexists. split; [exact Heq|]. cbn [migration_plan].
  destruct (built_plan_buckets E (files st) documents) as (-> & -> & ->).
  intros a Hin.
  assert (Ha : In a (List.map (analysis_of E (files st)) documents)
               /\ needs_triage a = true).
  { rewrite !in_app_iff in Hin.
    destruct Hin as [H|[H|H]]; apply List.filter_In in H as [H1 H2];
      (split; [exact H1|]).
    - unfold auto_bucket in H2. apply andb_true_iff in H2 as [H2 _]. exact H2.
    - unfold suggested_bucket in H2. apply andb_true_iff in H2 as [H2 _].
      apply andb_true_iff in H2 as [H2 _]. exact H2.
    - unfold manual_bucket in H2. apply andb_true_iff in H2 as [H2 _].
      apply andb_true_iff in H2 as [H2 _]. exact H2. }
  destruct Ha as [Hmap Hnt]. apply in_map_iff in Hmap as (p & <- & Hdoc).
  destruct (needs_triage_analysis E (files st) p Hnt) as (c & Hc & Hne & Ht & Hconf).
  split; [exists p; auto|].
  split; [exists c; rewrite analysis_of_path; auto|].
  split; [exact Ht|]. split; [exact Hconf|].
  intros Hman. apply List.filter_In in Hman as [_ Hman].
  unfold manual_bucket in Hman. apply andb_true_iff in Hman as [_ Hman].
  apply negb_true_iff, Z.leb_gt in Hman. lia.
Qed.

Lemma bucket_entries_have_a_destination_witness :
  migration_plan (Demo.start []) = init_plan
  /\ exists st',
       build_migration_plan Demo.E DemoData.documents (Demo.start []) = (Return tt, st')
       /\ forall a,
            In a (auto_moves (migration_plan st') ++ suggested_moves (migration_plan st')
                  ++ manual_review (migration_plan st')) ->
            (exists p, In p DemoData.documents
                       /\ a = analysis_of Demo.E (files (Demo.start [])) p)
            /\ (exists c, correct_path a = Some (Some c) /\ c <> path a)
            /\ doc_type a <> "uncertain"
            /\ (50 <= confidence a)%Z
            /\ (In a (manual_review (migration_plan st')) -> (50 <= confidence a < 70)%Z).
Proof.
  split; [reflexivity|].
  apply (bucket_entries_have_a_destination Demo.E DemoData.documents (Demo.start [])).
  reflexivity.
Defined.

(** ** The dry run *)

(** X18: [organize] with [--dry-run] on a fresh object changes no file,
    issues no system call and reads no input, whether it returns or ends
    with the exception of the display. *)
Theorem organize_dry_run_changes_nothing (E : env) (auto : bool) (st st' : state)
    (r : outcome unit) :
  migration_plan st = init_plan ->
  organize E true auto st = (r, st') ->
  files st' = files st /\ trace st' = trace st /\ stdin st' = stdin st.
Proof.
  intros Hp Hrun. unfold organize in Hrun. rewrite bind_eq in Hrun.
  destruct (scan_all_documents_eq E st) as [docs Hs]. rewrite Hs in Hrun.
  rewrite bind_eq in Hrun. unfold print at 1 in Hrun.
  destruct docs as [|p docs].
  - injection Hrun as <- <-. cbn. auto.
  - set (st1 := add_stdout _ _) in Hrun.
    assert (Hp1 : migration_plan st1 = init_plan) by (subst st1; destruct st; exact Hp).
    destruct (build_migration_plan_fresh E (p :: docs) st1 Hp1) as (s & out & Heq & _).
    rewrite bind_eq, Heq in Hrun.
    unfold print_migration_plan, print, get_stats in Hrun. rewrite !bind_eq in Hrun.
    cbn [stats add_stdout negb] in Hrun.
    destruct (detected s =? 0)%nat; injection Hrun as <- <-; subst st1; cbn; auto.
Qed.

Lemma organize_dry_run_changes_nothing_witness :
  migration_plan (Demo.start ["y"]) = init_plan
  /\ files (Demo.after_organize true false ["y"]) = files (Demo.start ["y"])
  /\ trace (Demo.after_organize true false ["y"]) = trace (Demo.start ["y"])
  /\ stdin (Demo.after_organize true false ["y"]) = stdin (Demo.start ["y"]).
Proof.
  split; [reflexivity|].
  apply (organize_dry_run_changes_nothing Demo.E false (Demo.start ["y"])
           (Demo.after_organize true false ["y"])
           (fst (organize Demo.E true false (Demo.start ["y"])))).
  - reflexivity.
  - apply surjective_pairing.
Defined.

(** ** The counters and the lines of the report *)

Lemma moved_lines_app (a b : list line) :
  moved_lines (a ++ b) = (moved_lines a + moved_lines b)%nat.
Proof. unfold moved_lines. rewrite List.filter_app, length_app. reflexivity. Qed.

Lemma updated_lines_app (a b : list line) :
  updated_lines (a ++ b) = (updated_lines a + updated_lines b)%nat.
Proof. unfold updated_lines. rewrite List.filter_app, length_app. reflexivity. Qed.

Lemma tallied_refl (st : state) : tallied st st.
Proof. exists []. rewrite app_nil_r. cbn. repeat split; auto; lia. Qed.

Lemma tallied_trans (st1 st2 st3 : state) :
  tallied st1 st2 -> tallied st2 st3 -> tallied st1 st3.
Proof.
  intros (l1 & O1 & M1 & U1 & F1) (l2 & O2 & M2 & U2 & F2). exists (l1 ++ l2).
  rewrite O2, O1, M2, M1, U2, U1, moved_lines_app, updated_lines_app, app_assoc.
  repeat split; [lia | lia | apply Forall_app; auto].
Qed.

Lemma tallied_same (st st' : state) :
  stdout st' = stdout st -> stats st' = stats st -> tallied st st'.
Proof.
  intros Ho Hs. exists []. rewrite Ho, Hs, app_nil_r. cbn. repeat split; auto; lia.
Qed.

Lemma tallied_quiet (st : state) (l : line) : quiet l -> tallied st (add_stdout l st).
Proof.
  intros Hq. exists [l]. cbn. split; [reflexivity|].
  destruct l; try destruct Hq; cbn; repeat split; try lia; repeat constructor; auto.
Qed.

Section Tally.

Context (E : env).

Lemma tallied_print (l : line) : quiet l -> respects tallied (print l).
Proof. intros Hq st r st' [= <- <-]. apply tallied_quiet, Hq. Qed.

Lemma tallied_input (prompt : line) : quiet prompt -> respects tallied (input prompt).
Proof.
  intros Hq st r st' Hrun. unfold input in Hrun.
  destruct (stdin (add_stdout prompt st)) as [|response rest];
    injection Hrun as <- <-; [apply tallied_quiet, Hq|].
  eapply tallied_trans; [apply tallied_quiet, Hq | apply tallied_same; reflexivity].
Qed.

Lemma tallied_makedirs (d : Path) : respects tallied (makedirs E d).
Proof.
  intros st r st' Hrun. unfold makedirs in Hrun.
  destruct (unwritable E d); injection Hrun as <- <-; apply tallied_same; reflexivity.
Qed.

Lemma tallied_copy2 (src dst : Path) : respects tallied (copy2 E src dst).
Proof.
  intros st r st' Hrun. unfold copy2 in Hrun.
  destruct (unreadable E src);
    [|destruct (files (add_trace (SysCopy src dst) st) !! src);
      [destruct (unwritable E dst)|]];
    injection Hrun as <- <-; apply tallied_same; reflexivity.
Qed.

Lemma tallied_move (src dst : Path) : respects tallied (move E src dst).
Proof.
  intros st r st' Hrun. unfold move in Hrun.
  destruct (files (add_trace (SysMove src dst) st) !! src);
    [destruct (unwritable E dst)|];
    injection Hrun as <- <-; apply tallied_same; reflexivity.
Qed.

Lemma tallied_write_file (p : Path) (content : string) :
  respects tallied (write_file E p content).
Proof.
  intros st r st' Hrun. unfold write_file in Hrun.
  destruct (unwritable E p); injection Hrun as <- <-; apply tallied_same; reflexivity.
Qed.

Lemma tallied_apply_move (src : Path) (dst : option Path) :
  respects tallied (apply_move E src dst).
Proof.
  unfold apply_move.
  apply respects_bind; [exact tallied_trans | | intros ?]; [apply respects_as_path, tallied_refl|].
  apply respects_bind; [exact tallied_trans | | intros ?]; [apply tallied_makedirs|].
  apply respects_bind; [exact tallied_trans | | intros ?]; [apply tallied_move|].
  apply respects_bind; [exact tallied_trans | | intros ?].
  - destruct (negb _); [|apply respects_ret, tallied_refl].
    intros st r st' [= <- <-]. exists []. cbn. rewrite app_nil_r.
    repeat split; auto; lia.
  - intros st r st' [= <- <-]. eexists [_]. cbn. split; [reflexivity|].
    split; [simpl; lia|]. split; [simpl; lia|]. constructor; [intros [] | constructor].
Qed.

Lemma tallied_rewrite_reference (ref : ReferenceEdit) :
  respects tallied (rewrite_reference E ref).
Proof.
  unfold rewrite_reference.
  apply respects_bind; [exact tallied_trans | | intros ?]; [apply respects_read_file, tallied_refl|].
  apply respects_bind; [exact tallied_trans | | intros ?]; [apply respects_as_path, tallied_refl|].
  destruct (Str.contains _ _); [|apply respects_ret, tallied_refl].
  apply respects_bind; [exact tallied_trans | | intros ?]; [apply tallied_write_file|].
  intros st r st' [= <- <-]. eexists [_]. cbn. split; [reflexivity|].
  split; [simpl; lia|]. split; [simpl; lia|]. constructor; [intros [] | constructor].
Qed.

Lemma tallied_confirm_move (auto : bool) (src : Path) (dst : option Path) :
  respects tallied (confirm_move auto src dst).
Proof.
  unfold confirm_move. destruct auto; [apply respects_ret, tallied_refl|].
  apply respects_bind; [exact tallied_trans | | intros ?]; [apply respects_as_path, tallied_refl|].
  apply respects_bind; [exact tallied_trans | | intros ?]; [apply tallied_input; exact I|].
  destruct (String.eqb _ "q"); [apply respects_ret, tallied_refl|].
  destruct (negb _); apply respects_ret, tallied_refl.
Qed.

Lemma tallied_confirm_migration : respects tallied confirm_migration.
Proof.
  unfold confirm_migration.
  apply respects_bind; [exact tallied_trans | | intros ?]; [apply respects_get_plan, tallied_refl|].
  destruct (_ =? 0)%nat.
  - apply respects_bind; [exact tallied_trans | | intros ?];
      [apply tallied_print; exact I | apply respects_ret, tallied_refl].
  - apply respects_bind; [exact tallied_trans | | intros ?];
      [apply tallied_input; exact I | apply respects_ret, tallied_refl].
Qed.

Lemma tallied_execute_moves (moves : list DocumentAnalysis) (auto : bool) :
  respects tallied (execute_moves E moves auto).
Proof.
  induction moves as [|a moves IH]; [apply respects_ret, tallied_refl|].
  cbn [execute_moves].
  apply respects_bind; [exact tallied_trans | | intros ?]; [apply respects_subscript, tallied_refl|].
  apply respects_bind; [exact tallied_trans | | intros ?]; [apply tallied_confirm_move|].
  match goal with d : decision |- _ => destruct d end.
  - apply respects_bind; [exact tallied_trans | | intros ?]; [|exact IH].
    apply respects_try_except; [exact tallied_trans | apply tallied_apply_move |].
    intros e. apply tallied_print. exact I.
  - exact IH.
  - apply respects_ret, tallied_refl.
Qed.

Lemma tallied_update_references : respects tallied (update_references E).
Proof.
  unfold update_references.
  apply respects_bind; [exact tallied_trans | | intros ?]; [apply respects_get_plan, tallied_refl|].
  apply respects_for_each; [exact tallied_refl | exact tallied_trans|].
  intros ref _.
  apply respects_try_except; [exact tallied_trans | apply tallied_rewrite_reference |].
  intros e. apply tallied_print. exact I.
Qed.

Lemma tallied_create_backup : respects tallied (create_backup E).
Proof.
  apply respects_create_backup;
    [exact tallied_refl | exact tallied_trans | apply tallied_makedirs | apply tallied_copy2].
Qed.

End Tally.

(** X19: whatever the mode, the answers and the failures, the run of
    [execute_migration] raises [stats['moved']] by the number of lines that
    report a move made and [stats['references_updated']] by the number of
    lines that report a rewritten file; and the figures of a summary it
    prints are the final values of the three counters. *)
Theorem migration_summary_is_accurate (E : env) (mode : string) (st st' : state)
    (r : outcome bool) :
  execute_migration E mode st = (r, st') ->
  exists lines,
    stdout st' = stdout st ++ lines
    /\ moved (stats st') = (moved (stats st) + moved_lines lines)%nat
    /\ references_updated (stats st')
       = (references_updated (stats st) + updated_lines lines)%nat
    /\ forall m n u,
         In (PrintMigrationComplete m n u) lines ->
         m = moved (stats st') /\ n = renamed (stats st')
         /\ u = references_updated (stats st').
Proof.
  assert (Hweak : forall s s', tallied s s' ->
            exists lines,
              stdout s' = stdout s ++ lines
              /\ moved (stats s') = (moved (stats s) + moved_lines lines)%nat
              /\ references_updated (stats s')
                 = (references_updated (stats s) + updated_lines lines)%nat
              /\ forall m n u,
                   In (PrintMigrationComplete m n u) lines ->
                   m = moved (stats s') /\ n = renamed (stats s')
                   /\ u = references_updated (stats s')).
  { intros s s' (lines & Ho & Hm & Hu & Hf). exists lines.
    repeat split; auto; exfalso;
      (eapply Forall_forall in Hf; [|apply list_elem_of_In; eassumption]);
      apply Hf; exact I. }
  intros Hrun. unfold execute_migration in Hrun. rewrite bind_eq in Hrun.
  destruct ((if String.eqb mode "auto" then mret true else confirm_migration) st)
    as [[go|e] st1] eqn:Hgo.
  2: { injection Hrun as _ <-. apply Hweak.
       destruct (String.eqb mode "auto");
         [discriminate Hgo | eapply tallied_confirm_migration, Hgo]. }
  assert (T1 : tallied st st1).
  { destruct (String.eqb mode "auto");
      [injection Hgo as _ <-; apply tallied_refl
      | eapply tallied_confirm_migration, Hgo]. }
  destruct go; [|injection Hrun as _ <-; apply Hweak, T1].
  rewrite bind_eq in Hrun.
  destruct (create_backup E st1) as [[backup|e] st2] eqn:Hb.
  2: { injection Hrun as _ <-. apply Hweak.
       eapply tallied_trans; [exact T1 | eapply tallied_create_backup, Hb]. }
  assert (T2 : tallied st st2)
    by (eapply tallied_trans; [exact T1 | eapply tallied_create_backup, Hb]).
  unfold migrate in Hrun. rewrite bind_eq in Hrun. unfold print at 1 in Hrun.
  set (st3 := add_stdout (PrintBackupCreated backup) st2) in Hrun.
  assert (T3 : tallied st st3)
    by (eapply tallied_trans; [exact T2 | apply tallied_quiet; exact I]).
  unfold try_except in Hrun. rewrite bind_eq in Hrun. cbn [get_plan] in Hrun.
  rewrite bind_eq in Hrun.
  destruct (execute_moves E (auto_moves (migration_plan st3)) true st3)
    as [[[]|e] st4] eqn:H4.
  2: { injection Hrun as _ <-. apply Hweak.
       eapply tallied_trans; [|apply tallied_quiet; exact I].
       eapply tallied_trans; [exact T3 | eapply tallied_execute_moves, H4]. }
  assert (T4 : tallied st st4)
    by (eapply tallied_trans; [exact T3 | eapply tallied_execute_moves, H4]).
  rewrite bind_eq in Hrun.
  destruct ((if negb (String.eqb mode "auto")
             then plan ← get_plan; execute_moves E (suggested_moves plan) false
             else mret tt) st4) as [[[]|e] st5] eqn:H5.
  2: { injection Hrun as _ <-. apply Hweak.
       eapply tallied_trans; [|apply tallied_quiet; exact I].
       eapply tallied_trans; [exact T4|].
       destruct (negb _); [|discriminate H5].
       rewrite bind_eq in H5. cbn [get_plan] in H5.
       eapply tallied_execute_moves, H5. }
  assert (T5 : tallied st st5).
  { eapply tallied_trans; [exact T4|].
    destruct (negb _); [|injection H5 as <-; apply tallied_refl].
    rewrite bind_eq in H5. cbn [get_plan] in H5.
    eapply tallied_execute_moves, H5. }
  rewrite bind_eq, update_references_eq in Hrun.
  pose proof (tallied_update_references E st5 _ _ (update_references_eq E st5)) as T6.
  set (st6 := List.fold_left (after_rewrite E) _ st5) in *.
  rewrite bind_eq in Hrun. cbn [get_stats] in Hrun.
  rewrite bind_eq in Hrun. unfold print in Hrun. cbn [mret M_ret] in Hrun.
  injection Hrun as _ <-.
  destruct (tallied_trans _ _ _ T5 T6) as (lines & Ho & Hm & Hu & Hf).
  exists (lines ++ [PrintMigrationComplete (moved (stats st6)) (renamed (stats st6))
                      (references_updated (stats st6))]).
  cbn [stdout stats add_stdout].
  rewrite Ho, Hm, Hu, moved_lines_app, updated_lines_app, app_assoc.
  split; [reflexivity|]. split; [cbn; lia|]. split; [cbn; lia|].
  intros m n u Hin. apply in_app_iff in Hin as [Hin|[Hin|[]]].
  - exfalso. eapply Forall_forall in Hf; [|apply list_elem_of_In; exact Hin].
    apply Hf. exact I.
  - injection Hin as <- <- <-. rewrite <- Hm, <- Hu. auto.
Qed.

Lemma migration_summary_is_accurate_witness :
  let st := DemoData.planned in
  let run := execute_migration Demo.E "auto" st in
  exists lines,
    stdout (snd run) = stdout st ++ lines
    /\ moved (stats (snd run)) = (moved (stats st) + moved_lines lines)%nat
    /\ references_updated (stats (snd run))
       = (references_updated (stats st) + updated_lines lines)%nat
    /\ forall m n u,
         In (PrintMigrationComplete m n u) lines ->
         m = moved (stats (snd run)) /\ n = renamed (stats (snd run))
         /\ u = references_updated (stats (snd run)).
Proof.
  intros st run.
  exact (migration_summary_is_accurate Demo.E "auto" st (snd run) (fst run)
           (surjective_pairing run)).
Defined.

(** ** The mode [detect] *)

Section Detect.

Context (E : env).

Lemma detect_report_readable (fs : gmap Path string) (p : Path) (st : state) :
  readable E fs p = true ->
  exists lines, detect_report (analysis_of E fs p) st = (Return lines, st)
                /\ lines <> [].
Proof.
  unfold readable, analysis_of.
  destruct (read_result E fs p) as [content|e]; [intros _|discriminate].
  unfold analysis_of_content, detect_report.
  destruct (detect_document_type E p content) as [t conf].
  cbn [needs_move correct_path]. rewrite bind_eq. cbn [subscript mret M_ret].
  destruct (if negb (String.eqb t "uncertain") && (50 <=? conf)%Z
            then get_correct_path E t p content else None) as [c|].
  - destruct (negb (bool_decide (c = p))).
    + rewrite bind_eq. cbn [subscript mret M_ret]. rewrite bind_eq.
      cbn [as_path mret M_ret]. eexists. split; [reflexivity | discriminate].
    + eexists. split; [reflexivity | discriminate].
  - eexists. split; [reflexivity | discriminate].
Qed.

Lemma detect_report_unreadable (fs : gmap Path string) (p : Path) (st : state) :
  readable E fs p = false ->
  detect_report (analysis_of E fs p) st = (Raise (KeyError "needs_move"), st).
Proof.
  unfold readable, analysis_of.
  destruct (read_result E fs p) as [content|e]; [discriminate | intros _].
  reflexivity.
Qed.

Lemma detect_documents_run (documents : list Path) (st : state) :
  exists s,
    (Forall (fun p => readable E (files st) p = true) documents ->
     exists lines,
       detect_documents E documents st = (Return lines, set_stats s st)
       /\ (List.length documents <= List.length lines)%nat)
    /\ (Exists (fun p => readable E (files st) p = false) documents ->
        detect_documents E documents st
        = (Raise (KeyError "needs_move"), set_stats s st)).
Proof.
  revert st; induction documents as [|p documents IH]; intros st.
  - exists (stats st). rewrite set_stats_id. split.
    + intros _. exists []. split; [reflexivity | cbn; lia].
    + intros H. inversion H.
  - cbn [detect_documents]. rewrite bind_eq, analyze_document_eq.
    set (st1 := set_stats _ st).
    destruct (readable E (files st) p) eqn:Hp.
    + destruct (detect_report_readable (files st) p st1 Hp) as (lines & Hl & Hne).
      destruct (IH st1) as (s & Hok & Hbad).
      exists s. change (set_stats s st1) with (set_stats s st) in *.
      change (files st1) with (files st) in *.
      rewrite bind_eq, Hl, bind_eq. split.
      * intros Hall. apply Forall_cons_1 in Hall as [_ Hall].
        destruct (Hok Hall) as (more & -> & Hlen).
        exists (lines ++ more). split; [reflexivity|].
        rewrite length_app. destruct lines; [congruence|]. cbn. lia.
      * intros Hex. apply Exists_cons in Hex as [Hex|Hex]; [congruence|].
        rewrite (Hbad Hex). reflexivity.
    + exists (stats st1). change (set_stats (stats st1) st) with st1.
      rewrite bind_eq, (detect_report_unreadable (files st) p st1 Hp). split.
      * intros Hall. apply Forall_cons_1 in Hall as [Hall _]. congruence.
      * intros _. reflexivity.
Qed.

End Detect.

(** X20: the mode [detect] analyses the first ten documents of the scan.
    When all of them can be read it returns, with at least one line for
    each; when one of them cannot be read it ends with [KeyError] on
    ['needs_move'], a key the analysis of an unreadable document does not
    have.  No file is changed either way. *)
Theorem detect_fails_on_an_unreadable_document (E : env) (st : state)
    (documents : list Path) :
  fst (scan_all_documents E st) = Return documents ->
  exists st',
    files st' = files st /\ trace st' = trace st
    /\ (Forall (fun p => readable E (files st) p = true) (firstn 10 documents) ->
        exists lines,
          detect E st = (Return lines, st')
          /\ (List.length (firstn 10 documents) <= List.length lines)%nat)
    /\ (Exists (fun p => readable E (files st) p = false) (firstn 10 documents) ->
        detect E st = (Raise (KeyError "needs_move"), st')).
Proof.
  intros Hscan. unfold detect.
  destruct (scan_all_documents_eq E st) as [docs Hs].
  rewrite Hs in Hscan. cbn [fst] in Hscan. injection Hscan as ->.
  set (st1 := set_stats _ st) in Hs.
  destruct (detect_documents_run E (firstn 10 documents) st1) as (s & Hok & Hbad).
  exists (set_stats s st1). split; [reflexivity|]. split; [reflexivity|].
  rewrite bind_eq, Hs. split; [exact Hok | exact Hbad].
Qed.

Lemma detect_fails_on_an_unreadable_document_witness :
  let st := Demo.start [] in
  fst (scan_all_documents DemoLocked.E st) = Return DemoData.documents
  /\ Exists (fun p => readable DemoLocked.E (files st) p = false)
       (firstn 10 DemoData.documents)
  /\ fst (detect DemoLocked.E st) = Raise (KeyError "needs_move").
Proof.
  intros st.
  assert (H1 : fst (scan_all_documents DemoLocked.E st) = Return DemoData.documents)
    by (vm_compute; reflexivity).
  assert (H2 : Exists (fun p => readable DemoLocked.E (files st) p = false)
                 (firstn 10 DemoData.documents))
    by (apply Exists_cons_hd; reflexivity).
  split; [exact H1|]. split; [exact H2|].
  destruct (detect_fails_on_an_unreadable_document DemoLocked.E st DemoData.documents H1)
    as (st' & _ & _ & _ & Hbad).
  rewrite (Hbad H2). reflexivity.
Defined.

(** ** The plan during the execution *)

(** X21: [execute_migration] never changes the migration plan, in any
    mode and whatever happens: the moves made and the edits applied are
    not removed from it. *)
Theorem execute_migration_keeps_the_plan (E : env) (mode : string) (st st' : state)
    (r : outcome bool) :
  execute_migration E mode st = (r, st') ->
  migration_plan st' = migration_plan st.
Proof.
  assert (Hrefl : forall s, unchanged migration_plan s s) by reflexivity.
  assert (Htrans : forall s1 s2 s3, unchanged migration_plan s1 s2 ->
            unchanged migration_plan s2 s3 -> unchanged migration_plan s1 s3)
    by (unfold unchanged; congruence).
  assert (Hprint : forall l, respects (unchanged migration_plan) (print l))
    by (intros l s r0 s' [= <- <-]; reflexivity).
  assert (Hupd : respects (unchanged migration_plan) (update_references E)).
  { intros s r0 s' Hrun. rewrite update_references_eq in Hrun.
    injection Hrun as _ <-. apply fold_after_rewrite_frame. }
  apply (respects_bind _ Htrans).
  - destruct (String.eqb mode "auto"); [apply respects_ret, Hrefl|].
    apply respects_confirm_migration; auto; reflexivity.
  - intros [|]; [|apply respects_ret, Hrefl].
    apply (respects_bind _ Htrans); [apply create_backup_plan|]. intros backup.
    unfold migrate. apply (respects_bind _ Htrans); [apply Hprint|]. intros _.
    apply (respects_try_except _ Htrans).
    + apply (respects_bind _ Htrans); [apply respects_get_plan, Hrefl|]. intros plan.
      apply (respects_bind _ Htrans); [apply execute_moves_plan|]. intros _.
      apply (respects_bind _ Htrans).
      * destruct (negb _); [|apply respects_ret, Hrefl].
        apply (respects_bind _ Htrans); [apply respects_get_plan, Hrefl|].
        intros plan'. apply execute_moves_plan.
      * intros _. apply (respects_bind _ Htrans); [exact Hupd|]. intros _.
        apply (respects_bind _ Htrans); [apply respects_get_stats, Hrefl|]. intros s.
        apply (respects_bind _ Htrans); [apply Hprint|]. intros _.
        apply respects_ret, Hrefl.
    + intros e. apply (respects_bind _ Htrans); [apply Hprint|]. intros _.
      apply respects_ret, Hrefl.
Qed.

Lemma execute_migration_keeps_the_plan_witness :
  let st := set_stdin ["y"; "y"] DemoData.planned in
  migration_plan (snd (execute_migration Demo.E "interactive" st)) = migration_plan st.
Proof.
  intros st.
  exact (execute_migration_keeps_the_plan Demo.E "interactive" st
           (snd (execute_migration Demo.E "interactive" st))
           (fst (execute_migration Demo.E "interactive" st))
           (surjective_pairing _)).
Defined.

(** ** The automatic mode on a plan without moves *)

(** X22: in the mode ['auto'] nothing checks that there is a move to make:
    with a plan that holds no move and no edit, [execute_migration] still
    creates the directory of the backup, reports the backup and the
    completion, and returns [True].  (In the other modes the confirmation
    stops the run before that.) *)
Theorem auto_mode_backs_up_an_empty_plan (E : env) (st : state) :
  auto_moves (migration_plan st) = [] ->
  suggested_moves (migration_plan st) = [] ->
  broken_refs (migration_plan st) = [] ->
  unwritable E (backup_dir E) = false ->
  exists st',
    execute_migration E "auto" st = (Return true, st')
    /\ trace st' = trace st ++ [SysMakedirs (backup_dir E)]
    /\ stdout st'
       = stdout st ++
         [PrintBackupCreated (backup_dir E);
          PrintMigrationComplete (moved (stats st)) (renamed (stats st))
            (references_updated (stats st))]
    /\ files st' = files st /\ stats st' = stats st.
Proof.
  intros Ha Hs Hr Hw.
  rewrite execute_migration_auto_eq by (rewrite Ha; constructor).
  unfold create_backup. rewrite bind_eq. unfold makedirs at 1. rewrite Hw.
  rewrite bind_eq. cbn [get_plan migration_plan add_trace].
  rewrite Ha, Hs. cbn [app for_each]. rewrite bind_eq. cbn [mret M_ret].
  eexists. split; [reflexivity|].
  unfold after_auto_migration. rewrite Ha, Hr. cbn. rewrite <- app_assoc.
  auto.
Qed.

Lemma auto_mode_backs_up_an_empty_plan_witness :
  let st := Demo.start [] in
  auto_moves (migration_plan st) = []
  /\ suggested_moves (migration_plan st) = []
  /\ broken_refs (migration_plan st) = []
  /\ unwritable Demo.E (backup_dir Demo.E) = false
  /\ exists st',
       execute_migration Demo.E "auto" st = (Return true, st')
       /\ trace st' = trace st ++ [SysMakedirs (backup_dir Demo.E)]
       /\ stdout st'
          = stdout st ++
            [PrintBackupCreated (backup_dir Demo.E);
             PrintMigrationComplete (moved (stats st)) (renamed (stats st))
               (references_updated (stats st))]
       /\ files st' = files st /\ stats st' = stats st.
Proof.
  intros st.
  assert (H1 : auto_moves (migration_plan st) = []) by reflexivity.
  assert (H2 : suggested_moves (migration_plan st) = []) by reflexivity.
  assert (H3 : broken_refs (migration_plan st) = []) by reflexivity.
  assert (H4 : unwritable Demo.E (backup_dir Demo.E) = false) by reflexivity.
  repeat (split; [assumption|]).
  exact (auto_mode_backs_up_an_empty_plan Demo.E st H1 H2 H3 H4).
Defined.
